(** * hcsshim: utility-VM creation (internal/uvm/create_wcow.go) and
      network-namespace provisioning (internal/hcsoci/network.go)

    A shallow embedding of [CreateWCOW], [prepareConfigDoc],
    [getScratchFolder], [startExternalGcsListener],
    [createNetworkNamespace], [GetNamespaceEndpoints] and
    [SetupNetworkNamespace].

    Go values are modelled as follows.
    - [error] is the message of a Go error; [fmt.Errorf("ctx: %s", err)] and
      [errors.Wrap] are string concatenation.
    - A function that talks to the outside world (file system, host compute
      service, host networking service, hypervisor sockets) is a state
      transformer over a world that carries a log of the calls made so far.
      What the outside world answers is not decided by the code: every
      answer is read from an oracle that sees the whole world, log included,
      so the same call may be answered differently at different times.
    - An early [return nil, err] is the [Err] outcome, a run-time panic
      (index out of range, nil dereference) is the [Panic] outcome. *)

From Stdlib Require Import ZArith String List Bool Lia.
From stdpp Require Import base option list strings gmap.

Set Warnings "-register-all".

Local Open Scope string_scope.
Local Open Scope Z_scope.
Local Open Scope list_scope.

Definition error := string.

(** [fmt.Errorf(ctx ++ ": %s", err)] and [errors.Wrap(err, ctx)]. *)
Definition wrap (ctx : string) (e : error) : error :=
  String.append ctx (String.append ": " e).

(** ** JSON values *)

Module Json.

(** A JSON value. An object keeps its members as an association list; the
    first binding of a key is the one that counts. *)
Inductive json : Type :=
| JNull
| JBool (b : bool)
| JNum (n : Z)
| JStr (s : string)
| JArr (l : list json)
| JObj (m : list (string * json)).

Definition members := list (string * json).

Fixpoint field (k : string) (m : members) : option json :=
  match m with
  | [] => None
  | (k', v) :: r => if String.eqb k k' then Some v else field k r
  end.

Definition has_key (k : string) (m : members) : bool :=
  match field k m with Some _ => true | None => false end.

(** Member [k] of a value, [None] when the value is not an object. *)
Definition get (k : string) (v : json) : option json :=
  match v with
  | JObj m => field k m
  | _ => None
  end.

(** The value found by following a path of keys. *)
Fixpoint get_path (p : list string) (v : json) : option json :=
  match p with
  | [] => Some v
  | k :: p' => match get k v with
               | Some v' => get_path p' v'
               | None => None
               end
  end.

(** Encoders for struct fields tagged [omitempty]: the zero value leaves the
    member out. *)
Definition omit_bool (k : string) (b : bool) : members :=
  if b then [(k, JBool true)] else [].

Definition omit_int (k : string) (n : Z) : members :=
  if n =? 0 then [] else [(k, JNum n)].

Definition omit_str (k : string) (s : string) : members :=
  if String.eqb s "" then [] else [(k, JStr s)].

Definition omit_ptr {A} (k : string) (enc : A -> json) (o : option A) : members :=
  match o with
  | Some a => [(k, enc a)]
  | None => []
  end.

End Json.
Export Json.

(** ** mergemaps *)

Module Mergemaps.

(** Modelled from the spec: [mergemaps.Merge], the recursive merge behind
    [mergemaps.MergeJSON], is not part of the sources at hand.  The spec asks
    for a merge of the built document with the caller's fragment in which the
    fragment wins on overlapping leaf keys (the override wins on key
    conflicts): where both sides hold an object the objects are merged
    member by member, anywhere else the fragment's value replaces the
    document's.  Members of the document keep their place; members that only
    the fragment has are added after them. *)
Fixpoint Merge (doc frag : json) : json :=
  match doc, frag with
  | JObj dm, JObj fm =>
      JObj ((fix merge_members (dm : members) : members :=
               match dm with
               | [] => []
               | (k, v) :: r =>
                   (k, match field k fm with
                       | Some vf => Merge v vf
                       | None => v
                       end) :: merge_members r
               end) dm
            ++ List.filter (fun kv => negb (has_key (fst kv) dm)) fm)
  | _, _ => frag
  end.

(** The members of the document, each merged with the fragment's member of
    the same key. *)
Definition merge_members (fm : members) : members -> members :=
  fix go (dm : members) : members :=
    match dm with
    | [] => []
    | (k, v) :: r =>
        (k, match field k fm with
            | Some vf => Merge v vf
            | None => v
            end) :: go r
    end.

(** The fragment says nothing about the place [p] of the document: on the
    way along [p] it runs out of members before the end, so it holds no
    value at [p] and nothing but objects above it. *)
Fixpoint leaves_alone (p : list string) (frag : json) : bool :=
  match p with
  | [] => false
  | k :: p' =>
      match frag with
      | JObj fm =>
          match field k fm with
          | None => true
          | Some v => leaves_alone p' v
          end
      | _ => false
      end
  end.

(** The caller's raw JSON text [AdditionHCSDocumentJSON], as the decoder
    sees it: of length zero, text that does not decode into an object, or an
    object. *)
Inductive RawJSON : Type :=
| RawEmpty
| RawMalformed (text : string)
| RawObject (m : members).

(** Modelled from the spec: [mergemaps.MergeJSON] is not part of the sources
    at hand.  The built document is merged with the caller-supplied raw JSON
    fragment; a fragment that cannot be decoded is an error (the caller
    reports "failed to merge additional JSON"). *)
Definition MergeJSON (doc : json) (raw : RawJSON) : error + json :=
  match raw with
  | RawEmpty => inr doc
  | RawMalformed text => inl (String.append "failed to unmarshal " text)
  | RawObject fm => inr (Merge doc (JObj fm))
  end.

(** The caller's fragment says nothing about the place [p]. *)
Definition untouched (p : list string) (raw : RawJSON) : bool :=
  match raw with
  | RawObject fm => leaves_alone p (JObj fm)
  | _ => true
  end.

End Mergemaps.

(** ** hcsschema: the configuration document

    Only the fields that [prepareConfigDoc] and [CreateWCOW] write are
    kept.  A pointer that the builder always allocates is a plain nested
    record; a pointer or map that it sets conditionally is an [option] or a
    finite map.  Every member is encoded with [omitempty], under the name of
    the Go field; the three MMIO members of [Memory2] are the exception,
    their JSON names are [LowMmioGapInMB], [HighMmioBaseInMB] and
    [HighMmioGapInMB]. *)

Module hcsschema.

Record Version := { Major : Z; Minor : Z }.

Record UefiBootEntry := { DevicePath : string; DeviceType : string }.

Record Uefi := { BootThis : UefiBootEntry }.

Record Chipset := { Uefi_ : Uefi }.

Record Memory2 := {
  SizeInMB : Z;
  AllowOvercommit : bool;
  EnableHotHint : bool;
  EnableDeferredCommit : bool;
  LowMMIOGapInMB : Z;
  HighMMIOBaseInMB : Z;
  HighMMIOGapInMB : Z }.

Record Processor2 := { Count : Z; Limit : Z; Weight : Z }.

Record Topology := { Memory : Memory2; Processor : Processor2 }.

Record HvSocketSystemConfig := { DefaultBindSecurityDescriptor : string }.

Record HvSocket2 := { HvSocketConfig : HvSocketSystemConfig }.

(** [ReadOnly] and [TakeBackupPrivilege] are the two flags the sources name;
    the other flags of the absent declaration travel in [OtherFlags]. *)
Record VirtualSmbShareOptions := {
  ReadOnly : bool;
  TakeBackupPrivilege : bool;
  OtherFlags : list (string * bool) }.

Record VirtualSmbShare := {
  Name : string;
  Path : string;
  Options : VirtualSmbShareOptions }.

Record VirtualSmb := {
  DirectFileMappingInMB : Z;
  Shares : list VirtualSmbShare }.

Record Attachment := { Path_ : string; Type_ : string }.

Record Scsi := { Attachments : gmap string Attachment }.

Record Devices := {
  HvSocket : HvSocket2;
  VirtualSmb_ : VirtualSmb;
  Scsi_ : gmap string Scsi }.

Record StorageQoS := { IopsMaximum : Z; BandwidthMaximum : Z }.

Record RestoreState := { TemplateSystemId : string }.

(** [&hcsschema.GuestConnection{}]: the marker carries no setting. *)
Inductive GuestConnection := EmptyGuestConnection.

Record VirtualMachine := {
  StopOnReset : bool;
  Chipset_ : Chipset;
  ComputeTopology : Topology;
  Devices_ : Devices;
  RestoreState_ : option RestoreState;
  StorageQoS_ : option StorageQoS;
  GuestConnection_ : option GuestConnection }.

Record ComputeSystem := {
  Owner : string;
  SchemaVersion : Version;
  VirtualMachine_ : VirtualMachine;
  ShouldTerminateOnLastHandleClosed : bool }.

(** Zero values, for reads through a Go map. *)
#[export] Instance Attachment_inhabited : Inhabited Attachment :=
  populate {| Path_ := ""; Type_ := "" |}.
#[export] Instance Scsi_inhabited : Inhabited Scsi :=
  populate {| Attachments := ∅ |}.

(** *** Field updates *)

Definition set_GuestConnection (g : option GuestConnection) (vm : VirtualMachine) :=
  {| StopOnReset := StopOnReset vm; Chipset_ := Chipset_ vm;
     ComputeTopology := ComputeTopology vm; Devices_ := Devices_ vm;
     RestoreState_ := RestoreState_ vm; StorageQoS_ := StorageQoS_ vm;
     GuestConnection_ := g |}.

Definition set_StorageQoS (q : option StorageQoS) (vm : VirtualMachine) :=
  {| StopOnReset := StopOnReset vm; Chipset_ := Chipset_ vm;
     ComputeTopology := ComputeTopology vm; Devices_ := Devices_ vm;
     RestoreState_ := RestoreState_ vm; StorageQoS_ := q;
     GuestConnection_ := GuestConnection_ vm |}.

Definition set_RestoreState (r : option RestoreState) (vm : VirtualMachine) :=
  {| StopOnReset := StopOnReset vm; Chipset_ := Chipset_ vm;
     ComputeTopology := ComputeTopology vm; Devices_ := Devices_ vm;
     RestoreState_ := r; StorageQoS_ := StorageQoS_ vm;
     GuestConnection_ := GuestConnection_ vm |}.

Definition set_Devices (d : Devices) (vm : VirtualMachine) :=
  {| StopOnReset := StopOnReset vm; Chipset_ := Chipset_ vm;
     ComputeTopology := ComputeTopology vm; Devices_ := d;
     RestoreState_ := RestoreState_ vm; StorageQoS_ := StorageQoS_ vm;
     GuestConnection_ := GuestConnection_ vm |}.

Definition set_Scsi (m : gmap string Scsi) (d : Devices) :=
  {| HvSocket := HvSocket d; VirtualSmb_ := VirtualSmb_ d; Scsi_ := m |}.

Definition set_VirtualSmb (v : VirtualSmb) (d : Devices) :=
  {| HvSocket := HvSocket d; VirtualSmb_ := v; Scsi_ := Scsi_ d |}.

Definition set_Shares (l : list VirtualSmbShare) (v : VirtualSmb) :=
  {| DirectFileMappingInMB := DirectFileMappingInMB v; Shares := l |}.

Definition set_Options (o : VirtualSmbShareOptions) (s : VirtualSmbShare) :=
  {| Name := Name s; Path := Path s; Options := o |}.

Definition set_TakeBackupPrivilege (b : bool) (o : VirtualSmbShareOptions) :=
  {| ReadOnly := ReadOnly o; TakeBackupPrivilege := b; OtherFlags := OtherFlags o |}.

Definition set_VirtualMachine (vm : VirtualMachine) (doc : ComputeSystem) :=
  {| Owner := Owner doc; SchemaVersion := SchemaVersion doc;
     VirtualMachine_ := vm;
     ShouldTerminateOnLastHandleClosed := ShouldTerminateOnLastHandleClosed doc |}.

(** *** JSON encoding ([json.Marshal]) *)

Definition enc_map {A} (enc : A -> json) (m : gmap string A) : json :=
  JObj (map (fun kv => (fst kv, enc (snd kv))) (map_to_list m)).

Definition omit_map {A} (k : string) (enc : A -> json) (m : gmap string A) : members :=
  if decide (m = ∅) then [] else [(k, enc_map enc m)].

Definition enc_Version (v : Version) : json :=
  JObj (omit_int "Major" (Major v) ++ omit_int "Minor" (Minor v)).

Definition enc_UefiBootEntry (b : UefiBootEntry) : json :=
  JObj (omit_str "DevicePath" (DevicePath b) ++ omit_str "DeviceType" (DeviceType b)).

Definition enc_Uefi (u : Uefi) : json :=
  JObj [("BootThis", enc_UefiBootEntry (BootThis u))].

Definition enc_Chipset (c : Chipset) : json :=
  JObj [("Uefi", enc_Uefi (Uefi_ c))].

Definition enc_Memory2 (m : Memory2) : json :=
  JObj (omit_int "SizeInMB" (SizeInMB m)
        ++ omit_bool "AllowOvercommit" (AllowOvercommit m)
        ++ omit_bool "EnableHotHint" (EnableHotHint m)
        ++ omit_bool "EnableDeferredCommit" (EnableDeferredCommit m)
        ++ omit_int "LowMmioGapInMB" (LowMMIOGapInMB m)
        ++ omit_int "HighMmioBaseInMB" (HighMMIOBaseInMB m)
        ++ omit_int "HighMmioGapInMB" (HighMMIOGapInMB m)).

Definition enc_Processor2 (p : Processor2) : json :=
  JObj (omit_int "Count" (Count p) ++ omit_int "Limit" (Limit p)
        ++ omit_int "Weight" (Weight p)).

Definition enc_Topology (t : Topology) : json :=
  JObj [("Memory", enc_Memory2 (Memory t)); ("Processor", enc_Processor2 (Processor t))].

Definition enc_HvSocket2 (h : HvSocket2) : json :=
  JObj [("HvSocketConfig",
         JObj (omit_str "DefaultBindSecurityDescriptor"
                 (DefaultBindSecurityDescriptor (HvSocketConfig h))))].

Definition enc_VirtualSmbShareOptions (o : VirtualSmbShareOptions) : json :=
  JObj (omit_bool "ReadOnly" (ReadOnly o)
        ++ omit_bool "TakeBackupPrivilege" (TakeBackupPrivilege o)
        ++ flat_map (fun kv => omit_bool (fst kv) (snd kv)) (OtherFlags o)).

Definition enc_VirtualSmbShare (s : VirtualSmbShare) : json :=
  JObj (omit_str "Name" (Name s) ++ omit_str "Path" (Path s)
        ++ [("Options", enc_VirtualSmbShareOptions (Options s))]).

Definition enc_VirtualSmb (v : VirtualSmb) : json :=
  JObj (omit_int "DirectFileMappingInMB" (DirectFileMappingInMB v)
        ++ match Shares v with
           | [] => []
           | l => [("Shares", JArr (map enc_VirtualSmbShare l))]
           end).

Definition enc_Attachment (a : Attachment) : json :=
  JObj (omit_str "Path" (Path_ a) ++ omit_str "Type" (Type_ a)).

Definition enc_Scsi (s : Scsi) : json :=
  JObj (omit_map "Attachments" enc_Attachment (Attachments s)).

Definition enc_Devices (d : Devices) : json :=
  JObj ([("HvSocket", enc_HvSocket2 (HvSocket d));
         ("VirtualSmb", enc_VirtualSmb (VirtualSmb_ d))]
        ++ omit_map "Scsi" enc_Scsi (Scsi_ d)).

Definition enc_StorageQoS (q : StorageQoS) : json :=
  JObj (omit_int "IopsMaximum" (IopsMaximum q)
        ++ omit_int "BandwidthMaximum" (BandwidthMaximum q)).

Definition enc_RestoreState (r : RestoreState) : json :=
  JObj (omit_str "TemplateSystemId" (TemplateSystemId r)).

Definition enc_GuestConnection (g : GuestConnection) : json := JObj [].

Definition enc_VirtualMachine (vm : VirtualMachine) : json :=
  JObj (omit_bool "StopOnReset" (StopOnReset vm)
        ++ [("Chipset", enc_Chipset (Chipset_ vm));
            ("ComputeTopology", enc_Topology (ComputeTopology vm));
            ("Devices", enc_Devices (Devices_ vm))]
        ++ omit_ptr "RestoreState" enc_RestoreState (RestoreState_ vm)
        ++ omit_ptr "StorageQoS" enc_StorageQoS (StorageQoS_ vm)
        ++ omit_ptr "GuestConnection" enc_GuestConnection (GuestConnection_ vm)).

Definition enc_ComputeSystem_members (doc : ComputeSystem) : members :=
  omit_str "Owner" (Owner doc)
  ++ [("SchemaVersion", enc_Version (SchemaVersion doc));
      ("VirtualMachine", enc_VirtualMachine (VirtualMachine_ doc))]
  ++ omit_bool "ShouldTerminateOnLastHandleClosed"
       (ShouldTerminateOnLastHandleClosed doc).

Definition enc_ComputeSystem (doc : ComputeSystem) : json :=
  JObj (enc_ComputeSystem_members doc).

End hcsschema.

(** ** internal/uvm *)

Module Uvm.
Import hcsschema Mergemaps.

(** *** The handle *)

(** A disk mounted on a SCSI slot.  The Go struct also points back to its
    VM; the back pointer is left out. *)
Record SCSIMount := { HostPath : string; refCount : Z }.

(** Payloads of the handle's maps; their declarations are not at hand and
    [CreateWCOW] only allocates the maps. *)
Record VSMBShare := { vsmb_name : string }.
Record VPCIDevice := { vpci_id : string }.
Record nicInfo := { nic_id : string }.
Record namespaceInfo := { nics : gmap string nicInfo }.

Record HvsockAddr := { VMID : string; ServiceID : string }.

Record UtilityVM := {
  id : string;
  owner : string;
  operatingSystem : string;
  scsiControllerCount : Z;
  vsmbDirShares : gmap string VSMBShare;
  vsmbFileShares : gmap string VSMBShare;
  vpciDevices : gmap string VPCIDevice;
  physicallyBacked : bool;
  devicesPhysicallyBacked : bool;
  processorCount : Z;
  (** controller -> slot -> mount *)
  scsiLocations : gmap (nat * nat) SCSIMount;
  (** [None] is the nil map *)
  namespaces : option (gmap string namespaceInfo);
  isClone : bool;
  runtimeID : string;
  (** the address the listener is bound to, when there is a listener *)
  gcListener : option HvsockAddr }.

Definition set_processorCount (n : Z) (u : UtilityVM) : UtilityVM :=
  {| id := id u; owner := owner u; operatingSystem := operatingSystem u;
     scsiControllerCount := scsiControllerCount u;
     vsmbDirShares := vsmbDirShares u; vsmbFileShares := vsmbFileShares u;
     vpciDevices := vpciDevices u; physicallyBacked := physicallyBacked u;
     devicesPhysicallyBacked := devicesPhysicallyBacked u;
     processorCount := n; scsiLocations := scsiLocations u;
     namespaces := namespaces u; isClone := isClone u;
     runtimeID := runtimeID u; gcListener := gcListener u |}.

Definition set_scsiLocations (m : gmap (nat * nat) SCSIMount) (u : UtilityVM) : UtilityVM :=
  {| id := id u; owner := owner u; operatingSystem := operatingSystem u;
     scsiControllerCount := scsiControllerCount u;
     vsmbDirShares := vsmbDirShares u; vsmbFileShares := vsmbFileShares u;
     vpciDevices := vpciDevices u; physicallyBacked := physicallyBacked u;
     devicesPhysicallyBacked := devicesPhysicallyBacked u;
     processorCount := processorCount u; scsiLocations := m;
     namespaces := namespaces u; isClone := isClone u;
     runtimeID := runtimeID u; gcListener := gcListener u |}.

Definition set_namespaces (m : option (gmap string namespaceInfo)) (u : UtilityVM) : UtilityVM :=
  {| id := id u; owner := owner u; operatingSystem := operatingSystem u;
     scsiControllerCount := scsiControllerCount u;
     vsmbDirShares := vsmbDirShares u; vsmbFileShares := vsmbFileShares u;
     vpciDevices := vpciDevices u; physicallyBacked := physicallyBacked u;
     devicesPhysicallyBacked := devicesPhysicallyBacked u;
     processorCount := processorCount u; scsiLocations := scsiLocations u;
     namespaces := m; isClone := isClone u;
     runtimeID := runtimeID u; gcListener := gcListener u |}.

Definition set_isClone (b : bool) (u : UtilityVM) : UtilityVM :=
  {| id := id u; owner := owner u; operatingSystem := operatingSystem u;
     scsiControllerCount := scsiControllerCount u;
     vsmbDirShares := vsmbDirShares u; vsmbFileShares := vsmbFileShares u;
     vpciDevices := vpciDevices u; physicallyBacked := physicallyBacked u;
     devicesPhysicallyBacked := devicesPhysicallyBacked u;
     processorCount := processorCount u; scsiLocations := scsiLocations u;
     namespaces := namespaces u; isClone := b;
     runtimeID := runtimeID u; gcListener := gcListener u |}.

Definition set_runtimeID (r : string) (u : UtilityVM) : UtilityVM :=
  {| id := id u; owner := owner u; operatingSystem := operatingSystem u;
     scsiControllerCount := scsiControllerCount u;
     vsmbDirShares := vsmbDirShares u; vsmbFileShares := vsmbFileShares u;
     vpciDevices := vpciDevices u; physicallyBacked := physicallyBacked u;
     devicesPhysicallyBacked := devicesPhysicallyBacked u;
     processorCount := processorCount u; scsiLocations := scsiLocations u;
     namespaces := namespaces u; isClone := isClone u;
     runtimeID := r; gcListener := gcListener u |}.

Definition set_gcListener (l : option HvsockAddr) (u : UtilityVM) : UtilityVM :=
  {| id := id u; owner := owner u; operatingSystem := operatingSystem u;
     scsiControllerCount := scsiControllerCount u;
     vsmbDirShares := vsmbDirShares u; vsmbFileShares := vsmbFileShares u;
     vpciDevices := vpciDevices u; physicallyBacked := physicallyBacked u;
     devicesPhysicallyBacked := devicesPhysicallyBacked u;
     processorCount := processorCount u; scsiLocations := scsiLocations u;
     namespaces := namespaces u; isClone := isClone u;
     runtimeID := runtimeID u; gcListener := l |}.

(** *** The world *)

(** The calls that leave the process, in the order they are made; the
    replay of a resource, the submission of the document and the opening of
    the listener are logged with the answer they got. *)
Inductive event : Type :=
| EvNewGuid
| EvLocateUVMFolder (layerFolders : list string)
| EvStat (path : string)
| EvMkdirAll (path : string)
| EvHostProcessorInfo
| EvCreateUVMScratch (uvmFolder scratchFolder vmID : string)
| EvClone (name : string) (err : option error)
| EvCreate (doc : json) (res : error + string)
| EvListenHvsock (addr : HvsockAddr) (err : option error)
| EvClose (vmID : string).

(** [fs] holds the paths for which [os.Stat] does not report "does not
    exist". *)
Record World := { fs : gset string; log : list event }.

Definition emit (e : event) (w : World) : World :=
  {| fs := fs w; log := log w ++ [e] |}.

Definition touch (path : string) (w : World) : World :=
  {| fs := {[ path ]} ∪ fs w; log := log w |}.

Definition set_fs (s : gset string) (w : World) : World :=
  {| fs := s; log := log w |}.

(** *** Outcomes and the monad of calls *)

Inductive outcome (A : Type) : Type :=
| Ok (a : A)
| Err (e : error)
| Panic.
Arguments Ok {A} a.
Arguments Err {A} e.
Arguments Panic {A}.

Definition M (A : Type) : Type := World -> outcome A * World.

#[export] Instance M_ret : MRet M := fun A a w => (Ok a, w).

#[export] Instance M_bind : MBind M := fun A B f m w =>
  match m w with
  | (Ok a, w') => f a w'
  | (Err e, w') => (Err e, w')
  | (Panic, w') => (Panic, w')
  end.

Definition throw {A} (e : error) : M A := fun w => (Err e, w).

Definition panic {A} : M A := fun w => (Panic, w).

(** [x, err := f(...); if err != nil { return nil, wrapped(err) }] *)
Definition try {A} (wrapped : error -> error) (m : M (error + A)) : M A :=
  r ← m;
  match r with
  | inl err => throw (wrapped err)
  | inr a => mret a
  end.

(** [if err := f(...); err != nil { return nil, wrapped(err) }] *)
Definition check (wrapped : error -> error) (m : M (option error)) : M unit :=
  err ← m;
  match err with
  | Some err => throw (wrapped err)
  | None => mret tt
  end.

(** The same for a callee of this file, which returns early itself: its
    error is wrapped on the way out. *)
Definition rethrow {A} (wrapped : error -> error) (m : M A) : M A := fun w =>
  match m w with
  | (Err e, w') => (Err (wrapped e), w')
  | r => r
  end.

(** *** Options *)

Record CloneData := {
  cd_doc : ComputeSystem;
  cd_scratchFolder : string;
  cd_UVMID : string }.

(** What one replay leaves behind: the error if it failed, the handle and
    the document as it mutated them, and the file system. *)
Record CloneResult := {
  clone_err : option error;
  clone_uvm : UtilityVM;
  clone_doc : ComputeSystem;
  clone_fs : gset string }.

(** The [Cloneable] interface.  [Clone] receives the handle and the clone
    data by pointer, so it may change the handle and the document. *)
Record Cloneable := {
  res_name : string;
  Clone : UtilityVM -> CloneData -> World -> CloneResult }.

Record UVMTemplateConfig := {
  tc_UVMID : string;
  Resources : list Cloneable }.

(** The fields of the embedded [*Options] that [CreateWCOW] reads. *)
Record Options := {
  ID : string;
  Owner_ : string;
  AdditionHCSDocumentJSON : RawJSON;
  MemorySizeInMB : Z;
  LowMMIOGapInMB_ : Z;
  HighMMIOBaseInMB_ : Z;
  HighMMIOGapInMB_ : Z;
  AllowOvercommit_ : bool;
  FullyPhysicallyBacked : bool;
  EnableDeferredCommit_ : bool;
  ProcessorCount : Z;
  ProcessorLimit : Z;
  ProcessorWeight : Z;
  StorageQoSIopsMaximum : Z;
  StorageQoSBandwidthMaximum : Z;
  ExternalGuestConnection : bool }.

Record OptionsWCOW := {
  Options_ :> Options;
  LayerFolders : list string;
  IsTemplate : bool;
  IsClone : bool;
  TemplateConfig : option UVMTemplateConfig }.

Definition set_ID (s : string) (o : OptionsWCOW) : OptionsWCOW :=
  {| Options_ :=
       {| ID := s; Owner_ := Owner_ o;
          AdditionHCSDocumentJSON := AdditionHCSDocumentJSON o;
          MemorySizeInMB := MemorySizeInMB o;
          LowMMIOGapInMB_ := LowMMIOGapInMB_ o;
          HighMMIOBaseInMB_ := HighMMIOBaseInMB_ o;
          HighMMIOGapInMB_ := HighMMIOGapInMB_ o;
          AllowOvercommit_ := AllowOvercommit_ o;
          FullyPhysicallyBacked := FullyPhysicallyBacked o;
          EnableDeferredCommit_ := EnableDeferredCommit_ o;
          ProcessorCount := ProcessorCount o;
          ProcessorLimit := ProcessorLimit o;
          ProcessorWeight := ProcessorWeight o;
          StorageQoSIopsMaximum := StorageQoSIopsMaximum o;
          StorageQoSBandwidthMaximum := StorageQoSBandwidthMaximum o;
          ExternalGuestConnection := ExternalGuestConnection o |};
     LayerFolders := LayerFolders o;
     IsTemplate := IsTemplate o;
     IsClone := IsClone o;
     TemplateConfig := TemplateConfig o |}.

Record ProcessorTopology := { LogicalProcessorCount : Z }.

(** *** What surrounds [create_wcow.go]

    The answers of the operating system and of the host services, and the
    functions and constants of the repository that [create_wcow.go] uses but
    whose code is not at hand. *)
Record Host := {
  (** Go's standard library *)
  filepath_Join : string -> string -> string;
  os_MkdirAll : World -> string -> option error;
  (** the parents of the path that [os.MkdirAll] found missing and made *)
  os_MkdirAll_parents : World -> string -> gset string;
  (** go-winio *)
  guid_NewV4 : World -> error + string;
  winio_ListenHvsock : World -> HvsockAddr -> option error;
  (** the host: processor topology, compute service *)
  hostProcessorInfo : World -> error + ProcessorTopology;
  uvm_create : World -> UtilityVM -> json -> error + string;
  (** other packages of the repository *)
  verifyOptions : OptionsWCOW -> option error;
  errBadUVMOpts : error;
  LocateUVMFolder : World -> list string -> error + string;
  wcow_CreateUVMScratch : World -> string -> string -> string -> option error;
  normalizeMemorySize : UtilityVM -> Z -> Z;
  DefaultVSMBOptions : UtilityVM -> bool -> VirtualSmbShareOptions;
  SetSaveableVSMBOptions :
    UtilityVM -> VirtualSmbShareOptions -> bool -> VirtualSmbShareOptions;
  SchemaV21 : Version;
  WindowsGcsHvsockServiceID : string;
  CLONING_DEFAULT_NETWORK_NAMESPACE_ID : string }.

(** *** Calls that leave the process *)

Section Calls.
Context (h : Host).

(** [os.IsNotExist(err)] for the error of [os.Stat(path)]. *)
Definition os_Stat_IsNotExist (path : string) : M bool := fun w =>
  (Ok (bool_decide (path ∉ fs w)), emit (EvStat path) w).

(** [os.MkdirAll(path, 0777)] makes the directory along with any parents
    that are missing.  The parents it has made stay, also when it fails;
    when it succeeds the directory exists. *)
Definition MkdirAll (path : string) : M (option error) := fun w =>
  let made := os_MkdirAll_parents h w path ∪ fs w in
  match os_MkdirAll h w path with
  | Some err => (Ok (Some err), emit (EvMkdirAll path) (set_fs made w))
  | None => (Ok None, emit (EvMkdirAll path) (touch path (set_fs made w)))
  end.

Definition NewV4 : M (error + string) := fun w =>
  (Ok (guid_NewV4 h w), emit EvNewGuid w).

Definition LocateUVMFolder_ (layerFolders : list string) : M (error + string) := fun w =>
  (Ok (LocateUVMFolder h w layerFolders), emit (EvLocateUVMFolder layerFolders) w).

Definition hostProcessorInfo_ : M (error + ProcessorTopology) := fun w =>
  (Ok (hostProcessorInfo h w), emit EvHostProcessorInfo w).

(** Modelled from the spec: [wcow.CreateUVMScratch] is not part of the
    sources at hand.  It creates the scratch virtual-disk file in the
    scratch folder from a base template and grants the VM identity access to
    it; when it succeeds the file [<scratchFolder>/sandbox.vhdx] exists. *)
Definition CreateUVMScratch (uvmFolder scratchFolder vmID : string) : M (option error) :=
  fun w =>
  match wcow_CreateUVMScratch h w uvmFolder scratchFolder vmID with
  | Some err => (Ok (Some err), emit (EvCreateUVMScratch uvmFolder scratchFolder vmID) w)
  | None =>
      (Ok None,
       emit (EvCreateUVMScratch uvmFolder scratchFolder vmID)
         (touch (filepath_Join h scratchFolder "sandbox.vhdx") w))
  end.

(** [cloneableResource.Clone(ctx, uvm, cd)] *)
Definition call_Clone (r : Cloneable) (uvm : UtilityVM) (cd : CloneData) : M CloneResult :=
  fun w =>
  let res := Clone r uvm cd w in
  (Ok res, emit (EvClone (res_name r) (clone_err res)) (set_fs (clone_fs res) w)).

(** [uvm.create(ctx, fullDoc)]: the document goes to the host compute
    service, which answers with the runtime id of the running VM. *)
Definition create (uvm : UtilityVM) (fullDoc : json) : M (error + string) := fun w =>
  let res := uvm_create h w uvm fullDoc in
  (Ok res, emit (EvCreate fullDoc res) w).

Definition ListenHvsock (addr : HvsockAddr) : M (option error) := fun w =>
  let err := winio_ListenHvsock h w addr in
  (Ok err, emit (EvListenHvsock addr err) w).

(** [uvm.Close()] *)
Definition Close (uvm : UtilityVM) : World -> World := emit (EvClose (id uvm)).

(** [defer func() { if err != nil { uvm.Close() } }()]: the handle that is
    closed is the one the body was given; its id never changes. *)
Definition defer_Close_on_error {A} (uvm : UtilityVM) (body : M A) : M A := fun w =>
  match body w with
  | (Err e, w') => (Err e, Close uvm w')
  | r => r
  end.

(** *** create_wcow.go *)

(** Modelled from the spec: [normalizeProcessorCount] is not part of the
    sources at hand.  If the requested processor count exceeds the host's
    logical processor count it is clamped to the host's capacity; the
    request never fails for this reason. *)
Definition normalizeProcessorCount (requested : Z) (processorTopology : ProcessorTopology) : Z :=
  let hostCount := LogicalProcessorCount processorTopology in
  if hostCount <? requested then hostCount else requested.

Definition getScratchFolder (opts : OptionsWCOW) : M string :=
  match last (LayerFolders opts) with
  | None => panic
  | Some scratchFolder =>
      (* Create the directory if it doesn't exist *)
      notExist ← os_Stat_IsNotExist scratchFolder;
      if (notExist : bool) then
        _ ← check (wrap "failed to create utility VM scratch folder")
              (MkdirAll scratchFolder);
        mret scratchFolder
      else mret scratchFolder
  end.

Definition startExternalGcsListener (uvm : UtilityVM) : M UtilityVM :=
  let addr := {| VMID := runtimeID uvm; ServiceID := WindowsGcsHvsockServiceID h |} in
  _ ← check (fun err => err) (ListenHvsock addr);
  mret (set_gcListener (Some addr) uvm).

Definition prepareConfigDoc (uvm : UtilityVM) (opts : OptionsWCOW) (uvmFolder : string)
  : M (ComputeSystem * UtilityVM) :=
  processorTopology ← try (wrap "failed to get host processor information")
                         hostProcessorInfo_;
  let uvm :=
    set_processorCount
      (normalizeProcessorCount (ProcessorCount opts) processorTopology) uvm in
  let memorySizeInMB := normalizeMemorySize h uvm (MemorySizeInMB opts) in
  let vsmbOpts := set_TakeBackupPrivilege true (DefaultVSMBOptions h uvm true) in
  let virtualSMB :=
    {| DirectFileMappingInMB := 1024;
       Shares := [ {| Name := "os";
                      Path := filepath_Join h uvmFolder "UtilityVM\Files";
                      hcsschema.Options := vsmbOpts |} ] |} in
  let doc :=
    {| Owner := owner uvm;
       SchemaVersion := SchemaV21 h;
       ShouldTerminateOnLastHandleClosed := true;
       VirtualMachine_ :=
         {| StopOnReset := true;
            Chipset_ :=
              {| Uefi_ :=
                   {| BootThis :=
                        {| DevicePath := "\EFI\Microsoft\Boot\bootmgfw.efi";
                           DeviceType := "VmbFs" |} |} |};
            ComputeTopology :=
              {| Memory :=
                   {| SizeInMB := memorySizeInMB;
                      AllowOvercommit := AllowOvercommit_ opts;
                      EnableHotHint := AllowOvercommit_ opts;
                      EnableDeferredCommit := EnableDeferredCommit_ opts;
                      LowMMIOGapInMB := LowMMIOGapInMB_ opts;
                      HighMMIOBaseInMB := HighMMIOBaseInMB_ opts;
                      HighMMIOGapInMB := HighMMIOGapInMB_ opts |};
                 Processor :=
                   {| Count := processorCount uvm;
                      Limit := ProcessorLimit opts;
                      Weight := ProcessorWeight opts |} |};
            Devices_ :=
              {| HvSocket :=
                   {| HvSocketConfig :=
                        {| DefaultBindSecurityDescriptor :=
                             "D:P(A;;FA;;;SY)(A;;FA;;;BA)" |} |};
                 VirtualSmb_ := virtualSMB;
                 Scsi_ := ∅ |};
            RestoreState_ := None;
            StorageQoS_ := None;
            GuestConnection_ := None |} |} in
  let doc :=
    if negb (ExternalGuestConnection opts) then
      set_VirtualMachine
        (set_GuestConnection (Some EmptyGuestConnection) (VirtualMachine_ doc)) doc
    else doc in
  (* Handle StorageQoS if set *)
  let doc :=
    if (0 <? StorageQoSBandwidthMaximum opts) || (0 <? StorageQoSIopsMaximum opts) then
      set_VirtualMachine
        (set_StorageQoS
           (Some {| IopsMaximum := StorageQoSIopsMaximum opts;
                    BandwidthMaximum := StorageQoSBandwidthMaximum opts |})
           (VirtualMachine_ doc)) doc
    else doc in
  mret (doc, uvm).

(** The loop over [opts.TemplateConfig.Resources]. *)
Fixpoint cloneResources (resources : list Cloneable) (scratchFolder ID : string)
    (uvm : UtilityVM) (doc : ComputeSystem) : M (UtilityVM * ComputeSystem) :=
  match resources with
  | [] => mret (uvm, doc)
  | cloneableResource :: rest =>
      res ← call_Clone cloneableResource uvm
              {| cd_doc := doc; cd_scratchFolder := scratchFolder; cd_UVMID := ID |};
      match clone_err res with
      | Some err => throw (wrap "Failed while cloning" err)
      | None => cloneResources rest scratchFolder ID (clone_uvm res) (clone_doc res)
      end
  end.

(** Lines 244-249 of [CreateWCOW]: create sandbox.vhdx in the scratch folder
    based on the template, unless [os.Stat] finds it; returns [scratchPath]. *)
Definition createSandboxVhdx (uvmFolder scratchFolder vmID : string) : M string :=
  let scratchPath := filepath_Join h scratchFolder "sandbox.vhdx" in
  notExist ← os_Stat_IsNotExist scratchPath;
  if (notExist : bool) then
    _ ← check (wrap "failed to create scratch")
          (CreateUVMScratch uvmFolder scratchFolder vmID);
    mret scratchPath
  else mret scratchPath.

(** The [!opts.IsClone] branch of [CreateWCOW]. *)
Definition attachScratch (uvm : UtilityVM) (doc : ComputeSystem)
    (uvmFolder scratchFolder : string) : M (UtilityVM * ComputeSystem) :=
  scratchPath ← createSandboxVhdx uvmFolder scratchFolder (id uvm);
  let doc :=
    set_VirtualMachine
      (set_Devices
         (set_Scsi
            {[ "0" := {| Attachments :=
                           {[ "0" := {| Path_ := scratchPath;
                                        Type_ := "VirtualDisk" |} ]} |} ]}
            (Devices_ (VirtualMachine_ doc)))
         (VirtualMachine_ doc)) doc in
  let uvm :=
    set_scsiLocations
      (<[ (0%nat, 0%nat) :=
            {| HostPath :=
                 Path_ (Attachments
                          (Scsi_ (Devices_ (VirtualMachine_ doc)) !!! "0")
                        !!! "0");
               refCount := 1 |} ]> (scsiLocations uvm)) uvm in
  mret (uvm, doc).

(** The [else] branch of [CreateWCOW]: the clone path. *)
Definition replayTemplate (uvm : UtilityVM) (doc : ComputeSystem)
    (opts : OptionsWCOW) (scratchFolder : string) : M (UtilityVM * ComputeSystem) :=
  match TemplateConfig opts with
  | None => panic
  | Some templateConfig =>
      let doc :=
        set_VirtualMachine
          (set_RestoreState
             (Some {| TemplateSystemId := tc_UVMID templateConfig |})
             (VirtualMachine_ doc)) doc in
      '(uvm, doc) ← cloneResources (Resources templateConfig)
                      scratchFolder (ID opts) uvm doc;
      (* we add default clone namespace for each clone. Include it here. *)
      let namespaces_ :=
        match namespaces uvm with
        | None => ∅
        | Some m => m
        end in
      let uvm :=
        set_namespaces
          (Some (<[ CLONING_DEFAULT_NETWORK_NAMESPACE_ID h := {| nics := ∅ |} ]>
                   namespaces_)) uvm in
      mret (set_isClone true uvm, doc)
  end.

(** Add appropriate VSMB share options if this UVM needs to be saved as a
    template: the loop over [doc.VirtualMachine.Devices.VirtualSmb.Shares];
    [share.Options] is a pointer, so the options change in the document. *)
Definition setSaveableShares (uvm : UtilityVM) (doc : ComputeSystem) : ComputeSystem :=
  let vm := VirtualMachine_ doc in
  let smb := VirtualSmb_ (Devices_ vm) in
  set_VirtualMachine
    (set_Devices
       (set_VirtualSmb
          (set_Shares
             (map (fun share =>
                     set_Options
                       (SetSaveableVSMBOptions h uvm (hcsschema.Options share)
                          (ReadOnly (hcsschema.Options share))) share)
                  (Shares smb)) smb)
          (Devices_ vm)) vm) doc.

(** The text of the caller's fragment, for the error message. *)
Definition raw_text (raw : RawJSON) : string :=
  match raw with
  | RawMalformed text => text
  | _ => ""
  end.

(** The end of [CreateWCOW], from the template options on: merge the
    caller's fragment, submit the document, open the listener. *)
Definition submitDocument (uvm : UtilityVM) (doc : ComputeSystem)
    (opts : OptionsWCOW) : M UtilityVM :=
  let doc := if IsTemplate opts then setSaveableShares uvm doc else doc in
  fullDoc ← try (wrap (String.append "failed to merge additional JSON '"
                         (String.append (raw_text (AdditionHCSDocumentJSON opts)) "'")))
              (mret (MergeJSON (enc_ComputeSystem doc) (AdditionHCSDocumentJSON opts)));
  runtimeID ← try (wrap "error while creating the compute system")
                (create uvm fullDoc);
  let uvm := set_runtimeID runtimeID uvm in
  (* All clones MUST use external gcs connection *)
  if ExternalGuestConnection opts || IsClone opts then
    startExternalGcsListener uvm
  else mret uvm.

(** The part of [CreateWCOW] that the deferred [uvm.Close()] guards. *)
Definition CreateWCOW_body (uvm : UtilityVM) (opts : OptionsWCOW) : M UtilityVM :=
  _ ← check (wrap (errBadUVMOpts h)) (mret (verifyOptions h opts));
  uvmFolder ← try (wrap "failed to locate utility VM folder from layer folders")
                (LocateUVMFolder_ (LayerFolders opts));
  scratchFolder ← getScratchFolder opts;
  '(doc, uvm) ← rethrow (wrap "Error in preparing config doc")
                  (prepareConfigDoc uvm opts uvmFolder);
  '(uvm, doc) ← (if negb (IsClone opts)
                 then attachScratch uvm doc uvmFolder scratchFolder
                 else replayTemplate uvm doc opts scratchFolder);
  submitDocument uvm doc opts.

Definition CreateWCOW (opts : OptionsWCOW) : M UtilityVM :=
  opts ← (if String.eqb (ID opts) "" then
            g ← try (fun err => err) NewV4;
            mret (set_ID g opts)
          else mret opts);
  let uvm :=
    {| id := ID (opts : OptionsWCOW);
       owner := Owner_ opts;
       operatingSystem := "windows";
       scsiControllerCount := 1;
       vsmbDirShares := ∅;
       vsmbFileShares := ∅;
       vpciDevices := ∅;
       physicallyBacked := negb (AllowOvercommit_ opts);
       devicesPhysicallyBacked := FullyPhysicallyBacked opts;
       processorCount := 0;
       scsiLocations := ∅;
       namespaces := None;
       isClone := false;
       runtimeID := "";
       gcListener := None |} in
  defer_Close_on_error uvm (CreateWCOW_body uvm opts).

(** The scratch provisioning of a build-from-scratch [CreateWCOW]:
    [getScratchFolder], then the sandbox.vhdx step.  ([prepareConfigDoc]
    runs between the two and does not touch the file system.) *)
Definition provisionScratch (opts : OptionsWCOW) (uvmFolder vmID : string) : M string :=
  scratchFolder ← getScratchFolder opts;
  createSandboxVhdx uvmFolder scratchFolder vmID.

End Calls.

(** *** Observing a run *)

(** The outcome of a call and the events it added to the log. *)
Definition run {A} (m : M A) (w : World) : outcome A * list event :=
  (fst (m w), drop (length (log w)) (log (snd (m w)))).

(** [wp m w Q]: from world [w] the call [m] only adds events to the log, and
    its outcome, the events it adds and the world it leaves satisfy [Q]. *)
Definition wp {A} (m : M A) (w : World)
    (Q : outcome A -> list event -> World -> Prop) : Prop :=
  exists evs, log (snd (m w)) = log w ++ evs /\ Q (fst (m w)) evs (snd (m w)).

(** The documents submitted to the host compute service, with its answers. *)
Definition submitted (evs : list event) : list (json * (error + string)) :=
  omap (fun e => match e with EvCreate d r => Some (d, r) | _ => None end) evs.

(** The addresses on which a listener was requested. *)
Definition listen_calls (evs : list event) : list HvsockAddr :=
  omap (fun e => match e with EvListenHvsock a _ => Some a | _ => None end) evs.

(** The resources replayed, by name, with the error of the replay. *)
Definition clone_calls (evs : list event) : list (string * option error) :=
  omap (fun e => match e with EvClone n r => Some (n, r) | _ => None end) evs.

(** The scratch folders in which a scratch disk was created. *)
Definition scratch_creations (evs : list event) : list string :=
  omap (fun e => match e with EvCreateUVMScratch _ s _ => Some s | _ => None end) evs.

(** The directories created. *)
Definition mkdir_calls (evs : list event) : list string :=
  omap (fun e => match e with EvMkdirAll p => Some p | _ => None end) evs.

(** Events that are neither a submission, nor a listener, nor a replay, nor
    the creation of a scratch disk, nor a teardown. *)
Definition quiet (evs : list event) : Prop :=
  Forall (fun e => match e with
                   | EvCreate _ _ | EvListenHvsock _ _ | EvClone _ _
                   | EvCreateUVMScratch _ _ _ | EvClose _ => False
                   | _ => True
                   end) evs.

Definition ev_clone (c : string * option error) : event := EvClone (fst c) (snd c).

Definition failed {A} (r : outcome A) : Prop :=
  match r with Ok _ => False | _ => True end.

(** A replay that leaves SCSI slot (0,0) of the handle as it found it. *)
Definition keeps_slot00 (r : Cloneable) : Prop :=
  forall uvm cd w,
    scsiLocations (clone_uvm (Clone r uvm cd w)) !! (0%nat, 0%nat)
    = scsiLocations uvm !! (0%nat, 0%nat).

(** A replay that leaves the guest-connection marker of the document as it
    found it. *)
Definition keeps_GuestConnection (r : Cloneable) : Prop :=
  forall uvm cd w,
    GuestConnection_ (VirtualMachine_ (clone_doc (Clone r uvm cd w)))
    = GuestConnection_ (VirtualMachine_ (cd_doc cd)).

(** What the replay loop over [rs] leaves: the calls it made and its outcome. *)
Definition replay_spec {A} (rs : list Cloneable) (calls : list (string * option error))
    (o : outcome A) : Prop :=
  match o with
  | Ok _ => calls = map (fun r => (res_name r, None)) rs
  | Err e =>
      exists pre r post err,
        rs = pre ++ r :: post
        /\ calls = map (fun r => (res_name r, None)) pre ++ [(res_name r, Some err)]
        /\ e = wrap "Failed while cloning" err
  | Panic => False
  end.

(** What the provisioning step of [CreateWCOW] leaves, started with handle
    [uvm1] and document [doc1]: the events [mid] and the outcome [o]. *)
Definition branch_spec (h : Host) (opts : OptionsWCOW) (sf : string)
    (uvm1 : UtilityVM) (doc1 : ComputeSystem)
    (mid : list event) (o : outcome (UtilityVM * ComputeSystem)) : Prop :=
  if IsClone opts then
    match TemplateConfig opts with
    | None => mid = [] /\ o = Panic
    | Some tc =>
        exists calls,
          mid = map ev_clone calls
          /\ replay_spec (Resources tc) calls o
          /\ forall uvm2 doc2, o = Ok (uvm2, doc2) ->
               (Forall keeps_slot00 (Resources tc) ->
                scsiLocations uvm2 !! (0%nat, 0%nat) = scsiLocations uvm1 !! (0%nat, 0%nat))
               /\ (Forall keeps_GuestConnection (Resources tc) ->
                   GuestConnection_ (VirtualMachine_ doc2)
                   = GuestConnection_ (VirtualMachine_ doc1))
    end
  else
    let p := filepath_Join h sf "sandbox.vhdx" in
    clone_calls mid = [] /\ submitted mid = [] /\ listen_calls mid = []
    /\ Forall (fun e => forall v, e <> EvClose v) mid
    /\ match o with
       | Ok (uvm2, doc2) =>
           scsiLocations uvm2 !! (0%nat, 0%nat)
           = Some {| HostPath := p; refCount := 1 |}
           /\ Scsi_ (Devices_ (VirtualMachine_ doc2))
              = {[ "0" := {| Attachments :=
                               {[ "0" := {| Path_ := p; Type_ := "VirtualDisk" |} ]} |} ]}
           /\ GuestConnection_ (VirtualMachine_ doc2)
              = GuestConnection_ (VirtualMachine_ doc1)
       | Err _ => True
       | Panic => False
       end.

(** What the end of [CreateWCOW] leaves, started with handle [uvm2] and
    document [doc2]: the events [fin] and the outcome [r]. *)
Definition submit_spec (h : Host) (opts : OptionsWCOW)
    (uvm2 : UtilityVM) (doc2 : ComputeSystem)
    (fin : list event) (r : outcome UtilityVM) : Prop :=
  let docT := if IsTemplate opts then setSaveableShares h uvm2 doc2 else doc2 in
  match MergeJSON (enc_ComputeSystem docT) (AdditionHCSDocumentJSON opts) with
  | inl _ => fin = [] /\ exists e, r = Err e
  | inr d =>
      exists res,
        match res with
        | inl err => fin = [EvCreate d (inl err)] /\ exists e, r = Err e
        | inr rid =>
            let addr := {| VMID := rid; ServiceID := WindowsGcsHvsockServiceID h |} in
            if ExternalGuestConnection opts || IsClone opts then
              exists err,
                fin = [EvCreate d (inr rid); EvListenHvsock addr err]
                /\ r = match err with
                       | Some e => Err e
                       | None => Ok (set_gcListener (Some addr) (set_runtimeID rid uvm2))
                       end
            else fin = [EvCreate d (inr rid)] /\ r = Ok (set_runtimeID rid uvm2)
        end
  end.

(** The ways a call of the guarded part of [CreateWCOW] can end, started
    with handle [uvm0]: it fails while setting up, or it provisions (events
    [mid]) and, when that works, submits (events [fin]). *)
Definition body_spec (h : Host) (opts : OptionsWCOW) (uvm0 : UtilityVM)
    (r : outcome UtilityVM) (evs : list event) : Prop :=
  exists setup mid fin,
    evs = setup ++ mid ++ fin /\ quiet setup
    /\ ((mid = [] /\ fin = [] /\ failed r)
        \/ exists sf uvm1 doc1 o,
             last (LayerFolders opts) = Some sf
             /\ scsiLocations uvm1 = scsiLocations uvm0
             /\ GuestConnection_ (VirtualMachine_ doc1)
                = (if ExternalGuestConnection opts then None
                   else Some EmptyGuestConnection)
             /\ branch_spec h opts sf uvm1 doc1 mid o
             /\ match o with
                | Ok (uvm2, doc2) => submit_spec h opts uvm2 doc2 fin r
                | Err e => fin = [] /\ r = Err e
                | Panic => fin = [] /\ r = Panic
                end).

(** The event of the deferred [uvm.Close()], which runs when the guarded
    part returned an error. *)
Definition closing {A} (r : outcome A) (vmID : string) : list event :=
  match r with
  | Err _ => [EvClose vmID]
  | _ => []
  end.

(** The handles closed by the deferred [uvm.Close()], by id. *)
Definition close_calls (evs : list event) : list string :=
  omap (fun e => match e with EvClose v => Some v | _ => None end) evs.

(** The ways a call of [CreateWCOW] can end.  Its events are those of the
    setup ([pre]), of the provisioning step ([mid]), of the submission
    ([fin]) and of the teardown ([post]). *)
Definition create_spec (h : Host) (opts : OptionsWCOW)
    (r : outcome UtilityVM) (evs : list event) : Prop :=
  exists pre mid fin post,
    evs = pre ++ mid ++ fin ++ post /\ quiet pre
    /\ ((mid = [] /\ fin = [] /\ failed r
         /\ (post = [] \/ exists vmID, post = [EvClose vmID]))
        \/ exists vmID sf uvm1 doc1 o,
             post = closing r vmID
             /\ last (LayerFolders opts) = Some sf
             /\ scsiLocations uvm1 = ∅
             /\ GuestConnection_ (VirtualMachine_ doc1)
                = (if ExternalGuestConnection opts then None
                   else Some EmptyGuestConnection)
             /\ branch_spec h opts sf uvm1 doc1 mid o
             /\ match o with
                | Ok (uvm2, doc2) => submit_spec h opts uvm2 doc2 fin r
                | Err e => fin = [] /\ r = Err e
                | Panic => fin = [] /\ r = Panic
                end).

End Uvm.

(** ** internal/hcsoci: network.go

    These functions are written with explicit state passing: every function
    takes the log of the calls made so far and returns the log it leaves. *)

Module Hcsoci.

Record HNSEndpoint := { Id : string }.

(** The calls to the host networking service ([hns]) and to the hosting
    utility VM, each with the answer it got. *)
Inductive event : Type :=
| EvCreateNamespace (res : error + string)
| EvAddNamespaceEndpoint (netID endpointID : string) (err : option error)
| EvRemoveNamespaceEndpoint (netID endpointID : string) (err : option error)
| EvRemoveNamespace (netID : string) (err : option error)
| EvGetNamespaceEndpoints (netNS : string) (res : error + list string)
| EvGetHNSEndpointByID (id : string) (res : error + HNSEndpoint)
| EvAddNetNS (nsid : string) (err : option error)
| EvAddEndpointsToNS (nsid : string) (endpoints : list HNSEndpoint) (err : option error)
| EvRemoveNetNS (nsid : string) (err : option error).

(** The answers of the networking service and of the hosting VM; each may
    depend on everything that happened before. *)
Record Net := {
  hns_CreateNamespace : list event -> error + string;
  hns_AddNamespaceEndpoint : list event -> string -> string -> option error;
  hns_GetNamespaceEndpoints : list event -> string -> error + list string;
  hns_GetHNSEndpointByID : list event -> string -> error + HNSEndpoint;
  uvm_AddNetNS : list event -> string -> option error;
  uvm_AddEndpointsToNS : list event -> string -> list HNSEndpoint -> option error;
  uvm_RemoveNetNS : list event -> string -> option error }.

(** An entry of [Resources.resources]; [NetworkEndpoints] is the one kind
    that network.go records. *)
Inductive ResourceCloser : Type :=
| NetworkEndpoints (EndpointIDs : list string) (Namespace : string)
| OtherResource (name : string).

Record Resources := {
  netNS : string;
  createdNetNS : bool;
  resources : list ResourceCloser }.

(** [coi.ID] and [coi.Spec.Windows.Network.EndpointList] of
    [createOptionsInternal]. *)
Record createOptionsInternal := {
  ID : string;
  EndpointList : list string }.

Section Network.
Context (n : Net).

(** The loop of [createNetworkNamespace] over the endpoint list;
    [endpoints] is the slice built so far. *)
Fixpoint addEndpoints (netID : string) (EndpointList endpoints : list string)
    (log : list event) : option error * list string * list event :=
  match EndpointList with
  | [] => (None, endpoints, log)
  | endpointID :: rest =>
      let err := hns_AddNamespaceEndpoint n log netID endpointID in
      let log := log ++ [EvAddNamespaceEndpoint netID endpointID err] in
      match err with
      | Some err => (Some err, endpoints, log)
      | None => addEndpoints netID rest (endpoints ++ [endpointID]) log
      end
  end.

(** [resources] is passed by pointer: what the function wrote to it before
    it failed stays written. *)
Definition createNetworkNamespace (coi : createOptionsInternal)
    (resources_ : Resources) (log : list event)
  : option error * Resources * list event :=
  let res := hns_CreateNamespace n log in
  let log := log ++ [EvCreateNamespace res] in
  match res with
  | inl err => (Some err, resources_, log)
  | inr netID =>
      let resources_ :=
        {| netNS := netID; createdNetNS := true;
           resources := resources resources_ |} in
      match addEndpoints netID (EndpointList coi) [] log with
      | (Some err, _, log) => (Some err, resources_, log)
      | (None, endpoints, log) =>
          (None,
           {| netNS := netNS resources_; createdNetNS := createdNetNS resources_;
              resources :=
                resources resources_ ++ [NetworkEndpoints endpoints netID] |},
           log)
      end
  end.

(** The loop of [GetNamespaceEndpoints] over the ids. *)
Fixpoint getEndpointsByID (ids : list string) (endpoints : list HNSEndpoint)
    (log : list event) : (error + list HNSEndpoint) * list event :=
  match ids with
  | [] => (inr endpoints, log)
  | id :: rest =>
      let res := hns_GetHNSEndpointByID n log id in
      let log := log ++ [EvGetHNSEndpointByID id res] in
      match res with
      | inl err => (inl err, log)
      | inr endpoint => getEndpointsByID rest (endpoints ++ [endpoint]) log
      end
  end.

Definition GetNamespaceEndpoints (netNS : string) (log : list event)
  : (error + list HNSEndpoint) * list event :=
  let res := hns_GetNamespaceEndpoints n log netNS in
  let log := log ++ [EvGetNamespaceEndpoints netNS res] in
  match res with
  | inl err => (inl err, log)
  | inr ids => getEndpointsByID ids [] log
  end.

Definition SetupNetworkNamespace (nsid : string) (log : list event)
  : option error * list event :=
  match GetNamespaceEndpoints nsid log with
  | (inl err, log) => (Some err, log)
  | (inr endpoints, log) =>
      let err := uvm_AddNetNS n log nsid in
      let log := log ++ [EvAddNetNS nsid err] in
      match err with
      | Some err => (Some err, log)
      | None =>
          let err := uvm_AddEndpointsToNS n log nsid endpoints in
          let log := log ++ [EvAddEndpointsToNS nsid endpoints err] in
          match err with
          | Some err =>
              (* Best effort clean up the NS *)
              let log := log ++ [EvRemoveNetNS nsid (uvm_RemoveNetNS n log nsid)] in
              (Some err, log)
          | None => (None, log)
          end
      end
  end.

End Network.

(** The bind calls made on the first endpoints of [eps], one per answer. *)
Definition bind_events (netID : string) (eps : list string)
    (answers : list (option error)) : list event :=
  zip_with (fun a ep => EvAddNamespaceEndpoint netID ep a) answers eps.

(** The calls made on the hosting VM, among the events. *)
Definition vm_calls (evs : list event) : list event :=
  List.filter (fun e => match e with
                        | EvAddNetNS _ _ | EvAddEndpointsToNS _ _ _
                        | EvRemoveNetNS _ _ => true
                        | _ => false
                        end) evs.

(** The lookups made on the networking service, one per answer, for the
    first ids of [ids]. *)
Definition lookup_events (ids : list string) (answers : list (error + HNSEndpoint))
  : list event :=
  zip_with (fun a id => EvGetHNSEndpointByID id a) answers ids.

(** *** The mounts of a cloned container ([addMountsToClone]) *)

Definition MappedDirectoryResourcePath : string := "Container/MappedDirectories".
Definition MappedPipeResourcePath : string := "Container/MappedPipes".

(** [HostPath] is the field the sources name; the other fields of the absent
    declarations travel in [OtherFields]. *)
Record MappedDirectory := { md_HostPath : string; md_OtherFields : members }.
Record MappedPipe := { mp_HostPath : string; mp_OtherFields : members }.

(** The [Settings interface{}] of a request: one of the two payloads that
    [addMountsToClone] sends. *)
Inductive Settings : Type :=
| DirectorySettings (md : MappedDirectory)
| PipeSettings (mp : MappedPipe).

Record ModifySettingRequest := {
  RequestType : string;
  ResourcePath : string;
  Settings_ : Settings }.

Record mountsConfig := {
  mdsv2 : list MappedDirectory;
  mpsv2 : list MappedPipe }.

(** A [c.Modify] call with its answer. *)
Definition modify_call : Type := ModifySettingRequest * option error.

(** The container ([cow.Container]): what [Modify] answers, given the calls
    made so far. *)
Record Container := {
  Modify : list modify_call -> ModifySettingRequest -> option error }.

Section Mounts.
(** [requesttype.Add], a constant of a package that is not at hand. *)
Context (requesttype_Add : string).
Context (c : Container).

Definition directory_request (md : MappedDirectory) : ModifySettingRequest :=
  {| RequestType := requesttype_Add;
     ResourcePath := MappedDirectoryResourcePath;
     Settings_ := DirectorySettings md |}.

Definition pipe_request (mp : MappedPipe) : ModifySettingRequest :=
  {| RequestType := requesttype_Add;
     ResourcePath := MappedPipeResourcePath;
     Settings_ := PipeSettings mp |}.

(** [fmt.Errorf("Error while adding mapped directory (%s) to the container: %s",
    md.HostPath, err)] *)
Definition directory_error (md : MappedDirectory) (err : error) : error :=
  String.append "Error while adding mapped directory ("
    (String.append (md_HostPath md)
       (String.append ") to the container: " err)).

Definition pipe_error (mp : MappedPipe) (err : error) : error :=
  String.append "Error while adding mapped pipe ("
    (String.append (mp_HostPath mp)
       (String.append ") to the container: " err)).

(** The loop over [mounts.mdsv2]. *)
Fixpoint addMappedDirectories (mds : list MappedDirectory) (log : list modify_call)
  : option error * list modify_call :=
  match mds with
  | [] => (None, log)
  | md :: rest =>
      let requestDocument := directory_request md in
      let err := Modify c log requestDocument in
      let log := log ++ [(requestDocument, err)] in
      match err with
      | Some err => (Some (directory_error md err), log)
      | None => addMappedDirectories rest log
      end
  end.

(** The loop over [mounts.mpsv2]. *)
Fixpoint addMappedPipes (mps : list MappedPipe) (log : list modify_call)
  : option error * list modify_call :=
  match mps with
  | [] => (None, log)
  | mp :: rest =>
      let requestDocument := pipe_request mp in
      let err := Modify c log requestDocument in
      let log := log ++ [(requestDocument, err)] in
      match err with
      | Some err => (Some (pipe_error mp err), log)
      | None => addMappedPipes rest log
      end
  end.

Definition addMountsToClone (mounts : mountsConfig) (log : list modify_call)
  : option error * list modify_call :=
  match addMappedDirectories (mdsv2 mounts) log with
  | (Some err, log) => (Some err, log)
  | (None, log) => addMappedPipes (mpsv2 mounts) log
  end.

(** The requests for all the mounts: the directories, then the pipes. *)
Definition mount_requests (mounts : mountsConfig) : list ModifySettingRequest :=
  map directory_request (mdsv2 mounts) ++ map pipe_request (mpsv2 mounts).

(** The error that [addMountsToClone] reports for a request that failed. *)
Definition mount_error (req : ModifySettingRequest) (err : error) : error :=
  match Settings_ req with
  | DirectorySettings md => directory_error md err
  | PipeSettings mp => pipe_error mp err
  end.

End Mounts.

(** The first requests of [reqs], one per answer, as calls. *)
Definition modify_calls (reqs : list ModifySettingRequest)
    (answers : list (option error)) : list modify_call :=
  zip_with (fun a r => (r, a)) answers reqs.

End Hcsoci.

(** ** Concrete hosts and requests

    Small closed inputs on which the definitions above are evaluated. *)

Module Examples.
Import hcsschema Mergemaps Uvm.

(** A host on which every call succeeds; it has four logical processors. *)
Definition host4 : Host := {|
  filepath_Join := fun a b => String.append a (String.append "\" b);
  os_MkdirAll := fun _ _ => None;
  os_MkdirAll_parents := fun _ _ => ∅;
  guid_NewV4 := fun _ => inr "generated-id";
  winio_ListenHvsock := fun _ _ => None;
  hostProcessorInfo := fun _ => inr {| LogicalProcessorCount := 4 |};
  uvm_create := fun _ _ _ => inr "runtime-id";
  verifyOptions := fun _ => None;
  errBadUVMOpts := "UVM options incorrect";
  LocateUVMFolder := fun _ l => inr (hd "" l);
  wcow_CreateUVMScratch := fun _ _ _ _ => None;
  normalizeMemorySize := fun _ n => n;
  DefaultVSMBOptions := fun _ ro =>
    {| ReadOnly := ro; TakeBackupPrivilege := false; OtherFlags := [] |};
  SetSaveableVSMBOptions := fun _ o _ => o;
  SchemaV21 := {| Major := 2; Minor := 1 |};
  WindowsGcsHvsockServiceID := "gcs-service-id";
  CLONING_DEFAULT_NETWORK_NAMESPACE_ID := "default-clone-namespace" |}.

Definition empty_world : World := {| fs := ∅; log := [] |}.

Definition base_options (fragment : RawJSON) (iops : Z) : Options := {|
  ID := "vm1"; Owner_ := "owner";
  AdditionHCSDocumentJSON := fragment;
  MemorySizeInMB := 1024;
  LowMMIOGapInMB_ := 0; HighMMIOBaseInMB_ := 0; HighMMIOGapInMB_ := 0;
  AllowOvercommit_ := true; FullyPhysicallyBacked := false;
  EnableDeferredCommit_ := false;
  ProcessorCount := 64; ProcessorLimit := 0; ProcessorWeight := 0;
  StorageQoSIopsMaximum := iops; StorageQoSBandwidthMaximum := 0;
  ExternalGuestConnection := false |}.

(** [Options{ProcessorCount: 64}] with [LayerFolders = [layer1, scratchDir]],
    built from scratch. *)
Definition fresh_with (fragment : RawJSON) (iops : Z) : OptionsWCOW := {|
  Options_ := base_options fragment iops;
  LayerFolders := ["layer1"; "scratchDir"];
  IsTemplate := false; IsClone := false; TemplateConfig := None |}.

Definition fresh_opts : OptionsWCOW := fresh_with RawEmpty 0.

(** A resource whose replay succeeds and changes nothing. *)
Definition replays (name : string) : Cloneable := {|
  res_name := name;
  Clone := fun uvm cd w =>
    {| clone_err := None; clone_uvm := uvm; clone_doc := cd_doc cd;
       clone_fs := fs w |} |}.

(** A resource whose replay fails. *)
Definition breaks (name : string) (err : error) : Cloneable := {|
  res_name := name;
  Clone := fun uvm cd w =>
    {| clone_err := Some err; clone_uvm := uvm; clone_doc := cd_doc cd;
       clone_fs := fs w |} |}.

Definition clone_of (rs : list Cloneable) : OptionsWCOW := {|
  Options_ := base_options RawEmpty 0;
  LayerFolders := ["layer1"; "scratchDir"];
  IsTemplate := false; IsClone := true;
  TemplateConfig := Some {| tc_UVMID := "template"; Resources := rs |} |}.

(** A resource whose replay succeeds and takes the guest-connection marker
    out of the document. *)
Definition forgets_marker (name : string) : Cloneable := {|
  res_name := name;
  Clone := fun uvm cd w =>
    {| clone_err := None; clone_uvm := uvm;
       clone_doc :=
         {| Owner := Owner (cd_doc cd);
            SchemaVersion := SchemaVersion (cd_doc cd);
            VirtualMachine_ := set_GuestConnection None (VirtualMachine_ (cd_doc cd));
            ShouldTerminateOnLastHandleClosed :=
              ShouldTerminateOnLastHandleClosed (cd_doc cd) |};
       clone_fs := fs w |} |}.

(** A clone of a template with two resources that replay. *)
Definition clone_opts : OptionsWCOW := clone_of [replays "share"; replays "nic"].

(** A clone of a template whose second resource fails to replay. *)
Definition broken_clone_opts : OptionsWCOW :=
  clone_of [replays "share"; breaks "disk" "no such file"; replays "nic"].

(** A fragment that sets the path of the attachment at SCSI 0:0. *)
Definition path_fragment : RawJSON :=
  RawObject
    [("VirtualMachine", JObj
       [("Devices", JObj
          [("Scsi", JObj
             [("0", JObj
                [("Attachments", JObj
                   [("0", JObj [("Path", JStr "elsewhere.vhdx")])])])])])])].

(** A fragment that sets the memory size and nothing else. *)
Definition memory_fragment : RawJSON :=
  RawObject
    [("VirtualMachine", JObj
       [("ComputeTopology", JObj [("Memory", JObj [("SizeInMB", JNum 2048)])])])].

(** A fragment that puts a string in the place of the VM block. *)
Definition string_fragment : RawJSON :=
  RawObject [("VirtualMachine", JStr "none")].

(** The handle as [CreateWCOW] builds it for [fresh_opts]. *)
Definition fresh_uvm : UtilityVM := {|
  id := "vm1"; owner := "owner"; operatingSystem := "windows";
  scsiControllerCount := 1;
  vsmbDirShares := ∅; vsmbFileShares := ∅; vpciDevices := ∅;
  physicallyBacked := false; devicesPhysicallyBacked := false;
  processorCount := 0; scsiLocations := ∅; namespaces := None;
  isClone := false; runtimeID := ""; gcListener := None |}.

(** The document that [CreateWCOW] submits for [clone_opts] on [host4]. *)
Definition clone_document : json :=
  Eval vm_compute in
    hd JNull (map fst (submitted (snd (run (CreateWCOW host4 clone_opts) empty_world)))).

End Examples.

Module NetExamples.
Import Hcsoci.

(** A networking service on which binding endpoint ["B"] fails, and a VM in
    which attaching the endpoints and removing the namespace both fail. *)
Definition net : Net := {|
  hns_CreateNamespace := fun _ => inr "ns1";
  hns_AddNamespaceEndpoint := fun _ _ ep =>
    if String.eqb ep "B" then Some "bind failed" else None;
  hns_GetNamespaceEndpoints := fun _ _ => inr ["A"];
  hns_GetHNSEndpointByID := fun _ id => inr {| Id := id |};
  uvm_AddNetNS := fun _ _ => None;
  uvm_AddEndpointsToNS := fun _ _ _ => Some "attach failed";
  uvm_RemoveNetNS := fun _ _ => Some "remove failed" |}.

Definition no_resources : Resources :=
  {| netNS := ""; createdNetNS := false; resources := [] |}.

Definition coi_AB : createOptionsInternal :=
  {| ID := "c1"; EndpointList := ["A"; "B"] |}.

End NetExamples.

Module MoreExamples.
Import hcsschema Mergemaps Uvm Examples.

(** [host4] with another answer of [verifyOptions]. *)
Definition with_verifyOptions (h : Host) (v : OptionsWCOW -> option error) : Host := {|
  filepath_Join := filepath_Join h;
  os_MkdirAll := os_MkdirAll h;
  os_MkdirAll_parents := os_MkdirAll_parents h;
  guid_NewV4 := guid_NewV4 h;
  winio_ListenHvsock := winio_ListenHvsock h;
  hostProcessorInfo := hostProcessorInfo h;
  uvm_create := uvm_create h;
  verifyOptions := v;
  errBadUVMOpts := errBadUVMOpts h;
  LocateUVMFolder := LocateUVMFolder h;
  wcow_CreateUVMScratch := wcow_CreateUVMScratch h;
  normalizeMemorySize := normalizeMemorySize h;
  DefaultVSMBOptions := DefaultVSMBOptions h;
  SetSaveableVSMBOptions := SetSaveableVSMBOptions h;
  SchemaV21 := SchemaV21 h;
  WindowsGcsHvsockServiceID := WindowsGcsHvsockServiceID h;
  CLONING_DEFAULT_NETWORK_NAMESPACE_ID := CLONING_DEFAULT_NETWORK_NAMESPACE_ID h |}.

(** A host that rejects every request. *)
Definition strict_host : Host :=
  with_verifyOptions host4 (fun _ => Some "at least 2 LayerFolders must be supplied").

(** A host on which no listener can be opened. *)
Definition deaf_host : Host := {|
  filepath_Join := filepath_Join host4;
  os_MkdirAll := os_MkdirAll host4;
  os_MkdirAll_parents := os_MkdirAll_parents host4;
  guid_NewV4 := guid_NewV4 host4;
  winio_ListenHvsock := fun _ _ => Some "access denied";
  hostProcessorInfo := hostProcessorInfo host4;
  uvm_create := uvm_create host4;
  verifyOptions := verifyOptions host4;
  errBadUVMOpts := errBadUVMOpts host4;
  LocateUVMFolder := LocateUVMFolder host4;
  wcow_CreateUVMScratch := wcow_CreateUVMScratch host4;
  normalizeMemorySize := normalizeMemorySize host4;
  DefaultVSMBOptions := DefaultVSMBOptions host4;
  SetSaveableVSMBOptions := SetSaveableVSMBOptions host4;
  SchemaV21 := SchemaV21 host4;
  WindowsGcsHvsockServiceID := WindowsGcsHvsockServiceID host4;
  CLONING_DEFAULT_NETWORK_NAMESPACE_ID := CLONING_DEFAULT_NETWORK_NAMESPACE_ID host4 |}.

(** A world in which the scratch folder of [fresh_opts] is there already. *)
Definition scratch_world : World := {| fs := {[ "scratchDir" ]}; log := [] |}.


(** The handle that [CreateWCOW] returns for [fresh_opts], resp. [clone_opts],
    on [host4]; [fresh_uvm] stands in if there is none. *)
Definition fresh_handle : UtilityVM :=
  match fst (CreateWCOW host4 fresh_opts empty_world) with
  | Ok u => u
  | _ => fresh_uvm
  end.

Definition clone_handle : UtilityVM :=
  match fst (CreateWCOW host4 clone_opts empty_world) with
  | Ok u => u
  | _ => fresh_uvm
  end.

End MoreExamples.

Module MountExamples.
Import Hcsoci.

(** A container that accepts mapped directories and refuses mapped pipes. *)
Definition no_pipes : Container := {|
  Modify := fun _ req =>
    if String.eqb (ResourcePath req) MappedPipeResourcePath
    then Some "access denied" else None |}.

(** A container that accepts every request. *)
Definition obliging : Container := {| Modify := fun _ _ => None |}.

Definition data_dir : MappedDirectory :=
  {| md_HostPath := "C:\data"; md_OtherFields := [] |}.

Definition log_pipe : MappedPipe :=
  {| mp_HostPath := "\\.\pipe\log"; mp_OtherFields := [] |}.

Definition dir_and_pipe : mountsConfig :=
  {| mdsv2 := [data_dir]; mpsv2 := [log_pipe] |}.

End MountExamples.

(** * Properties *)

(** ** The merge of the caller's fragment *)

Section MergeFacts.
Import Json Mergemaps.

Lemma Merge_objects (dm fm : members) :
  Merge (JObj dm) (JObj fm)
  = JObj (merge_members fm dm
          ++ List.filter (fun kv => negb (has_key (fst kv) dm)) fm).
Proof. reflexivity. Qed.

Lemma field_app (k : string) (a b : members) :
  field k (a ++ b) = match field k a with Some v => Some v | None => field k b end.
Proof.
  induction a as [|[k' v] a IH]; simpl; [reflexivity|].
  destruct (String.eqb k k'); [reflexivity|exact IH].
Qed.

Lemma field_merge_members (k : string) (fm dm : members) :
  field k (merge_members fm dm)
  = match field k dm with
    | Some v => Some (match field k fm with Some vf => Merge v vf | None => v end)
    | None => None
    end.
Proof.
  induction dm as [|[k' v] dm IH]; simpl; [reflexivity|].
  destruct (String.eqb k k') eqn:E.
  - apply String.eqb_eq in E. subst k'. reflexivity.
  - exact IH.
Qed.

Lemma merge_members_nil (dm : members) : merge_members [] dm = dm.
Proof.
  induction dm as [|[k v] dm IH]; simpl; [reflexivity|]. by rewrite IH.
Qed.

Lemma has_key_false (k : string) (m : members) :
  has_key k m = false <-> field k m = None.
Proof. unfold has_key. destruct (field k m); split; congruence. Qed.

Lemma field_filter_new (k : string) (dm fm : members) :
  field k dm = None ->
  field k (List.filter (fun kv => negb (has_key (fst kv) dm)) fm) = field k fm.
Proof.
  intros Hk. induction fm as [|[k' v] fm IH]; [reflexivity|]. cbn [List.filter fst].
  destruct (has_key k' dm) eqn:Hk'; cbn [negb field].
  - destruct (String.eqb k k') eqn:E; [|exact IH].
    apply String.eqb_eq in E. subst k'. apply has_key_false in Hk. congruence.
  - by rewrite IH.
Qed.

(** A fragment that says nothing about a place holds nothing there. *)
Lemma leaves_alone_absent (p : list string) :
  forall v, leaves_alone p v = true -> get_path p v = None.
Proof.
  induction p as [|k p IH]; intros v Hv; [done|].
  destruct v as [| | | | |fm]; try done. cbn in Hv |- *.
  destruct (field k fm) as [v'|]; [by apply IH|done].
Qed.

(** The merge keeps what the document holds at a place about which the
    fragment says nothing. *)
Lemma Merge_leaves_alone (p : list string) :
  forall doc frag, leaves_alone p frag = true ->
    get_path p (Merge doc frag) = get_path p doc.
Proof.
  induction p as [|k p IH]; intros doc frag Hfrag; [done|].
  destruct frag as [| | | | |fm]; try done.
  destruct doc as [| | | | |dm];
    try (change (get_path (k :: p) (JObj fm) = None); by apply leaves_alone_absent).
  rewrite Merge_objects. cbn [get_path get]. cbn [leaves_alone] in Hfrag.
  rewrite field_app, field_merge_members.
  destruct (field k dm) as [v|] eqn:Hd.
  - destruct (field k fm) as [vf|]; [by apply IH|done].
  - rewrite (field_filter_new _ _ _ Hd).
    destruct (field k fm) as [vf|]; [by apply leaves_alone_absent|done].
Qed.

Lemma MergeJSON_untouched (p : list string) (doc d : json) (raw : RawJSON) :
  MergeJSON doc raw = inr d ->
  untouched p raw = true ->
  get_path p d = get_path p doc.
Proof.
  destruct raw as [|text|fm]; cbn [MergeJSON untouched]; [by intros [= <-]|done|].
  intros [= <-] Hraw. by apply Merge_leaves_alone.
Qed.

(** C8. Merging an empty override fragment (no text at all, or the empty
    object) into a document [d] yields [d]; and when no top-level key of the
    fragment is a key of [d], every key of [d] keeps its value in the merged
    document. *)
Theorem MergeJSON_empty_and_new_keys (d : members) :
  MergeJSON (JObj d) RawEmpty = inr (JObj d)
  /\ MergeJSON (JObj d) (RawObject []) = inr (JObj d)
  /\ forall fm : members,
       (forall k, has_key k fm = true -> has_key k d = false) ->
       exists merged : members,
         MergeJSON (JObj d) (RawObject fm) = inr (JObj merged)
         /\ forall k v, field k d = Some v -> field k merged = Some v.
Proof.
  split; [reflexivity|]. split.
  - unfold MergeJSON. rewrite Merge_objects, merge_members_nil. simpl.
    by rewrite app_nil_r.
  - intros fm Hnew. eexists. split; [unfold MergeJSON; by rewrite Merge_objects|].
    intros k v Hd. rewrite field_app, field_merge_members, Hd.
    destruct (field k fm) eqn:Hf; [|reflexivity].
    assert (has_key k fm = true) as Hk by (unfold has_key; by rewrite Hf).
    apply Hnew, has_key_false in Hk. congruence.
Qed.

Lemma MergeJSON_empty_and_new_keys_witness :
  let d := [("Owner", JStr "owner"); ("VirtualMachine", JObj [])] in
  let fm := [("Container", JNum 1)] in
  (forall k, has_key k fm = true -> has_key k d = false)
  /\ exists merged : members,
       MergeJSON (JObj d) (RawObject fm) = inr (JObj merged)
       /\ forall k v, field k d = Some v -> field k merged = Some v.
Proof.
  intros d fm.
  assert (forall k, has_key k fm = true -> has_key k d = false) as Hnew.
  { intros k. unfold has_key, fm. simpl.
    destruct (String.eqb k "Container") eqn:E; [|discriminate].
    apply String.eqb_eq in E. subst k. reflexivity. }
  split; [exact Hnew|].
  exact (proj2 (proj2 (MergeJSON_empty_and_new_keys d)) fm Hnew).
Defined.

End MergeFacts.

(** ** Utility-VM creation *)

Section UvmFacts.
Import Json Mergemaps hcsschema Uvm Examples.

Lemma wp_run {A} (m : M A) (w : World) Q :
  wp m w Q -> Q (run m w).1 (run m w).2 (m w).2.
Proof.
  intros (evs & Hlog & HQ). unfold run. cbn [fst snd].
  by rewrite Hlog, drop_app_length.
Qed.

Lemma wp_wand {A} (m : M A) (w : World) (Q Q' : outcome A -> list event -> World -> Prop) :
  wp m w Q -> (forall r evs w', Q r evs w' -> Q' r evs w') -> wp m w Q'.
Proof. intros (evs & Hlog & HQ) H. exists evs. auto. Qed.

Lemma wp_ret {A} (a : A) (w : World) Q : Q (Ok a) [] w -> wp (mret a) w Q.
Proof. intros HQ. exists []. split; [by rewrite app_nil_r|exact HQ]. Qed.

Lemma wp_throw {A} (e : error) (w : World) (Q : outcome A -> _) :
  Q (Err e) [] w -> wp (throw e) w Q.
Proof. intros HQ. exists []. split; [by rewrite app_nil_r|exact HQ]. Qed.

Lemma wp_panic {A} (w : World) (Q : outcome A -> _) :
  Q Panic [] w -> wp panic w Q.
Proof. intros HQ. exists []. split; [by rewrite app_nil_r|exact HQ]. Qed.

Lemma wp_bind {A B} (m : M A) (f : A -> M B) (w : World) Q :
  wp m w (fun r evs w1 =>
            match r with
            | Ok a => wp (f a) w1 (fun r' evs' w2 => Q r' (evs ++ evs') w2)
            | Err e => Q (Err e) evs w1
            | Panic => Q Panic evs w1
            end) ->
  wp (m ≫= f) w Q.
Proof.
  intros (evs & Hlog & H). unfold wp, mbind, M_bind.
  destruct (m w) as [[a|e|] w1]; cbn [fst snd] in *.
  - destruct H as (evs' & Hlog' & HQ). exists (evs ++ evs').
    rewrite Hlog', Hlog, app_assoc. by destruct (f a w1).
  - by exists evs.
  - by exists evs.
Qed.

Lemma wp_try {A} (wrapped : error -> error) (m : M (error + A)) (w : World) Q :
  wp m w (fun r evs w1 =>
            match r with
            | Ok (inl err) => Q (Err (wrapped err)) evs w1
            | Ok (inr a) => Q (Ok a) evs w1
            | Err e => Q (Err e) evs w1
            | Panic => Q Panic evs w1
            end) ->
  wp (try wrapped m) w Q.
Proof.
  intros H. apply wp_bind. eapply wp_wand; [exact H|].
  intros [[err|a]|e|] evs w1 HQ; try done.
  - apply wp_throw. by rewrite app_nil_r.
  - apply wp_ret. by rewrite app_nil_r.
Qed.

Lemma wp_check (wrapped : error -> error) (m : M (option error)) (w : World) Q :
  wp m w (fun r evs w1 =>
            match r with
            | Ok (Some err) => Q (Err (wrapped err)) evs w1
            | Ok None => Q (Ok tt) evs w1
            | Err e => Q (Err e) evs w1
            | Panic => Q Panic evs w1
            end) ->
  wp (check wrapped m) w Q.
Proof.
  intros H. apply wp_bind. eapply wp_wand; [exact H|].
  intros [[err|]|e|] evs w1 HQ; try done.
  - apply wp_throw. by rewrite app_nil_r.
  - apply wp_ret. by rewrite app_nil_r.
Qed.

Lemma wp_rethrow {A} (wrapped : error -> error) (m : M A) (w : World) Q :
  wp m w (fun r evs w1 =>
            match r with
            | Err e => Q (Err (wrapped e)) evs w1
            | r => Q r evs w1
            end) ->
  wp (rethrow wrapped m) w Q.
Proof.
  intros (evs & Hlog & H). exists evs. unfold rethrow.
  by destruct (m w) as [[a|e|] w1].
Qed.

Lemma wp_defer_Close {A} (uvm : UtilityVM) (m : M A) (w : World) Q :
  wp m w (fun r evs w1 =>
            match r with
            | Err e => Q (Err e) (evs ++ [EvClose (id uvm)]) (Close uvm w1)
            | r => Q r evs w1
            end) ->
  wp (defer_Close_on_error uvm m) w Q.
Proof.
  intros (evs & Hlog & H). unfold wp, defer_Close_on_error.
  destruct (m w) as [[a|e|] w1]; cbn [fst snd] in *; try by exists evs.
  exists (evs ++ [EvClose (id uvm)]). split; [|done].
  unfold Close, emit. cbn [log]. by rewrite Hlog, app_assoc.
Qed.

(** Primitive calls: one event each. *)
Lemma wp_Stat (path : string) (w : World) Q :
  Q (Ok (bool_decide (path ∉ fs w))) [EvStat path] (emit (EvStat path) w) ->
  wp (os_Stat_IsNotExist path) w Q.
Proof. intros H. by exists [EvStat path]. Qed.

Lemma wp_MkdirAll h (path : string) (w : World) Q :
  let made := os_MkdirAll_parents h w path ∪ fs w in
  (forall err, os_MkdirAll h w path = Some err ->
     Q (Ok (Some err)) [EvMkdirAll path] (emit (EvMkdirAll path) (set_fs made w))) ->
  (os_MkdirAll h w path = None ->
     Q (Ok None) [EvMkdirAll path]
       (emit (EvMkdirAll path) (touch path (set_fs made w)))) ->
  wp (MkdirAll h path) w Q.
Proof.
  intros made H1 H2. exists [EvMkdirAll path]. unfold MkdirAll. fold made.
  destruct (os_MkdirAll h w path); cbn [fst snd]; auto.
Qed.

Lemma wp_CreateUVMScratch h (uvmFolder scratchFolder vmID : string) (w : World) Q :
  let e := EvCreateUVMScratch uvmFolder scratchFolder vmID in
  (forall err, wcow_CreateUVMScratch h w uvmFolder scratchFolder vmID = Some err ->
     Q (Ok (Some err)) [e] (emit e w)) ->
  (wcow_CreateUVMScratch h w uvmFolder scratchFolder vmID = None ->
     Q (Ok None) [e] (emit e (touch (filepath_Join h scratchFolder "sandbox.vhdx") w))) ->
  wp (CreateUVMScratch h uvmFolder scratchFolder vmID) w Q.
Proof.
  intros e H1 H2. exists [e]. unfold CreateUVMScratch.
  destruct (wcow_CreateUVMScratch h w uvmFolder scratchFolder vmID); cbn [fst snd]; auto.
Qed.

Lemma wp_NewV4 h (w : World) Q :
  Q (Ok (guid_NewV4 h w)) [EvNewGuid] (emit EvNewGuid w) -> wp (NewV4 h) w Q.
Proof. intros H. by exists [EvNewGuid]. Qed.

Lemma wp_LocateUVMFolder h (l : list string) (w : World) Q :
  Q (Ok (LocateUVMFolder h w l)) [EvLocateUVMFolder l] (emit (EvLocateUVMFolder l) w) ->
  wp (LocateUVMFolder_ h l) w Q.
Proof. intros H. by exists [EvLocateUVMFolder l]. Qed.

Lemma wp_hostProcessorInfo h (w : World) Q :
  Q (Ok (hostProcessorInfo h w)) [EvHostProcessorInfo] (emit EvHostProcessorInfo w) ->
  wp (hostProcessorInfo_ h) w Q.
Proof. intros H. by exists [EvHostProcessorInfo]. Qed.

Lemma wp_create h (uvm : UtilityVM) (d : json) (w : World) Q :
  let res := uvm_create h w uvm d in
  Q (Ok res) [EvCreate d res] (emit (EvCreate d res) w) ->
  wp (create h uvm d) w Q.
Proof. intros res H. by exists [EvCreate d res]. Qed.

Lemma wp_ListenHvsock h (addr : HvsockAddr) (w : World) Q :
  let err := winio_ListenHvsock h w addr in
  Q (Ok err) [EvListenHvsock addr err] (emit (EvListenHvsock addr err) w) ->
  wp (ListenHvsock h addr) w Q.
Proof. intros err H. by exists [EvListenHvsock addr err]. Qed.

Lemma wp_call_Clone (r : Cloneable) (uvm : UtilityVM) (cd : CloneData) (w : World) Q :
  let res := Clone r uvm cd w in
  let e := EvClone (res_name r) (clone_err res) in
  Q (Ok res) [e] (emit e (set_fs (clone_fs res) w)) ->
  wp (call_Clone r uvm cd) w Q.
Proof. intros res e H. by exists [e]. Qed.


Lemma getScratchFolder_spec h (opts : OptionsWCOW) (w : World) :
  wp (getScratchFolder h opts) w (fun r evs w' =>
    match last (LayerFolders opts) with
    | None => r = Panic /\ evs = []
    | Some sf =>
        ((sf ∈ fs w) /\ evs = [EvStat sf] /\ r = Ok sf /\ fs w' = fs w)
        \/ ((sf ∉ fs w) /\ evs = [EvStat sf; EvMkdirAll sf]
            /\ let made := os_MkdirAll_parents h (emit (EvStat sf) w) sf in
               ((r = Ok sf /\ os_MkdirAll h (emit (EvStat sf) w) sf = None
                 /\ fs w' = {[ sf ]} ∪ (made ∪ fs w))
                \/ (exists err,
                      r = Err (wrap "failed to create utility VM scratch folder" err)
                      /\ os_MkdirAll h (emit (EvStat sf) w) sf = Some err
                      /\ fs w' = made ∪ fs w)))
    end).
Proof.
  unfold getScratchFolder. destruct (last (LayerFolders opts)) as [sf|].
  2: { by apply wp_panic. }
  apply wp_bind, wp_Stat. case_bool_decide as Hin.
  - apply wp_bind, wp_check, wp_MkdirAll.
    + intros err Herr. right. split_and!; try done. right. by exists err.
    + intros Hnone. apply wp_ret. right. split_and!; try done. by left.
  - apply wp_ret. left. split_and!; first [done | by apply dec_stable].
Qed.

Lemma createSandboxVhdx_spec h (uf sf vmID : string) (w : World) :
  let p := filepath_Join h sf "sandbox.vhdx" in
  wp (createSandboxVhdx h uf sf vmID) w (fun r evs w' =>
    ((p ∈ fs w) /\ evs = [EvStat p] /\ r = Ok p /\ fs w' = fs w)
    \/ ((p ∉ fs w) /\ evs = [EvStat p; EvCreateUVMScratch uf sf vmID]
        /\ ((r = Ok p /\ fs w' = {[ p ]} ∪ fs w)
            \/ (exists e, r = Err e /\ fs w' = fs w)))).
Proof.
  intros p. unfold createSandboxVhdx. fold p.
  apply wp_bind, wp_Stat. case_bool_decide as Hin.
  - apply wp_bind, wp_check, wp_CreateUVMScratch.
    + intros err _. right. eauto 10.
    + intros _. apply wp_ret. right. split_and!; try done. by left.
  - apply wp_ret. left. split_and!; first [done | by apply dec_stable].
Qed.

Lemma prepareConfigDoc_spec h (uvm : UtilityVM) (opts : OptionsWCOW) (uf : string)
    (w : World) :
  wp (prepareConfigDoc h uvm opts uf) w (fun r evs w' =>
    evs = [EvHostProcessorInfo]
    /\ match hostProcessorInfo h w with
       | inl err => r = Err (wrap "failed to get host processor information" err)
       | inr pt =>
           exists doc uvm',
             r = Ok (doc, uvm')
             /\ scsiLocations uvm' = scsiLocations uvm
             /\ id uvm' = id uvm
             /\ processorCount uvm' = normalizeProcessorCount (ProcessorCount opts) pt
             /\ Count (Processor (ComputeTopology (VirtualMachine_ doc)))
                = normalizeProcessorCount (ProcessorCount opts) pt
             /\ GuestConnection_ (VirtualMachine_ doc)
                = (if ExternalGuestConnection opts then None
                   else Some EmptyGuestConnection)
             /\ StorageQoS_ (VirtualMachine_ doc)
                = (if (0 <? StorageQoSBandwidthMaximum opts)
                      || (0 <? StorageQoSIopsMaximum opts)
                   then Some {| IopsMaximum := StorageQoSIopsMaximum opts;
                                BandwidthMaximum := StorageQoSBandwidthMaximum opts |}
                   else None)
       end).
Proof.
  unfold prepareConfigDoc. apply wp_bind, wp_try, wp_hostProcessorInfo.
  destruct (hostProcessorInfo h w) as [err|pt]; [done|].
  apply wp_ret. split; [done|].
  eexists _, _. split; [reflexivity|].
  destruct (ExternalGuestConnection opts),
    ((0 <? StorageQoSBandwidthMaximum opts) || (0 <? StorageQoSIopsMaximum opts));
    done.
Qed.

Lemma cloneResources_spec (rs : list Cloneable) (sf ID : string) :
  forall (uvm : UtilityVM) (doc : ComputeSystem) (w : World),
  wp (cloneResources rs sf ID uvm doc) w (fun r evs _ =>
    exists calls,
      evs = map ev_clone calls
      /\ replay_spec rs calls r
      /\ forall uvm2 doc2, r = Ok (uvm2, doc2) ->
           (Forall keeps_slot00 rs ->
            scsiLocations uvm2 !! (0%nat, 0%nat) = scsiLocations uvm !! (0%nat, 0%nat))
           /\ (Forall keeps_GuestConnection rs ->
               GuestConnection_ (VirtualMachine_ doc2)
               = GuestConnection_ (VirtualMachine_ doc))).
Proof.
  induction rs as [|r rs IH]; intros uvm doc w.
  - apply wp_ret. exists []. split_and!; [done..|]. intros ?? [= <- <-]. done.
  - cbn [cloneResources]. apply wp_bind, wp_call_Clone.
    set (cd := {| cd_doc := doc; cd_scratchFolder := sf; cd_UVMID := ID |}).
    destruct (clone_err (Clone r uvm cd w)) as [err|] eqn:E.
    + apply wp_throw. exists [(res_name r, Some err)]. split_and!; [done| |done].
      exists [], r, rs, err. done.
    + eapply wp_wand; [apply IH|]. intros o evs w' (calls & -> & Hspec & Hframe).
      exists ((res_name r, None) :: calls). split_and!; [done| |].
      * destruct o as [a|e|]; cbn in *; [by rewrite Hspec| |done].
        destruct Hspec as (pre & r' & post & err & -> & -> & ->).
        exists (r :: pre), r', post, err. done.
      * intros uvm2 doc2 Ho. destruct (Hframe _ _ Ho) as [H1 H2]. split.
        -- intros [Hr Hrs]%Forall_cons. rewrite (H1 Hrs). apply Hr.
        -- intros [Hr Hrs]%Forall_cons. rewrite (H2 Hrs). apply (Hr uvm cd w).
Qed.

Lemma branch_wp h (opts : OptionsWCOW) (uf sf : string) (uvm : UtilityVM)
    (doc : ComputeSystem) (w : World) :
  wp (if negb (IsClone opts) then attachScratch h uvm doc uf sf
      else replayTemplate h uvm doc opts sf) w
     (fun r evs _ => branch_spec h opts sf uvm doc evs r).
Proof.
  unfold branch_spec. destruct (IsClone opts); cbn [negb].
  - unfold replayTemplate. destruct (TemplateConfig opts) as [tc|].
    2: { by apply wp_panic. }
    apply wp_bind. eapply wp_wand; [apply cloneResources_spec|].
    intros o evs w' (calls & -> & Hspec & Hframe).
    destruct o as [[uvm2 doc2]|e|].
    + apply wp_ret. exists calls. rewrite app_nil_r. split_and!; [done..|].
      intros ?? [= <- <-]. destruct (Hframe _ _ eq_refl) as [H1 H2]. done.
    + exists calls. split_and!; [done..|]. done.
    + done.
  - unfold attachScratch. apply wp_bind.
    eapply wp_wand; [apply createSandboxVhdx_spec|].
    intros o evs w' [(_ & -> & -> & _)|(_ & -> & [[-> _]|(e & -> & _)])].
    + apply wp_ret. split_and!; try done.
      * repeat constructor; done.
      * cbn. by rewrite lookup_insert_eq, !lookup_total_singleton.
    + apply wp_ret. split_and!; try done.
      * repeat constructor; done.
      * cbn. by rewrite lookup_insert_eq, !lookup_total_singleton.
    + split_and!; try done. repeat constructor; done.
Qed.

Lemma submitDocument_wp h (opts : OptionsWCOW) (uvm : UtilityVM)
    (doc : ComputeSystem) (w : World) :
  wp (submitDocument h uvm doc opts) w
     (fun r evs _ => submit_spec h opts uvm doc evs r).
Proof.
  unfold submitDocument, submit_spec.
  set (docT := if IsTemplate opts then setSaveableShares h uvm doc else doc).
  apply wp_bind, wp_try, wp_ret.
  destruct (MergeJSON (enc_ComputeSystem docT) (AdditionHCSDocumentJSON opts))
    as [err|d]; [by eauto|].
  apply wp_bind, wp_try, wp_create.
  destruct (uvm_create h _ uvm d) as [err|rid] eqn:Hc.
  - exists (inl err). eauto.
  - destruct (ExternalGuestConnection opts || IsClone opts) eqn:Hcond.
    + unfold startExternalGcsListener. apply wp_bind, wp_check, wp_ListenHvsock.
      cbn [runtimeID set_runtimeID].
      match goal with |- context [winio_ListenHvsock h ?w' ?a] =>
        destruct (winio_ListenHvsock h w' a) as [e|] eqn:Hl end.
      * exists (inr rid). exists (Some e). done.
      * apply wp_ret. exists (inr rid). exists None. done.
    + apply wp_ret. exists (inr rid). done.
Qed.

Lemma quiet_app (a b : list event) : quiet a -> quiet b -> quiet (a ++ b).
Proof. unfold quiet. rewrite Forall_app. auto. Qed.

Ltac solve_app :=
  repeat (rewrite app_nil_r || rewrite <- app_assoc); reflexivity.

Ltac solve_quiet :=
  unfold quiet in *; rewrite ?Forall_app, ?Forall_cons, ?Forall_nil; tauto.

Lemma CreateWCOW_body_spec h (uvm0 : UtilityVM) (opts : OptionsWCOW) (w : World) :
  wp (CreateWCOW_body h uvm0 opts) w (fun r evs _ => body_spec h opts uvm0 r evs).
Proof.
  unfold CreateWCOW_body, body_spec.
  apply wp_bind, wp_check, wp_ret.
  destruct (verifyOptions h opts) as [err|].
  { exists [], [], []. split_and!; [done|solve_quiet|]. left. done. }
  apply wp_bind, wp_try, wp_LocateUVMFolder.
  destruct (LocateUVMFolder h w (LayerFolders opts)) as [err|uf].
  { eexists _, [], []. rewrite !app_nil_r. split_and!; [done|solve_quiet|].
    left. done. }
  apply wp_bind. eapply wp_wand; [apply getScratchFolder_spec|].
  intros r1 evs1 w1 H1.
  destruct (last (LayerFolders opts)) as [sf|] eqn:Hlast.
  2: { destruct H1 as [-> ->]. eexists _, [], []. rewrite !app_nil_r.
       split_and!; [done|solve_quiet|]. left. done. }
  assert (quiet evs1 /\ (r1 = Ok sf \/ exists e, r1 = Err e)) as [Hq1 Hr1].
  { destruct H1 as [(_ & -> & -> & _)|(_ & -> & [[-> _]|(e & -> & _)])];
      (split; [solve_quiet|eauto]). }
  clear H1. destruct Hr1 as [->|[e ->]].
  2: { eexists _, [], []. rewrite !app_nil_r. split_and!; [done|solve_quiet|left; done]. }
  apply wp_bind, wp_rethrow. eapply wp_wand; [apply prepareConfigDoc_spec|].
  intros r2 evs2 w2 [-> H2].
  destruct (hostProcessorInfo h w1) as [err|pt].
  { subst r2. eexists _, [], []. rewrite !app_nil_r.
    split_and!; [done|solve_quiet|left; done]. }
  destruct H2 as (doc1 & uvm1 & -> & Hslot & Hid & _ & _ & Hgc & _).
  apply wp_bind. eapply wp_wand; [apply branch_wp|].
  intros o mid w3 Hbranch.
  assert (quiet ([EvLocateUVMFolder (LayerFolders opts)] ++ evs1 ++ [EvHostProcessorInfo]))
    as Hq by solve_quiet.
  destruct o as [[uvm2 doc2]|e|].
  - eapply wp_wand; [apply submitDocument_wp|]. intros r fin w4 Hsub.
    eexists _, mid, fin. split_and!; [|exact Hq|].
    + solve_app.
    + right. exists sf, uvm1, doc1, (Ok (uvm2, doc2)). done.
  - eexists _, mid, []. split_and!; [|exact Hq|].
    + solve_app.
    + right. exists sf, uvm1, doc1, (Err e). done.
  - eexists _, mid, []. split_and!; [|exact Hq|].
    + solve_app.
    + right. exists sf, uvm1, doc1, Panic. done.
Qed.

Lemma body_spec_create h (opts : OptionsWCOW) (uvm0 : UtilityVM)
    (r : outcome UtilityVM) (pre body : list event) :
  quiet pre -> scsiLocations uvm0 = ∅ ->
  body_spec h opts uvm0 r body ->
  create_spec h opts r (pre ++ body ++ closing r (id uvm0)).
Proof.
  intros Hpre Hslot (setup & mid & fin & -> & Hsetup & H).
  exists (pre ++ setup), mid, fin, (closing r (id uvm0)).
  split_and!; [solve_app|solve_quiet|].
  destruct H as [(-> & -> & Hr)|(sf & uvm1 & doc1 & o & Hlast & Hs & Hgc & Hb & Ho)].
  - left. split_and!; [done..|]. destruct r; cbn; eauto.
  - right. exists (id uvm0), sf, uvm1, doc1, o. split_and!; try done. congruence.
Qed.

Lemma CreateWCOW_spec h (opts : OptionsWCOW) (w : World) :
  wp (CreateWCOW h opts) w (fun r evs _ => create_spec h opts r evs).
Proof.
  unfold CreateWCOW. apply wp_bind.
  destruct (String.eqb (ID opts) "").
  - apply wp_bind, wp_try, wp_NewV4. destruct (guid_NewV4 h w) as [err|g].
    + exists [EvNewGuid], [], [], []. split_and!; [done|solve_quiet|].
      left. split_and!; try done. by left.
    + apply wp_ret, wp_defer_Close.
      eapply wp_wand; [apply CreateWCOW_body_spec|]. intros rb body w' Hbody.
      eapply (body_spec_create h opts _ rb [EvNewGuid]) in Hbody;
        [|solve_quiet|reflexivity].
      destruct rb; cbn [closing] in Hbody; rewrite ?app_nil_r in Hbody;
        rewrite ?app_nil_r, <- ?app_assoc; exact Hbody.
  - apply wp_ret, wp_defer_Close.
    eapply wp_wand; [apply CreateWCOW_body_spec|]. intros rb body w' Hbody.
    eapply (body_spec_create h opts _ rb []) in Hbody;
      [|solve_quiet|reflexivity].
    destruct rb; cbn [closing] in Hbody; rewrite ?app_nil_r in Hbody;
      rewrite ?app_nil_r, <- ?app_assoc; exact Hbody.
Qed.

(** The outcome and the events of any call of [CreateWCOW]. *)
Lemma CreateWCOW_run h (opts : OptionsWCOW) (w : World) :
  create_spec h opts (run (CreateWCOW h opts) w).1 (run (CreateWCOW h opts) w).2.
Proof. apply (wp_run _ _ _ (CreateWCOW_spec h opts w)). Qed.

(** *** Reading the events *)

Lemma quiet_obs (evs : list event) :
  quiet evs ->
  submitted evs = [] /\ listen_calls evs = [] /\ clone_calls evs = []
  /\ scratch_creations evs = [] /\ Forall (fun e => forall v, e <> EvClose v) evs.
Proof.
  induction 1 as [|e evs He _ (IH1 & IH2 & IH3 & IH4 & IH5)].
  - split_and!; try done.
  - destruct e; try done; cbn; split_and!; try done; by constructor.
Qed.

Lemma clone_events_obs (calls : list (string * option error)) :
  submitted (map ev_clone calls) = [] /\ listen_calls (map ev_clone calls) = []
  /\ clone_calls (map ev_clone calls) = calls
  /\ scratch_creations (map ev_clone calls) = []
  /\ Forall (fun e => forall v, e <> EvClose v) (map ev_clone calls).
Proof.
  induction calls as [|[n e] calls (IH1 & IH2 & IH3 & IH4 & IH5)].
  - split_and!; try done.
  - cbn. split_and!; try done.
    + unfold clone_calls in IH3. by rewrite IH3.
    + by constructor.
Qed.

Lemma closing_obs {A} (r : outcome A) (v : string) :
  submitted (closing r v) = [] /\ listen_calls (closing r v) = []
  /\ clone_calls (closing r v) = [] /\ scratch_creations (closing r v) = [].
Proof. by destruct r. Qed.

Lemma submitted_app a b : submitted (a ++ b) = submitted a ++ submitted b.
Proof. apply omap_app. Qed.
Lemma listen_calls_app a b : listen_calls (a ++ b) = listen_calls a ++ listen_calls b.
Proof. apply omap_app. Qed.
Lemma clone_calls_app a b : clone_calls (a ++ b) = clone_calls a ++ clone_calls b.
Proof. apply omap_app. Qed.
Lemma scratch_creations_app a b :
  scratch_creations (a ++ b) = scratch_creations a ++ scratch_creations b.
Proof. apply omap_app. Qed.

Lemma elem_of_submitted (d : json) (a : error + string) (evs : list event) :
  EvCreate d a ∈ evs <-> (d, a) ∈ submitted evs.
Proof.
  unfold submitted. rewrite list_elem_of_omap. split.
  - intros H. by exists (EvCreate d a).
  - intros (e & He & Heq). destruct e; try done. by injection Heq as -> ->.
Qed.

(** What the submission step adds to the log. *)
Lemma submit_spec_obs h opts uvm2 doc2 fin r :
  submit_spec h opts uvm2 doc2 fin r ->
  clone_calls fin = [] /\ scratch_creations fin = []
  /\ Forall (fun e => forall v, e <> EvClose v) fin.
Proof.
  unfold submit_spec.
  destruct (MergeJSON _ _) as [e|d]; [intros [-> _]; by split_and!|].
  intros [[err|rid] H].
  - destruct H as [-> _]. split_and!; try done. by repeat constructor.
  - destruct (ExternalGuestConnection opts || IsClone opts).
    + destruct H as (err & -> & _). split_and!; try done. by repeat constructor.
    + destruct H as [-> _]. split_and!; try done. by repeat constructor.
Qed.

Ltac obs_simpl :=
  rewrite ?submitted_app, ?listen_calls_app, ?clone_calls_app,
    ?scratch_creations_app.

Lemma listener_calls_of_run h (opts : OptionsWCOW) (r : outcome UtilityVM)
    (evs : list event) (d : json) (rid : string) :
  create_spec h opts r evs ->
  EvCreate d (inr rid) ∈ evs ->
  listen_calls evs
  = if ExternalGuestConnection opts || IsClone opts
    then [ {| VMID := rid; ServiceID := WindowsGcsHvsockServiceID h |} ]
    else [].
Proof.
  intros (pre & mid & fin & post & -> & Hpre & H) Hin.
  apply elem_of_submitted in Hin. revert Hin.
  destruct (quiet_obs _ Hpre) as (Hp1 & Hp2 & _). obs_simpl. rewrite Hp1, Hp2.
  destruct H as [(-> & -> & _ & Hpost)
                |(vmID & sf & uvm1 & doc1 & o & -> & _ & _ & _ & Hb & Ho)].
  - destruct Hpost as [->|[v ->]]; cbn; by intros ?%elem_of_nil.
  - destruct (closing_obs r vmID) as (Hc1 & Hc2 & _). rewrite Hc1, Hc2.
    assert (submitted mid = [] /\ listen_calls mid = []) as [Hm1 Hm2].
    { unfold branch_spec in Hb. destruct (IsClone opts).
      - destruct (TemplateConfig opts).
        + destruct Hb as (calls & -> & _). by destruct (clone_events_obs calls) as (? & ? & _).
        + by destruct Hb as [-> _].
      - by destruct Hb as (_ & ? & ? & _). }
    rewrite Hm1, Hm2, !app_nil_r. cbn [app].
    destruct o as [[uvm2 doc2]|e|]; [|destruct Ho as [-> _]; by intros ?%elem_of_nil..].
    unfold submit_spec in Ho.
    destruct (MergeJSON _ _) as [e|d']; [destruct Ho as [-> _]; by intros ?%elem_of_nil|].
    destruct Ho as [[err|rid'] Ho].
    + destruct Ho as [-> _]. cbn. intros [=]%list_elem_of_singleton.
    + destruct (ExternalGuestConnection opts || IsClone opts).
      * destruct Ho as (err & -> & _). cbn. by intros [= -> ->]%list_elem_of_singleton.
      * destruct Ho as [-> _]. cbn. by intros [= -> ->]%list_elem_of_singleton.
Qed.

Lemma map_fst_named (rs : list Cloneable) :
  map fst (map (fun r => (res_name r, @None error)) rs) = map res_name rs.
Proof. induction rs; cbn; congruence. Qed.

(** *** Reading the submitted document *)

Lemma get_VirtualMachine (doc : ComputeSystem) :
  field "VirtualMachine" (enc_ComputeSystem_members doc)
  = Some (enc_VirtualMachine (VirtualMachine_ doc)).
Proof.
  unfold enc_ComputeSystem_members, omit_str.
  by destruct (String.eqb (Owner doc) "").
Qed.

Lemma get_Devices (vm : VirtualMachine) :
  get "Devices" (enc_VirtualMachine vm) = Some (enc_Devices (Devices_ vm)).
Proof. unfold enc_VirtualMachine. by destruct (StopOnReset vm). Qed.

Lemma omit_map_singleton {A} (k i : string) (enc : A -> json) (x : A) :
  omit_map k enc {[ i := x ]} = [(k, JObj [(i, enc x)])].
Proof.
  unfold omit_map, enc_map. case_decide as He.
  - by apply map_non_empty_singleton in He.
  - by rewrite map_to_list_singleton.
Qed.

Lemma get_Scsi_one (d : Devices) (a : Attachment) :
  Scsi_ d = {[ "0" := {| Attachments := {[ "0" := a ]} |} ]} ->
  get "Scsi" (enc_Devices d)
  = Some (JObj [("0", JObj [("Attachments", JObj [("0", enc_Attachment a)])])]).
Proof.
  intros Hs. unfold enc_Devices. rewrite Hs, omit_map_singleton.
  unfold enc_Scsi. cbn [Attachments]. by rewrite omit_map_singleton.
Qed.

Lemma get_GuestConnection_of (vm : VirtualMachine) :
  get "GuestConnection" (enc_VirtualMachine vm)
  = match GuestConnection_ vm with Some _ => Some (JObj []) | None => None end.
Proof.
  unfold enc_VirtualMachine.
  by destruct (StopOnReset vm), (RestoreState_ vm), (StorageQoS_ vm),
    (GuestConnection_ vm).
Qed.

(** *** Scratch provisioning *)

Lemma provisionScratch_first h (opts : OptionsWCOW) (uf vmID : string) (w : World) :
  wp (provisionScratch h opts uf vmID) w (fun r _ w' =>
    forall p, r = Ok p ->
      exists sf, last (LayerFolders opts) = Some sf
                 /\ p = filepath_Join h sf "sandbox.vhdx"
                 /\ sf ∈ fs w' /\ p ∈ fs w').
Proof.
  unfold provisionScratch. apply wp_bind.
  eapply wp_wand; [apply getScratchFolder_spec|]. intros r1 evs1 w1 Hfolder.
  destruct (last (LayerFolders opts)) as [sf|]; [|by destruct Hfolder as [-> _]].
  assert ((r1 = Ok sf /\ sf ∈ fs w1) \/ exists e, r1 = Err e) as [[-> Hsf]|[e ->]];
    [|intros|by intros].
  { destruct Hfolder as [(Hin & Hevs & -> & ->)
                        |(Hin & Hevs & [(-> & _ & ->)|(err & -> & _)])].
    - left. done.
    - left. split; [done|]. apply elem_of_union_l. by apply elem_of_singleton.
    - right. by eexists. }
  eapply wp_wand; [apply createSandboxVhdx_spec|]. intros r2 evs2 w2 Hdisk p ->.
  exists sf. split; [done|].
  destruct Hdisk as [(Hin & Hevs & [= Hp] & ->)
                    |(Hin & Hevs & [[[= Hp] ->]|(e & [=] & Hfs)])]; subst p.
  - by split_and!.
  - split_and!; [done| |].
    + by apply elem_of_union_r.
    + apply elem_of_union_l. by apply elem_of_singleton.
Qed.

Lemma provisionScratch_again h (opts : OptionsWCOW) (uf vmID sf : string) (w : World) :
  last (LayerFolders opts) = Some sf ->
  sf ∈ fs w -> filepath_Join h sf "sandbox.vhdx" ∈ fs w ->
  wp (provisionScratch h opts uf vmID) w (fun r evs w' =>
    r = Ok (filepath_Join h sf "sandbox.vhdx")
    /\ evs = [EvStat sf; EvStat (filepath_Join h sf "sandbox.vhdx")]
    /\ fs w' = fs w).
Proof.
  intros Hlast Hsf Hp. unfold provisionScratch. apply wp_bind.
  eapply wp_wand; [apply getScratchFolder_spec|]. intros r1 evs1 w1 Hfolder.
  rewrite Hlast in Hfolder. destruct Hfolder as [(_ & -> & -> & Hfs)|(? & _)]; [|done].
  eapply wp_wand; [apply createSandboxVhdx_spec|]. intros r2 evs2 w2 Hdisk.
  rewrite Hfs in Hdisk. destruct Hdisk as [(_ & -> & -> & ->)|(? & _)]; [|done].
  done.
Qed.

(** *** Properties of [CreateWCOW] and [prepareConfigDoc] *)

(** C1, as amended.  For a successful build-from-scratch [CreateWCOW] the
    handle records a mount at SCSI slot (0,0) whose host path is
    [<scratchFolder>/sandbox.vhdx], [scratchFolder] being the last layer
    folder; and when the caller's fragment says nothing about
    [VirtualMachine.Devices.Scsi] (it holds no value there and nothing but
    objects above), exactly one document is submitted and its SCSI block is
    exactly one attachment, controller "0" slot "0", of that path.  A clone
    never calls the scratch-disk creation, and with resources whose replay
    leaves slot (0,0) alone the handle it returns has nothing at slot
    (0,0). *)
Theorem CreateWCOW_scratch_attachment (h : Host) (opts : OptionsWCOW) (w : World) :
  let r := fst (run (CreateWCOW h opts) w) in
  let evs := snd (run (CreateWCOW h opts) w) in
  (IsClone opts = false ->
   forall u, r = Ok u ->
     exists sf,
       last (LayerFolders opts) = Some sf
       /\ let p := filepath_Join h sf "sandbox.vhdx" in
          scsiLocations u !! (0%nat, 0%nat) = Some {| HostPath := p; refCount := 1 |}
          /\ (untouched ["VirtualMachine"; "Devices"; "Scsi"]
                (AdditionHCSDocumentJSON opts) = true ->
              exists d rid,
                submitted evs = [(d, inr rid)]
                /\ get_path ["VirtualMachine"; "Devices"; "Scsi"] d
                   = Some (JObj [("0", JObj [("Attachments", JObj
                        [("0", enc_Attachment {| Path_ := p;
                                                 Type_ := "VirtualDisk" |})])])])))
  /\ (IsClone opts = true ->
      scratch_creations evs = []
      /\ forall u tc, r = Ok u -> TemplateConfig opts = Some tc ->
           Forall keeps_slot00 (Resources tc) ->
           scsiLocations u !! (0%nat, 0%nat) = None).
Proof.
  cbv zeta.
  generalize (CreateWCOW_run h opts w).
  generalize (fst (run (CreateWCOW h opts) w)), (snd (run (CreateWCOW h opts) w)).
  intros r evs.
  intros (pre & mid & fin & post & -> & Hpre & H).
  destruct (quiet_obs _ Hpre) as (Hp1 & _ & _ & Hp4 & _). obs_simpl.
  rewrite Hp1, Hp4. cbn [app].
  destruct H as [(-> & -> & Hr & Hpost)
                |(vmID & sf & uvm1 & doc1 & o & -> & Hlast & Hslot & _ & Hb & Ho)].
  { split.
    - intros _ u ->. done.
    - intros _. split; [by destruct Hpost as [->|[v ->]]|]. intros u tc ->. done. }
  destruct (closing_obs r vmID) as (-> & _ & _ & ->). unfold branch_spec in Hb. split.
  - intros Hclone u ->. rewrite Hclone in Hb.
    destruct Hb as (_ & Hm & _ & _ & Hb).
    destruct o as [[uvm2 doc2]|e|]; [|by destruct Ho..].
    destruct Hb as (Hs2 & Hscsi & _). exists sf. split; [done|]. cbn zeta.
    unfold submit_spec in Ho.
    destruct (MergeJSON _ _) as [e|d] eqn:Hmerge; [by destruct Ho as (_ & ? & ?)|].
    destruct Ho as [[err|rid] Ho]; [by destruct Ho as (_ & ? & ?)|].
    assert (submitted fin = [(d, inr rid)]
            /\ scsiLocations u = scsiLocations uvm2) as (Hfin & Hu).
    { destruct (ExternalGuestConnection opts || IsClone opts).
      - destruct Ho as ([e|] & -> & [= ->]). done.
      - destruct Ho as (-> & [= ->]). done. }
    rewrite Hu. split; [done|]. intros Hraw. exists d, rid. split.
    { by rewrite Hm, Hfin. }
    rewrite (MergeJSON_untouched _ _ _ _ Hmerge Hraw).
    cbn [get_path get enc_ComputeSystem]. rewrite get_VirtualMachine, get_Devices.
    erewrite get_Scsi_one; [done|].
    by destruct (IsTemplate opts).
  - intros Hclone. rewrite Hclone in Hb.
    destruct (TemplateConfig opts) as [tc|] eqn:Htc.
    2: { destruct Hb as [-> ->]. destruct Ho as [-> ->]. split; [done|]. done. }
    destruct Hb as (calls & -> & Hspec & Hframe).
    destruct (clone_events_obs calls) as (_ & _ & _ & -> & _).
    destruct o as [[uvm2 doc2]|e|]; [|destruct Ho as [-> ->]; by split..].
    destruct (submit_spec_obs _ _ _ _ _ _ Ho) as (_ & -> & _). split; [done|].
    intros u tc' -> [= <-] Hkeep.
    destruct (Hframe _ _ eq_refl) as [Hk _]. specialize (Hk Hkeep).
    rewrite Hslot, lookup_empty in Hk. rewrite <- Hk.
    unfold submit_spec in Ho.
    destruct (MergeJSON _ _) as [e|d]; [by destruct Ho as (_ & ? & ?)|].
    destruct Ho as [[err|rid] Ho]; [by destruct Ho as (_ & ? & ?)|].
    destruct (ExternalGuestConnection opts || IsClone opts).
    + by destruct Ho as ([e|] & _ & [= ->]).
    + by destruct Ho as (_ & [= ->]).
Qed.

Lemma CreateWCOW_scratch_attachment_witness :
  let opts := fresh_with memory_fragment 0 in
  let r := fst (run (CreateWCOW host4 opts) empty_world) in
  let evs := snd (run (CreateWCOW host4 opts) empty_world) in
  IsClone opts = false
  /\ (exists u, r = Ok u
        /\ scsiLocations u !! (0%nat, 0%nat)
           = Some {| HostPath := "scratchDir\sandbox.vhdx"; refCount := 1 |})
  /\ untouched ["VirtualMachine"; "Devices"; "Scsi"] (AdditionHCSDocumentJSON opts) = true
  /\ exists d rid,
       submitted evs = [(d, inr rid)]
       /\ get_path ["VirtualMachine"; "Devices"; "Scsi"] d
          = Some (JObj [("0", JObj [("Attachments", JObj
               [("0", JObj [("Path", JStr "scratchDir\sandbox.vhdx");
                            ("Type", JStr "VirtualDisk")])])])]).
Proof.
  intros opts r evs.
  destruct (fst (run (CreateWCOW host4 opts) empty_world)) as [u|e|] eqn:Hr;
    [|by vm_compute in Hr..].
  destruct (proj1 (CreateWCOW_scratch_attachment host4 opts empty_world)
              eq_refl u Hr) as (sf & Hlast & Hslot & Hdoc).
  injection Hlast as <-.
  split; [reflexivity|]. split; [by exists u|]. split; [reflexivity|].
  exact (Hdoc eq_refl).
Defined.

(** C1 as stated fails: the caller's fragment is merged into the document
    after the attachment is written, so a fragment that names the path of
    the attachment at 0:0 decides the path that is submitted, while the
    handle keeps the scratch path. *)
Lemma CreateWCOW_override_moves_scratch_path :
  let opts := fresh_with path_fragment 0 in
  IsClone opts = false
  /\ last (LayerFolders opts) = Some "scratchDir"
  /\ match run (CreateWCOW host4 opts) empty_world with
     | (Ok u, evs) =>
         HostPath <$> scsiLocations u !! (0%nat, 0%nat) = Some "scratchDir\sandbox.vhdx"
         /\ map (fun s => get_path ["VirtualMachine"; "Devices"; "Scsi"; "0";
                                    "Attachments"; "0"; "Path"] (fst s))
              (submitted evs)
            = [Some (JStr "elsewhere.vhdx")]
     | _ => False
     end.
Proof. vm_compute. auto. Qed.

(** C2. Once the document has been submitted with success, the external
    guest-channel listener is requested on (runtime id of the VM, the GCS
    service id): for a clone always, whatever [ExternalGuestConnection]
    says; for a build from scratch exactly when [ExternalGuestConnection]
    is set. *)
Theorem CreateWCOW_external_listener (h : Host) (opts : OptionsWCOW) (w : World)
    (d : json) (rid : string) :
  EvCreate d (inr rid) ∈ snd (run (CreateWCOW h opts) w) ->
  let addr := {| VMID := rid; ServiceID := WindowsGcsHvsockServiceID h |} in
  let calls := listen_calls (snd (run (CreateWCOW h opts) w)) in
  (IsClone opts = true -> calls = [addr])
  /\ (IsClone opts = false ->
      (ExternalGuestConnection opts = true <-> calls = [addr])
      /\ (ExternalGuestConnection opts = false <-> calls = [])).
Proof.
  intros Hin addr calls.
  pose proof (listener_calls_of_run h opts _ _ d rid (CreateWCOW_run h opts w) Hin) as H.
  fold calls addr in H. split.
  - intros Hc. rewrite H, Hc. by destruct (ExternalGuestConnection opts).
  - intros Hc. rewrite H, Hc. destruct (ExternalGuestConnection opts); cbn; by split.
Qed.

Lemma CreateWCOW_external_listener_witness :
  EvCreate clone_document (inr "runtime-id")
    ∈ snd (run (CreateWCOW host4 clone_opts) empty_world)
  /\ ExternalGuestConnection clone_opts = false
  /\ listen_calls (snd (run (CreateWCOW host4 clone_opts) empty_world))
     = [ {| VMID := "runtime-id"; ServiceID := "gcs-service-id" |} ].
Proof.
  assert (EvCreate clone_document (inr "runtime-id")
            ∈ snd (run (CreateWCOW host4 clone_opts) empty_world)) as Hin.
  { apply list_elem_of_In. vm_compute. auto 10. }
  split; [exact Hin|]. split; [reflexivity|].
  exact (proj1 (CreateWCOW_external_listener host4 clone_opts empty_world
                  clone_document "runtime-id" Hin) eq_refl).
Defined.

(** C4. In a clone the resources of the template are replayed in the
    recorded order: the names of the replays made are a prefix of the
    recorded names, and all of them when [CreateWCOW] returns a handle.  When
    a replay fails it is the last replay made, [CreateWCOW] returns the
    error "Failed while cloning: ..." and no handle, and the last thing it
    does is to close the handle it was building. *)
Theorem CreateWCOW_replay_order (h : Host) (opts : OptionsWCOW) (w : World)
    (tc : UVMTemplateConfig) :
  IsClone opts = true -> TemplateConfig opts = Some tc ->
  let r := fst (run (CreateWCOW h opts) w) in
  let evs := snd (run (CreateWCOW h opts) w) in
  (exists k, map fst (clone_calls evs) = take k (map res_name (Resources tc)))
  /\ (forall u, r = Ok u ->
        clone_calls evs = map (fun x => (res_name x, None)) (Resources tc))
  /\ (forall name err, (name, Some err) ∈ clone_calls evs ->
        last (clone_calls evs) = Some (name, Some err)
        /\ r = Err (wrap "Failed while cloning" err)
        /\ exists vmID, last evs = Some (EvClose vmID)).
Proof.
  intros Hclone Htc. cbv zeta.
  generalize (CreateWCOW_run h opts w).
  generalize (fst (run (CreateWCOW h opts) w)), (snd (run (CreateWCOW h opts) w)).
  intros r evs (pre & mid & fin & post & -> & Hpre & H).
  destruct (quiet_obs _ Hpre) as (_ & _ & Hp & _). obs_simpl. rewrite Hp. cbn [app].
  destruct H as [(-> & -> & Hr & Hpost)
                |(vmID & sf & uvm1 & doc1 & o & -> & _ & _ & _ & Hb & Ho)].
  - assert (clone_calls post = []) as -> by (by destruct Hpost as [->|[v ->]]).
    cbn. split_and!.
    + by exists 0%nat.
    + intros u ->. done.
    + by intros ?? ?%elem_of_nil.
  - destruct (closing_obs r vmID) as (_ & _ & -> & _).
    unfold branch_spec in Hb. rewrite Hclone, Htc in Hb.
    destruct Hb as (calls & -> & Hspec & _).
    destruct (clone_events_obs calls) as (_ & _ & -> & _).
    destruct o as [[uvm2 doc2]|e|]; cbn in Hspec.
    + destruct (submit_spec_obs _ _ _ _ _ _ Ho) as (-> & _). rewrite !app_nil_r.
      subst calls. split_and!.
      * exists (length (Resources tc)). rewrite map_fst_named.
        by rewrite take_ge by (by rewrite length_map).
      * done.
      * intros name err Hin. apply list_elem_of_In, in_map_iff in Hin.
        by destruct Hin as (? & [=] & _).
    + destruct Ho as [-> ->]. cbn. rewrite !app_nil_r.
      destruct Hspec as (rs1 & x & rs2 & err0 & Hrs & -> & ->). rewrite Hrs.
      split_and!.
      * exists (length (rs1 ++ [x])).
        replace (rs1 ++ x :: rs2) with ((rs1 ++ [x]) ++ rs2) by (by rewrite <- app_assoc).
        rewrite (map_app res_name (rs1 ++ [x])), take_app_length' by (by rewrite length_map).
        rewrite !map_app, map_fst_named. done.
      * done.
      * intros name err [Hin|Hin%list_elem_of_singleton]%elem_of_app.
        { apply list_elem_of_In, in_map_iff in Hin. by destruct Hin as (? & [=] & _). }
        injection Hin as -> ->. rewrite last_snoc. split_and!; [done..|].
        exists vmID. by rewrite !app_assoc, last_snoc.
    + done.
Qed.

Lemma CreateWCOW_replay_order_witness :
  let r := fst (run (CreateWCOW host4 broken_clone_opts) empty_world) in
  let evs := snd (run (CreateWCOW host4 broken_clone_opts) empty_world) in
  IsClone broken_clone_opts = true
  /\ clone_calls evs = [("share", None); ("disk", Some "no such file")]
  /\ r = Err (wrap "Failed while cloning" "no such file")
  /\ exists vmID, last evs = Some (EvClose vmID).
Proof.
  intros r evs.
  assert (clone_calls evs = [("share", None); ("disk", Some "no such file")]) as Hcalls
    by (vm_compute; reflexivity).
  destruct (CreateWCOW_replay_order host4 broken_clone_opts empty_world _
              eq_refl eq_refl) as (_ & _ & Hfail).
  destruct (Hfail "disk" "no such file") as (_ & Hr & Hclose).
  { fold evs. rewrite Hcalls. apply list_elem_of_In. cbn. auto. }
  split; [reflexivity|]. split; [exact Hcalls|]. split; [exact Hr|exact Hclose].
Defined.

(** C5. When the requested processor count is greater than the host's
    logical processor count, [prepareConfigDoc] does not fail for it: the
    count it stores on the handle and the count in the processor block of
    the document are the host's logical processor count. *)
Theorem prepareConfigDoc_clamps_processor_count (h : Host) (uvm : UtilityVM)
    (opts : OptionsWCOW) (uvmFolder : string) (w : World) (pt : ProcessorTopology) :
  hostProcessorInfo h w = inr pt ->
  LogicalProcessorCount pt < ProcessorCount opts ->
  exists doc uvm',
    fst (prepareConfigDoc h uvm opts uvmFolder w) = Ok (doc, uvm')
    /\ processorCount uvm' = LogicalProcessorCount pt
    /\ Count (Processor (ComputeTopology (VirtualMachine_ doc)))
       = LogicalProcessorCount pt.
Proof.
  intros Hpt Hlt.
  destruct (wp_run _ _ _ (prepareConfigDoc_spec h uvm opts uvmFolder w)) as [_ H].
  rewrite Hpt in H. destruct H as (doc & uvm' & Hr & _ & _ & Hc1 & Hc2 & _).
  exists doc, uvm'. unfold normalizeProcessorCount in *.
  apply Z.ltb_lt in Hlt. rewrite Hlt in *. done.
Qed.

Lemma prepareConfigDoc_clamps_processor_count_witness :
  ProcessorCount fresh_opts = 64
  /\ exists doc uvm',
       fst (prepareConfigDoc host4 fresh_uvm fresh_opts "layer1" empty_world)
       = Ok (doc, uvm')
       /\ processorCount uvm' = 4
       /\ Count (Processor (ComputeTopology (VirtualMachine_ doc))) = 4.
Proof.
  split; [reflexivity|].
  apply (prepareConfigDoc_clamps_processor_count host4 fresh_uvm fresh_opts
           "layer1" empty_world {| LogicalProcessorCount := 4 |});
    [reflexivity|reflexivity].
Defined.

(** C7. Scratch provisioning is idempotent.  The folder is not created when
    [os.Stat] finds it, the disk is not created when [os.Stat] finds
    sandbox.vhdx, and after one provisioning that succeeded a second one on
    the same path succeeds with the same result, creates neither the folder
    nor the disk and leaves the file system as it is, whatever happened in
    between that did not touch the file system. *)
Theorem scratch_provisioning_idempotent (h : Host) (opts : OptionsWCOW)
    (uvmFolder vmID : string) (w : World) :
  (forall sf, last (LayerFolders opts) = Some sf -> sf ∈ fs w ->
     run (getScratchFolder h opts) w = (Ok sf, [EvStat sf]))
  /\ (forall sf, filepath_Join h sf "sandbox.vhdx" ∈ fs w ->
        run (createSandboxVhdx h uvmFolder sf vmID) w
        = (Ok (filepath_Join h sf "sandbox.vhdx"),
           [EvStat (filepath_Join h sf "sandbox.vhdx")]))
  /\ (forall p, fst (provisionScratch h opts uvmFolder vmID w) = Ok p ->
      forall (w2 : World) (uvmFolder' vmID' : string),
        fs w2 = fs (snd (provisionScratch h opts uvmFolder vmID w)) ->
        let second := run (provisionScratch h opts uvmFolder' vmID') w2 in
        fst second = Ok p
        /\ mkdir_calls (snd second) = []
        /\ scratch_creations (snd second) = []
        /\ fs (snd (provisionScratch h opts uvmFolder' vmID' w2)) = fs w2).
Proof.
  split_and!.
  - intros sf Hlast Hsf.
    pose proof (wp_run _ _ _ (getScratchFolder_spec h opts w)) as H.
    rewrite Hlast in H. destruct H as [(_ & He & Hr & _)|(? & _)]; [|done].
    by rewrite (surjective_pairing (run _ _)), He, Hr.
  - intros sf Hp.
    pose proof (wp_run _ _ _ (createSandboxVhdx_spec h uvmFolder sf vmID w)) as H.
    destruct H as [(_ & He & Hr & _)|(? & _)]; [|done].
    by rewrite (surjective_pairing (run _ _)), He, Hr.
  - intros p Hfirst w2 uf' vmID' Hfs second.
    pose proof (wp_run _ _ _ (provisionScratch_first h opts uvmFolder vmID w)) as H.
    destruct (H p Hfirst) as (sf & Hlast & -> & Hsf & Hp).
    rewrite <- Hfs in Hsf, Hp.
    destruct (wp_run _ _ _ (provisionScratch_again h opts uf' vmID' sf w2 Hlast Hsf Hp))
      as (Hr & He & Hfs2).
    subst second. rewrite He. done.
Qed.

Lemma scratch_provisioning_idempotent_witness :
  let first := provisionScratch host4 fresh_opts "layer1" "vm1" empty_world in
  let second := run (provisionScratch host4 fresh_opts "layer1" "vm1") (snd first) in
  fst first = Ok "scratchDir\sandbox.vhdx"
  /\ fst second = Ok "scratchDir\sandbox.vhdx"
  /\ mkdir_calls (snd second) = []
  /\ scratch_creations (snd second) = [].
Proof.
  intros first second.
  assert (fst first = Ok "scratchDir\sandbox.vhdx") as Hfirst by (vm_compute; reflexivity).
  split; [exact Hfirst|].
  destruct (proj2 (proj2 (scratch_provisioning_idempotent host4 fresh_opts
                            "layer1" "vm1" empty_world))
              _ Hfirst (snd first) "layer1" "vm1" eq_refl) as (H1 & H2 & H3 & _).
  split; [exact H1|]. split; [exact H2|exact H3].
Defined.

(** C9, as amended.  The document that [prepareConfigDoc] produces has a
    storage-QoS block if and only if the requested IOPS maximum or the
    requested bandwidth maximum is greater than zero; the block carries
    exactly the requested maxima. *)
Theorem prepareConfigDoc_storage_qos (h : Host) (uvm : UtilityVM)
    (opts : OptionsWCOW) (uvmFolder : string) (w : World)
    (doc : ComputeSystem) (uvm' : UtilityVM) :
  fst (prepareConfigDoc h uvm opts uvmFolder w) = Ok (doc, uvm') ->
  (StorageQoS_ (VirtualMachine_ doc) <> None
   <-> 0 < StorageQoSIopsMaximum opts \/ 0 < StorageQoSBandwidthMaximum opts)
  /\ forall q, StorageQoS_ (VirtualMachine_ doc) = Some q ->
       IopsMaximum q = StorageQoSIopsMaximum opts
       /\ BandwidthMaximum q = StorageQoSBandwidthMaximum opts.
Proof.
  intros Hr.
  destruct (wp_run _ _ _ (prepareConfigDoc_spec h uvm opts uvmFolder w)) as [_ H].
  unfold run in H. cbn [fst] in H. rewrite Hr in H.
  destruct (hostProcessorInfo h w) as [e|pt]; [done|].
  destruct H as (doc0 & uvm0 & [= <- <-] & _ & _ & _ & _ & _ & Hq).
  rewrite Hq. split.
  - destruct (0 <? StorageQoSBandwidthMaximum opts) eqn:Hb,
      (0 <? StorageQoSIopsMaximum opts) eqn:Hi; cbn;
      rewrite ?Z.ltb_lt, ?Z.ltb_ge in *; split; try done; try lia; intros; lia.
  - intros q.
    destruct ((0 <? StorageQoSBandwidthMaximum opts) || (0 <? StorageQoSIopsMaximum opts));
      [|done].
    by intros [= <-].
Qed.

Lemma prepareConfigDoc_storage_qos_witness :
  let opts := fresh_with RawEmpty 500 in
  exists doc uvm',
    fst (prepareConfigDoc host4 fresh_uvm opts "layer1" empty_world) = Ok (doc, uvm')
    /\ StorageQoS_ (VirtualMachine_ doc)
       = Some {| IopsMaximum := 500; BandwidthMaximum := 0 |}.
Proof.
  intros opts.
  destruct (fst (prepareConfigDoc host4 fresh_uvm opts "layer1" empty_world))
    as [[doc uvm']|e|] eqn:Hr; [|by vm_compute in Hr..].
  exists doc, uvm'. split; [reflexivity|].
  destruct (prepareConfigDoc_storage_qos host4 fresh_uvm opts "layer1" empty_world
              doc uvm' Hr) as [Hiff Hq].
  destruct (StorageQoS_ (VirtualMachine_ doc)) as [[i b]|].
  - destruct (Hq _ eq_refl) as [Hi Hb]. cbn in Hi, Hb. by rewrite Hi, Hb.
  - exfalso. apply (proj2 Hiff); [left; reflexivity|reflexivity].
Defined.

(** C9 as stated fails: the maxima are signed, and a negative maximum is
    not zero, yet it adds no storage-QoS block. *)
Lemma prepareConfigDoc_negative_qos_no_block :
  let opts := fresh_with RawEmpty (-1) in
  StorageQoSIopsMaximum opts <> 0
  /\ match fst (prepareConfigDoc host4 fresh_uvm opts "layer1" empty_world) with
     | Ok (doc, _) => StorageQoS_ (VirtualMachine_ doc) = None
     | _ => False
     end.
Proof. split; [discriminate|reflexivity]. Qed.

(** C10, as amended.  The guest-connection marker of a submitted document
    depends on [ExternalGuestConnection] alone, not on the clone flag: every
    document that [CreateWCOW] submits has the marker when
    [ExternalGuestConnection] is false and has none when it is true, for a
    clone as for a build from scratch, provided the caller's fragment says
    nothing about [VirtualMachine.GuestConnection] (it holds no value there
    and nothing but an object above) and, in a clone, the replayed resources
    leave the marker as they find it.  (For a clone the external listener is
    requested as well, see C2.) *)
Theorem CreateWCOW_guest_connection_marker (h : Host) (opts : OptionsWCOW) (w : World)
    (d : json) (a : error + string) :
  untouched ["VirtualMachine"; "GuestConnection"] (AdditionHCSDocumentJSON opts) = true ->
  (IsClone opts = true -> forall tc, TemplateConfig opts = Some tc ->
     Forall keeps_GuestConnection (Resources tc)) ->
  EvCreate d a ∈ snd (run (CreateWCOW h opts) w) ->
  get_path ["VirtualMachine"; "GuestConnection"] d
  = if ExternalGuestConnection opts then None else Some (JObj []).
Proof.
  intros Hraw Hkeep.
  generalize (CreateWCOW_run h opts w).
  generalize (fst (run (CreateWCOW h opts) w)), (snd (run (CreateWCOW h opts) w)).
  intros r evs (pre & mid & fin & post & -> & Hpre & H) Hin.
  apply elem_of_submitted in Hin. revert Hin.
  destruct (quiet_obs _ Hpre) as (Hp1 & _). obs_simpl. rewrite Hp1. cbn [app].
  destruct H as [(-> & -> & _ & Hpost)
                |(vmID & sf & uvm1 & doc1 & o & -> & _ & _ & Hgc & Hb & Ho)].
  { destruct Hpost as [->|[v ->]]; cbn; by intros ?%elem_of_nil. }
  destruct (closing_obs r vmID) as (-> & _). rewrite app_nil_r.
  assert (submitted mid = []
          /\ forall uvm2 doc2, o = Ok (uvm2, doc2) ->
               GuestConnection_ (VirtualMachine_ doc2)
               = if ExternalGuestConnection opts then None
                 else Some EmptyGuestConnection)
    as [-> Hgc2].
  { unfold branch_spec in Hb. destruct (IsClone opts).
    - destruct (TemplateConfig opts) as [tc|].
      + destruct Hb as (calls & -> & _ & Hframe).
        destruct (clone_events_obs calls) as (-> & _). split; [done|].
        intros uvm2 doc2 Ho2. destruct (Hframe _ _ Ho2) as [_ Hk].
        rewrite Hk; [done|]. by apply Hkeep.
      + destruct Hb as [-> ->]. done.
    - destruct Hb as (_ & -> & _ & _ & Hb). split; [done|].
      intros uvm2 doc2 ->. destruct Hb as (_ & _ & ->). done. }
  cbn [app].
  destruct o as [[uvm2 doc2]|e|]; [|destruct Ho as [-> _]; by intros ?%elem_of_nil..].
  specialize (Hgc2 _ _ eq_refl). unfold submit_spec in Ho.
  destruct (MergeJSON _ _) as [e|d'] eqn:Hmerge;
    [destruct Ho as [-> _]; by intros ?%elem_of_nil|].
  assert (submitted fin = [] \/ exists res, submitted fin = [(d', res)]) as Hfin.
  { destruct Ho as [[err|rid] Ho].
    - destruct Ho as [-> _]. right. by eexists.
    - destruct (ExternalGuestConnection opts || IsClone opts).
      + destruct Ho as (err & -> & _). right. by eexists.
      + destruct Ho as [-> _]. right. by eexists. }
  destruct Hfin as [->|[res ->]]; [by intros ?%elem_of_nil|].
  intros [= -> ->]%list_elem_of_singleton.
  rewrite (MergeJSON_untouched _ _ _ _ Hmerge Hraw).
  cbn [get_path get enc_ComputeSystem]. rewrite get_VirtualMachine.
  cbn [get_path]. rewrite get_GuestConnection_of.
  assert (GuestConnection_
            (VirtualMachine_
               (if IsTemplate opts then setSaveableShares h uvm2 doc2 else doc2))
          = GuestConnection_ (VirtualMachine_ doc2)) as ->
    by (by destruct (IsTemplate opts)).
  rewrite Hgc2. by destruct (ExternalGuestConnection opts).
Qed.

Lemma CreateWCOW_guest_connection_marker_witness :
  ExternalGuestConnection clone_opts = false
  /\ IsClone clone_opts = true
  /\ EvCreate clone_document (inr "runtime-id")
       ∈ snd (run (CreateWCOW host4 clone_opts) empty_world)
  /\ get_path ["VirtualMachine"; "GuestConnection"] clone_document = Some (JObj []).
Proof.
  assert (EvCreate clone_document (inr "runtime-id")
            ∈ snd (run (CreateWCOW host4 clone_opts) empty_world)) as Hin.
  { apply list_elem_of_In. vm_compute. auto 10. }
  split; [reflexivity|]. split; [reflexivity|]. split; [exact Hin|].
  apply (CreateWCOW_guest_connection_marker host4 clone_opts empty_world
           clone_document (inr "runtime-id")); [reflexivity| |exact Hin].
  intros _ tc [= <-]. by repeat constructor.
Defined.

(** C10 as stated fails, in two ways.  The caller's fragment is merged into
    the document after the marker is written, so a fragment that puts
    something else in the place of the VM block is submitted without the
    marker.  And in a clone the document goes through the replayed resources
    before it is submitted, so a resource that takes the marker out leaves a
    document without it, with no fragment at all. *)
Lemma CreateWCOW_override_drops_marker :
  let opts := fresh_with string_fragment 0 in
  let clone := clone_of [forgets_marker "share"] in
  (ExternalGuestConnection opts = false
   /\ map (fun s => get_path ["VirtualMachine"; "GuestConnection"] (fst s))
        (submitted (snd (run (CreateWCOW host4 opts) empty_world)))
      = [None])
  /\ (ExternalGuestConnection clone = false
      /\ IsClone clone = true
      /\ AdditionHCSDocumentJSON clone = RawEmpty
      /\ map (fun s => get_path ["VirtualMachine"; "GuestConnection"] (fst s))
           (submitted (snd (run (CreateWCOW host4 clone) empty_world)))
         = [None]).
Proof. vm_compute. auto 10. Qed.

End UvmFacts.

(** ** Network namespaces *)

Section NetFacts.
Import Hcsoci.
Context (n : Net).

Lemma addEndpoints_spec (netID : string) (eps : list string) :
  forall (acc : list string) (log : list event),
  exists answers : list (option error),
    snd (addEndpoints n netID eps acc log) = log ++ bind_events netID eps answers
    /\ match fst (fst (addEndpoints n netID eps acc log)) with
       | None =>
           answers = replicate (length eps) None
           /\ snd (fst (addEndpoints n netID eps acc log)) = acc ++ eps
       | Some e =>
           exists k, (k < length eps)%nat /\ answers = replicate k None ++ [Some e]
       end.
Proof.
  induction eps as [|ep eps IH]; intros acc log.
  - exists []. cbn. rewrite !app_nil_r. auto.
  - cbn [addEndpoints].
    destruct (hns_AddNamespaceEndpoint n log netID ep) as [e|] eqn:He.
    + exists [Some e]. cbn. split; [done|]. exists 0%nat. split; [lia|done].
    + destruct (IH (acc ++ [ep]) (log ++ [EvAddNamespaceEndpoint netID ep None]))
        as (answers & Hlog & Hres).
      exists (None :: answers). rewrite Hlog, <- app_assoc. split; [done|].
      destruct (fst (fst (addEndpoints n netID eps (acc ++ [ep]) _))) as [e|].
      * destruct Hres as (k & Hk & ->). exists (S k). split; [cbn; lia|done].
      * destruct Hres as [-> ->]. by rewrite <- app_assoc.
Qed.

(** C6. Once the namespace is allocated, [createNetworkNamespace] binds the
    endpoints in list order and makes no other call.  It stops at the first
    bind that fails and returns that error, it undoes none of the binds
    made, and the recorded resources are as they were; when all binds
    succeed it appends one [NetworkEndpoints] resource, with the namespace
    id and all the endpoint ids. *)
Theorem createNetworkNamespace_binds_in_order (coi : createOptionsInternal)
    (res : Resources) (log : list event) (netID : string) :
  hns_CreateNamespace n log = inr netID ->
  exists answers : list (option error),
    snd (createNetworkNamespace n coi res log)
    = log ++ EvCreateNamespace (inr netID)
             :: bind_events netID (EndpointList coi) answers
    /\ match fst (fst (createNetworkNamespace n coi res log)) with
       | None =>
           answers = replicate (length (EndpointList coi)) None
           /\ resources (snd (fst (createNetworkNamespace n coi res log)))
              = resources res ++ [NetworkEndpoints (EndpointList coi) netID]
       | Some e =>
           exists k,
             (k < length (EndpointList coi))%nat
             /\ answers = replicate k None ++ [Some e]
             /\ resources (snd (fst (createNetworkNamespace n coi res log)))
                = resources res
       end.
Proof.
  intros Hns. unfold createNetworkNamespace. rewrite Hns.
  destruct (addEndpoints_spec netID (EndpointList coi) []
              (log ++ [EvCreateNamespace (inr netID)])) as (answers & Hlog & Hres).
  exists answers.
  destruct (addEndpoints n netID (EndpointList coi) [] _) as [[[e|] eps'] log'];
    cbn [fst snd] in *; subst log'; rewrite <- app_assoc; (split; [done|]).
  - destruct Hres as (k & Hk & ->). by exists k.
  - destruct Hres as [-> ->]. done.
Qed.

(** C3. When the namespace-attach call succeeds and the endpoint-attach call
    fails, [SetupNetworkNamespace] issues a namespace-remove call on the
    same namespace id and returns the endpoint-attach error, whatever the
    namespace-remove call answers. *)
Theorem SetupNetworkNamespace_rollback (nsid : string) (log log1 : list event)
    (endpoints : list HNSEndpoint) (e : error) :
  GetNamespaceEndpoints n nsid log = (inr endpoints, log1) ->
  uvm_AddNetNS n log1 nsid = None ->
  uvm_AddEndpointsToNS n (log1 ++ [EvAddNetNS nsid None]) nsid endpoints = Some e ->
  let attached :=
    log1 ++ [EvAddNetNS nsid None; EvAddEndpointsToNS nsid endpoints (Some e)] in
  SetupNetworkNamespace n nsid log
  = (Some e, attached ++ [EvRemoveNetNS nsid (uvm_RemoveNetNS n attached nsid)]).
Proof.
  intros Hget Hns Hep attached. unfold SetupNetworkNamespace.
  rewrite Hget, Hns, Hep. subst attached. by rewrite <- !app_assoc.
Qed.

End NetFacts.

Section NetWitnesses.
Import Hcsoci NetExamples.

Lemma createNetworkNamespace_binds_in_order_witness :
  hns_CreateNamespace net [] = inr "ns1"
  /\ fst (fst (createNetworkNamespace net coi_AB no_resources [])) = Some "bind failed"
  /\ exists answers : list (option error),
       snd (createNetworkNamespace net coi_AB no_resources [])
       = EvCreateNamespace (inr "ns1") :: bind_events "ns1" ["A"; "B"] answers
       /\ exists k, answers = replicate k None ++ [Some "bind failed"]
                    /\ resources (snd (fst (createNetworkNamespace net coi_AB
                                              no_resources []))) = [].
Proof.
  split; [reflexivity|]. split; [reflexivity|].
  destruct (createNetworkNamespace_binds_in_order net coi_AB no_resources [] "ns1"
              eq_refl) as (answers & Hlog & Hres).
  exists answers. split; [exact Hlog|].
  change (fst (fst (createNetworkNamespace net coi_AB no_resources [])))
    with (Some "bind failed") in Hres.
  destruct Hres as (k & _ & Hk & Hr). exists k. split; [exact Hk|exact Hr].
Defined.

Lemma SetupNetworkNamespace_rollback_witness :
  uvm_RemoveNetNS net [] "ns1" = Some "remove failed"
  /\ fst (SetupNetworkNamespace net "ns1" []) = Some "attach failed".
Proof.
  split; [reflexivity|].
  rewrite (SetupNetworkNamespace_rollback net "ns1" []
             [EvGetNamespaceEndpoints "ns1" (inr ["A"]);
              EvGetHNSEndpointByID "A" (inr {| Id := "A" |})]
             [ {| Id := "A" |} ] "attach failed" eq_refl eq_refl eq_refl).
  reflexivity.
Defined.

End NetWitnesses.

(** ** More on network namespaces *)

Section MoreNetFacts.
Import Hcsoci.
Context (n : Net).

Lemma vm_calls_app (a b : list event) : vm_calls (a ++ b) = vm_calls a ++ vm_calls b.
Proof. apply List.filter_app. Qed.

Lemma vm_calls_lookups (ids : list string) (answers : list (error + HNSEndpoint)) :
  vm_calls (lookup_events ids answers) = [].
Proof.
  revert ids. induction answers as [|a answers IH]; intros [|id ids]; try done.
  cbn. apply IH.
Qed.

(** The lookup loop: one lookup per id, in order, until one fails. *)
Lemma getEndpointsByID_spec (ids : list string) :
  forall (acc : list HNSEndpoint) (log : list event),
  exists answers : list (error + HNSEndpoint),
    snd (getEndpointsByID n ids acc log) = log ++ lookup_events ids answers
    /\ match fst (getEndpointsByID n ids acc log) with
       | inr eps =>
           exists new, eps = acc ++ new /\ answers = map inr new
                       /\ length new = length ids
       | inl e =>
           exists new, answers = map inr new ++ [inl e]
                       /\ (length new < length ids)%nat
       end.
Proof.
  induction ids as [|id ids IH]; intros acc log.
  - exists []. cbn. rewrite app_nil_r. split; [done|]. exists []. by rewrite app_nil_r.
  - cbn [getEndpointsByID].
    destruct (hns_GetHNSEndpointByID n log id) as [e|ep] eqn:He.
    + exists [inl e]. cbn. split; [done|]. exists []. split; [done|]. cbn. lia.
    + destruct (IH (acc ++ [ep]) (log ++ [EvGetHNSEndpointByID id (inr ep)]))
        as (answers & Hlog & Hres).
      exists (inr ep :: answers). rewrite Hlog, <- app_assoc. split; [done|].
      destruct (fst (getEndpointsByID n ids (acc ++ [ep]) _)) as [e|eps].
      * destruct Hres as (new & -> & Hlen). exists (ep :: new). split; [done|]. cbn. lia.
      * destruct Hres as (new & -> & -> & Hlen). exists (ep :: new).
        rewrite <- app_assoc. split_and!; [done|done|]. cbn. lia.
Qed.

Lemma GetNamespaceEndpoints_no_vm_call (netNS : string) (log : list event) :
  exists gets, snd (GetNamespaceEndpoints n netNS log) = log ++ gets
               /\ vm_calls gets = [].
Proof.
  unfold GetNamespaceEndpoints.
  destruct (hns_GetNamespaceEndpoints n log netNS) as [e|ids]; [by eexists|].
  destruct (getEndpointsByID_spec ids [] (log ++ [EvGetNamespaceEndpoints netNS (inr ids)]))
    as (answers & -> & _).
  eexists. rewrite <- app_assoc. split; [done|]. cbn. apply vm_calls_lookups.
Qed.

(** X3. [GetNamespaceEndpoints] asks the networking service for the ids of the
    namespace's endpoints and then looks the ids up one by one, in the order
    in which they were listed.  If the listing fails, its error is returned
    and no lookup is made.  Otherwise the function returns the endpoints that
    the lookups returned, in that order and one per id, or it stops at the
    first lookup that fails, returns that lookup's error and looks up none of
    the later ids. *)
Theorem GetNamespaceEndpoints_in_order (netNS : string) (log : list event) :
  let res := fst (GetNamespaceEndpoints n netNS log) in
  let log' := snd (GetNamespaceEndpoints n netNS log) in
  match hns_GetNamespaceEndpoints n log netNS with
  | inl e => res = inl e /\ log' = log ++ [EvGetNamespaceEndpoints netNS (inl e)]
  | inr ids =>
      exists answers : list (error + HNSEndpoint),
        log' = log ++ EvGetNamespaceEndpoints netNS (inr ids) :: lookup_events ids answers
        /\ match res with
           | inr eps => answers = map inr eps /\ length eps = length ids
           | inl e =>
               exists eps, answers = map inr eps ++ [inl e]
                           /\ (length eps < length ids)%nat
           end
  end.
Proof.
  cbv zeta. unfold GetNamespaceEndpoints.
  destruct (hns_GetNamespaceEndpoints n log netNS) as [e|ids]; [done|].
  destruct (getEndpointsByID_spec ids [] (log ++ [EvGetNamespaceEndpoints netNS (inr ids)]))
    as (answers & Hlog & Hres).
  exists answers. rewrite Hlog, <- app_assoc. split; [done|].
  destruct (fst (getEndpointsByID n ids [] _)) as [e|eps]; [done|].
  by destruct Hres as (new & -> & -> & Hlen).
Qed.

(** X4. The calls that [SetupNetworkNamespace] makes on the hosting utility VM
    are one of four sequences.  On success: [AddNetNS], then
    [AddEndpointsToNS] with the endpoints that [GetNamespaceEndpoints]
    returned.  If [GetNamespaceEndpoints] fails: no call at all, and its error
    is returned.  If [AddNetNS] fails: that call alone, and its error is
    returned.  If [AddEndpointsToNS] fails: [AddNetNS], [AddEndpointsToNS],
    then [RemoveNetNS], and the error of [AddEndpointsToNS] is returned
    whatever [RemoveNetNS] answers. *)
Theorem SetupNetworkNamespace_vm_calls (nsid : string) (log : list event) :
  let err := fst (SetupNetworkNamespace n nsid log) in
  let calls := vm_calls (drop (length log) (snd (SetupNetworkNamespace n nsid log))) in
  match err with
  | None =>
      exists endpoints,
        fst (GetNamespaceEndpoints n nsid log) = inr endpoints
        /\ calls = [EvAddNetNS nsid None; EvAddEndpointsToNS nsid endpoints None]
  | Some e =>
      (fst (GetNamespaceEndpoints n nsid log) = inl e /\ calls = [])
      \/ calls = [EvAddNetNS nsid (Some e)]
      \/ exists endpoints rollback,
           calls = [EvAddNetNS nsid None;
                    EvAddEndpointsToNS nsid endpoints (Some e);
                    EvRemoveNetNS nsid rollback]
  end.
Proof.
  cbv zeta. unfold SetupNetworkNamespace.
  destruct (GetNamespaceEndpoints_no_vm_call nsid log) as (gets & Hlog & Hgets).
  destruct (GetNamespaceEndpoints n nsid log) as [[e|eps] log1]; cbn [fst snd] in *;
    subst log1.
  - left. by rewrite drop_app_length, Hgets.
  - destruct (uvm_AddNetNS n (log ++ gets) nsid) as [e|]; cbn [fst snd].
    + right. left. rewrite <- app_assoc, drop_app_length, vm_calls_app, Hgets. done.
    + destruct (uvm_AddEndpointsToNS n _ nsid eps) as [e|]; cbn [fst snd].
      * right. right. eexists eps, _.
        rewrite <- !app_assoc, drop_app_length, vm_calls_app, Hgets. done.
      * exists eps. split; [done|].
        rewrite <- !app_assoc, drop_app_length, vm_calls_app, Hgets. done.
Qed.

(** X5. What [createNetworkNamespace] writes to the caller's [Resources].  The
    list of resources is only ever extended, never shortened or rewritten.  If
    the namespace cannot be created the record is left as it was and the one
    call made is the failed creation.  Once the namespace exists its id is
    recorded in [netNS] and [createdNetNS] is set, also when binding an
    endpoint fails afterwards. *)
Theorem createNetworkNamespace_bookkeeping (coi : createOptionsInternal)
    (res : Resources) (log : list event) :
  let out := createNetworkNamespace n coi res log in
  let res' := snd (fst out) in
  (exists tail, resources res' = resources res ++ tail)
  /\ match hns_CreateNamespace n log with
     | inl e =>
         fst (fst out) = Some e /\ res' = res
         /\ snd out = log ++ [EvCreateNamespace (inl e)]
     | inr netID => netNS res' = netID /\ createdNetNS res' = true
     end.
Proof.
  cbv zeta. unfold createNetworkNamespace.
  destruct (hns_CreateNamespace n log) as [e|netID]; cbn [fst snd].
  - split; [|done]. exists []. by rewrite app_nil_r.
  - destruct (addEndpoints n netID (EndpointList coi) [] _) as [[[e|] eps] log'];
      cbn [fst snd resources netNS createdNetNS].
    + split; [|done]. exists []. by rewrite app_nil_r.
    + split; [|done]. by eexists.
Qed.

End MoreNetFacts.

(** ** The mounts of a cloned container *)

Section MountFacts.
Import Hcsoci.
Context (Add : string) (c : Container).

Lemma modify_calls_app (r1 r2 : list ModifySettingRequest) (a1 a2 : list (option error)) :
  length a1 = length r1 ->
  modify_calls (r1 ++ r2) (a1 ++ a2) = modify_calls r1 a1 ++ modify_calls r2 a2.
Proof. intros H. unfold modify_calls. by apply zip_with_app. Qed.

Lemma modify_calls_short (r1 r2 : list ModifySettingRequest) (a : list (option error)) :
  (length a <= length r1)%nat ->
  modify_calls (r1 ++ r2) a = modify_calls r1 a.
Proof.
  revert r1. induction a as [|x a IH]; intros [|r r1] Hlen; cbn in *; try done; try lia.
  f_equal. apply IH. lia.
Qed.

(** The call that failed is the last one. *)
Lemma modify_calls_last (reqs : list ModifySettingRequest) (k : nat)
    (req : ModifySettingRequest) (a : option error) (log : list modify_call) :
  reqs !! k = Some req ->
  last (log ++ modify_calls reqs (replicate k None ++ [a])) = Some (req, a).
Proof.
  intros Hk. rewrite <- (take_drop_middle reqs k req Hk).
  rewrite modify_calls_app
    by (rewrite length_replicate, length_take; apply lookup_lt_Some in Hk; lia).
  cbn. by rewrite !app_assoc, last_snoc.
Qed.

Lemma addMappedDirectories_spec (mds : list MappedDirectory) :
  forall log : list modify_call,
  exists answers : list (option error),
    snd (addMappedDirectories Add c mds log)
    = log ++ modify_calls (map (directory_request Add) mds) answers
    /\ match fst (addMappedDirectories Add c mds log) with
       | None => answers = replicate (length mds) None
       | Some e =>
           exists k md err,
             mds !! k = Some md
             /\ answers = replicate k None ++ [Some err]
             /\ e = directory_error md err
       end.
Proof.
  induction mds as [|md mds IH]; intros log.
  - exists []. cbn. by rewrite app_nil_r.
  - cbn [addMappedDirectories].
    destruct (Modify c log (directory_request Add md)) as [err|] eqn:He.
    + exists [Some err]. cbn. split; [done|]. by exists 0%nat, md, err.
    + destruct (IH (log ++ [(directory_request Add md, None)])) as (answers & Hlog & Hres).
      exists (None :: answers). rewrite Hlog, <- app_assoc. split; [done|].
      destruct (fst (addMappedDirectories Add c mds _)) as [e|].
      * destruct Hres as (k & md' & err & Hk & -> & ->). by exists (S k), md', err.
      * by rewrite Hres.
Qed.

Lemma addMappedPipes_spec (mps : list MappedPipe) :
  forall log : list modify_call,
  exists answers : list (option error),
    snd (addMappedPipes Add c mps log)
    = log ++ modify_calls (map (pipe_request Add) mps) answers
    /\ match fst (addMappedPipes Add c mps log) with
       | None => answers = replicate (length mps) None
       | Some e =>
           exists k mp err,
             mps !! k = Some mp
             /\ answers = replicate k None ++ [Some err]
             /\ e = pipe_error mp err
       end.
Proof.
  induction mps as [|mp mps IH]; intros log.
  - exists []. cbn. by rewrite app_nil_r.
  - cbn [addMappedPipes].
    destruct (Modify c log (pipe_request Add mp)) as [err|] eqn:He.
    + exists [Some err]. cbn. split; [done|]. by exists 0%nat, mp, err.
    + destruct (IH (log ++ [(pipe_request Add mp, None)])) as (answers & Hlog & Hres).
      exists (None :: answers). rewrite Hlog, <- app_assoc. split; [done|].
      destruct (fst (addMappedPipes Add c mps _)) as [e|].
      * destruct Hres as (k & mp' & err & Hk & -> & ->). by exists (S k), mp', err.
      * by rewrite Hres.
Qed.

(** The two loops together. *)
Lemma addMountsToClone_spec (mounts : mountsConfig) (log : list modify_call) :
  exists answers : list (option error),
    snd (addMountsToClone Add c mounts log)
    = log ++ modify_calls (mount_requests Add mounts) answers
    /\ match fst (addMountsToClone Add c mounts log) with
       | None => answers = replicate (length (mount_requests Add mounts)) None
       | Some e =>
           exists k req err,
             mount_requests Add mounts !! k = Some req
             /\ answers = replicate k None ++ [Some err]
             /\ e = mount_error req err
       end.
Proof.
  unfold addMountsToClone, mount_requests.
  destruct (addMappedDirectories_spec (mdsv2 mounts) log) as (a1 & Hlog1 & Hres1).
  destruct (addMappedDirectories Add c (mdsv2 mounts) log) as [[e|] log1];
    cbn [fst snd] in *; subst log1.
  - destruct Hres1 as (k & md & err & Hk & -> & ->).
    exists (replicate k None ++ [Some err]). split.
    + rewrite modify_calls_short; [done|].
      apply lookup_lt_Some in Hk.
      rewrite length_app, length_replicate, length_map. cbn. lia.
    + exists k, (directory_request Add md), err. split_and!; [|done..].
      apply lookup_app_l_Some. by rewrite list_lookup_fmap, Hk.
  - subst a1.
    destruct (addMappedPipes_spec (mpsv2 mounts)
                (log ++ modify_calls (map (directory_request Add) (mdsv2 mounts))
                          (replicate (length (mdsv2 mounts)) None)))
      as (a2 & Hlog2 & Hres2).
    exists (replicate (length (mdsv2 mounts)) None ++ a2). split.
    + rewrite Hlog2, <- app_assoc, modify_calls_app; [done|].
      by rewrite length_replicate, length_map.
    + destruct (fst (addMappedPipes Add c (mpsv2 mounts) _)) as [e|].
      * destruct Hres2 as (k & mp & err & Hk & -> & ->).
        exists (length (mdsv2 mounts) + k)%nat, (pipe_request Add mp), err.
        split_and!; [| |done].
        -- rewrite lookup_app_r by (rewrite length_map; lia).
           rewrite length_map.
           replace (length (mdsv2 mounts) + k - length (mdsv2 mounts))%nat with k by lia.
           by rewrite list_lookup_fmap, Hk.
        -- by rewrite replicate_add, <- app_assoc.
      * subst a2. by rewrite length_app, !length_map, replicate_add.
Qed.

(** X1. When [addMountsToClone] returns no error it has sent the container one
    [Modify] request per mount and nothing else: first one for every mapped
    directory, in the order of [mdsv2], then one for every mapped pipe, in the
    order of [mpsv2], and the container accepted each of them. *)
Theorem addMountsToClone_adds_every_mount (mounts : mountsConfig)
    (log : list modify_call) :
  fst (addMountsToClone Add c mounts log) = None ->
  snd (addMountsToClone Add c mounts log)
  = log ++ modify_calls (mount_requests Add mounts)
             (replicate (length (mdsv2 mounts) + length (mpsv2 mounts)) None).
Proof.
  intros Hres. destruct (addMountsToClone_spec mounts log) as (answers & -> & Hans).
  rewrite Hres in Hans. subst answers.
  unfold mount_requests. by rewrite length_app, !length_map.
Qed.

(** X2. When [addMountsToClone] returns an error, the requests it has sent are
    those of the mounts up to one of them, in order (directories before
    pipes); the container accepted all but the last, and the last call made is
    the request of that mount, which the container refused.  No later mount
    is requested and no mount added before is removed.  The error returned
    names the host path of the refused mount, says whether it is a directory
    or a pipe, and ends with the container's error. *)
Theorem addMountsToClone_stops_at_refusal (mounts : mountsConfig)
    (log : list modify_call) (e : error) :
  fst (addMountsToClone Add c mounts log) = Some e ->
  exists (k : nat) (req : ModifySettingRequest) (err : error),
    mount_requests Add mounts !! k = Some req
    /\ snd (addMountsToClone Add c mounts log)
       = log ++ modify_calls (mount_requests Add mounts)
                  (replicate k None ++ [Some err])
    /\ last (snd (addMountsToClone Add c mounts log)) = Some (req, Some err)
    /\ e = match Settings_ req with
           | DirectorySettings md =>
               String.append "Error while adding mapped directory ("
                 (String.append (md_HostPath md)
                    (String.append ") to the container: " err))
           | PipeSettings mp =>
               String.append "Error while adding mapped pipe ("
                 (String.append (mp_HostPath mp)
                    (String.append ") to the container: " err))
           end.
Proof.
  intros Hres. destruct (addMountsToClone_spec mounts log) as (answers & Hlog & Hans).
  rewrite Hres in Hans. destruct Hans as (k & req & err & Hk & -> & ->).
  exists k, req, err. rewrite Hlog. split_and!; [done|done| |done].
  by apply modify_calls_last.
Qed.

End MountFacts.

Section MountWitnesses.
Import Hcsoci MountExamples.

Lemma addMountsToClone_adds_every_mount_witness :
  fst (addMountsToClone "Add" obliging dir_and_pipe []) = None
  /\ snd (addMountsToClone "Add" obliging dir_and_pipe [])
     = [(directory_request "Add" data_dir, None); (pipe_request "Add" log_pipe, None)].
Proof.
  split; [reflexivity|].
  rewrite (addMountsToClone_adds_every_mount "Add" obliging dir_and_pipe [] eq_refl).
  reflexivity.
Defined.

Lemma addMountsToClone_stops_at_refusal_witness :
  fst (addMountsToClone "Add" no_pipes dir_and_pipe [])
  = Some "Error while adding mapped pipe (\\.\pipe\log) to the container: access denied"
  /\ exists (k : nat) (req : ModifySettingRequest) (err : error),
       mount_requests "Add" dir_and_pipe !! k = Some req
       /\ last (snd (addMountsToClone "Add" no_pipes dir_and_pipe []))
          = Some (req, Some err).
Proof.
  split; [reflexivity|].
  destruct (addMountsToClone_stops_at_refusal "Add" no_pipes dir_and_pipe [] _ eq_refl)
    as (k & req & err & Hk & _ & Hlast & _).
  exists k, req, err. split; [exact Hk|exact Hlast].
Defined.

End MountWitnesses.

(** ** More on utility-VM creation *)

Section MoreUvmFacts.
Import Json Mergemaps hcsschema Uvm Examples.

Lemma close_calls_app a b : close_calls (a ++ b) = close_calls a ++ close_calls b.
Proof. apply omap_app. Qed.

Lemma no_close_calls (evs : list event) :
  Forall (fun e => forall v, e <> EvClose v) evs -> close_calls evs = [].
Proof.
  induction 1 as [|e evs He _ IH]; [done|].
  destruct e; try exact IH. by destruct (He vmID).
Qed.

Lemma body_no_close h (opts : OptionsWCOW) (uvm0 : UtilityVM)
    (r : outcome UtilityVM) (body : list event) :
  body_spec h opts uvm0 r body -> close_calls body = [].
Proof.
  intros (setup & mid & fin & -> & Hsetup & H).
  destruct (quiet_obs _ Hsetup) as (_ & _ & _ & _ & Hs).
  rewrite !close_calls_app, (no_close_calls _ Hs). cbn [app].
  destruct H as [(-> & -> & _)|(sf & uvm1 & doc1 & o & _ & _ & _ & Hb & Ho)]; [done|].
  assert (close_calls mid = []) as ->.
  { apply no_close_calls. unfold branch_spec in Hb. destruct (IsClone opts).
    - destruct (TemplateConfig opts).
      + destruct Hb as (calls & -> & _). apply clone_events_obs.
      + destruct Hb as [-> _]. constructor.
    - by destruct Hb as (_ & _ & _ & ? & _). }
  destruct o as [[uvm2 doc2]|e|]; [|by destruct Ho as [-> _]..].
  apply no_close_calls. by destruct (submit_spec_obs _ _ _ _ _ _ Ho) as (_ & _ & ?).
Qed.

Lemma closing_close_calls {A} (r : outcome A) (v : string) :
  close_calls (closing r v) = match r with Err _ => [v] | _ => [] end.
Proof. by destruct r. Qed.

(** X7. [CreateWCOW] closes the handle it was building exactly when it returns
    an error after the handle exists.  A run that returns a handle, or that
    panics, never calls [Close].  A run that returns an error either failed to
    generate an id (the request had none, [guid.NewV4] failed, and that was
    the only call made), or calls [Close] exactly once, as its last call, on
    the handle whose id is the request's id or, if the request had none, the
    generated one. *)
Theorem CreateWCOW_closes_exactly_on_error (h : Host) (opts : OptionsWCOW) (w : World) :
  let r := fst (run (CreateWCOW h opts) w) in
  let evs := snd (run (CreateWCOW h opts) w) in
  match r with
  | Err e =>
      (ID opts = "" /\ guid_NewV4 h w = inl e /\ evs = [EvNewGuid])
      \/ exists vmID,
           close_calls evs = [vmID] /\ last evs = Some (EvClose vmID)
           /\ (ID opts <> "" -> vmID = ID opts)
           /\ (ID opts = "" -> guid_NewV4 h w = inr vmID)
  | _ => close_calls evs = []
  end.
Proof.
  cbv zeta.
  apply (wp_run (CreateWCOW h opts) w (fun r evs _ =>
    match r with
    | Err e =>
        (ID opts = "" /\ guid_NewV4 h w = inl e /\ evs = [EvNewGuid])
        \/ exists vmID,
             close_calls evs = [vmID] /\ last evs = Some (EvClose vmID)
             /\ (ID opts <> "" -> vmID = ID opts)
             /\ (ID opts = "" -> guid_NewV4 h w = inr vmID)
    | _ => close_calls evs = []
    end)).
  unfold CreateWCOW. apply wp_bind.
  destruct (String.eqb (ID opts) "") eqn:Hid.
  - apply String.eqb_eq in Hid.
    apply wp_bind, wp_try, wp_NewV4. destruct (guid_NewV4 h w) as [err|g] eqn:Hg.
    + left. done.
    + apply wp_ret, wp_defer_Close.
      eapply wp_wand; [apply CreateWCOW_body_spec|]. intros rb body w' Hbody.
      apply body_no_close in Hbody.
      destruct rb as [u|e|]; rewrite ?close_calls_app, ?Hbody; try done.
      right. exists g. cbn [id set_ID ID Options_]. split_and!; try done.
      by rewrite !app_assoc, last_snoc.
  - apply String.eqb_neq in Hid.
    apply wp_ret, wp_defer_Close.
    eapply wp_wand; [apply CreateWCOW_body_spec|]. intros rb body w' Hbody.
    apply body_no_close in Hbody.
    destruct rb as [u|e|]; rewrite ?close_calls_app, ?Hbody; try done.
    right. exists (ID opts). cbn [id]. split_and!; try done.
    by rewrite !app_assoc, last_snoc.
Qed.

Lemma branch_spec_quiet h (opts : OptionsWCOW) (sf : string) (uvm1 : UtilityVM)
    (doc1 : ComputeSystem) (mid : list event) (o : outcome (UtilityVM * ComputeSystem)) :
  branch_spec h opts sf uvm1 doc1 mid o ->
  submitted mid = [] /\ listen_calls mid = [].
Proof.
  unfold branch_spec. destruct (IsClone opts).
  - destruct (TemplateConfig opts).
    + intros (calls & -> & _). by destruct (clone_events_obs calls) as (? & ? & _).
    + by intros [-> _].
  - by intros (_ & ? & ? & _).
Qed.

(** X8. A handle that [CreateWCOW] returns belongs to a compute system that was
    created: exactly one document was submitted, the creation succeeded, and
    the handle's [runtimeID] is the id that the creation returned.  If the
    request asks for an external guest connection or is a clone, exactly one
    listener was opened, on the address made of that [runtimeID] and the GCS
    service id, and the handle holds it; otherwise no listener was opened. *)
Theorem CreateWCOW_handle_is_running (h : Host) (opts : OptionsWCOW) (w : World)
    (u : UtilityVM) :
  fst (run (CreateWCOW h opts) w) = Ok u ->
  let evs := snd (run (CreateWCOW h opts) w) in
  let addr := {| VMID := runtimeID u; ServiceID := WindowsGcsHvsockServiceID h |} in
  (exists d, submitted evs = [(d, inr (runtimeID u))])
  /\ if ExternalGuestConnection opts || IsClone opts
     then listen_calls evs = [addr] /\ gcListener u = Some addr
     else listen_calls evs = [].
Proof.
  intros Hr. cbv zeta. split.
  all: revert Hr; generalize (CreateWCOW_run h opts w).
  all: generalize (fst (run (CreateWCOW h opts) w)), (snd (run (CreateWCOW h opts) w)).
  all: intros r evs (pre & mid & fin & post & -> & Hpre & H) ->.
  all: destruct (quiet_obs _ Hpre) as (Hp1 & Hp2 & _).
  all: destruct H as [(_ & _ & [] & _)
                     |(vmID & sf & uvm1 & doc1 & o & -> & _ & _ & _ & Hb & Ho)].
  all: destruct (branch_spec_quiet _ _ _ _ _ _ _ Hb) as [Hm1 Hm2].
  all: rewrite ?submitted_app, ?listen_calls_app, ?Hp1, ?Hp2, ?Hm1, ?Hm2; cbn [closing app].
  all: rewrite ?app_nil_r.
  all: destruct o as [[uvm2 doc2]|e|]; [|by destruct Ho..].
  all: unfold submit_spec in Ho.
  all: destruct (MergeJSON _ _) as [e|d]; [by destruct Ho as (_ & ? & ?)|].
  all: destruct Ho as [[err|rid] Ho]; [by destruct Ho as (_ & ? & ?)|].
  all: destruct (ExternalGuestConnection opts || IsClone opts).
  - destruct Ho as ([e|] & -> & [= ->]). by exists d.
  - destruct Ho as (-> & [= ->]). by exists d.
  - destruct Ho as ([e|] & -> & [= ->]). done.
  - destruct Ho as (-> & [= ->]). done.
Qed.

(** X9. [CreateWCOW] submits at most one document per run.  A listener is only
    opened after a document was submitted and accepted.  If the submission is
    refused, no listener is opened, the run returns an error and its last call
    closes the handle. *)
Theorem CreateWCOW_one_submission (h : Host) (opts : OptionsWCOW) (w : World) :
  let r := fst (run (CreateWCOW h opts) w) in
  let evs := snd (run (CreateWCOW h opts) w) in
  (length (submitted evs) <= 1)%nat
  /\ (listen_calls evs <> [] -> exists d rid, submitted evs = [(d, inr rid)])
  /\ (forall d err, (d, inl err) ∈ submitted evs ->
        listen_calls evs = []
        /\ (exists e, r = Err e)
        /\ exists vmID, last evs = Some (EvClose vmID)).
Proof.
  cbv zeta. generalize (CreateWCOW_run h opts w).
  generalize (fst (run (CreateWCOW h opts) w)), (snd (run (CreateWCOW h opts) w)).
  intros r evs (pre & mid & fin & post & -> & Hpre & H).
  destruct (quiet_obs _ Hpre) as (Hp1 & Hp2 & _).
  destruct H as [(-> & -> & _ & Hpost)
                |(vmID & sf & uvm1 & doc1 & o & -> & _ & _ & _ & Hb & Ho)].
  { assert (submitted post = [] /\ listen_calls post = []) as [Hs Hl]
      by (by destruct Hpost as [->|[v ->]]).
    rewrite !submitted_app, !listen_calls_app, Hp1, Hp2, Hs, Hl. cbn.
    split_and!; [lia|done|]. by intros ?? ?%elem_of_nil. }
  destruct (branch_spec_quiet _ _ _ _ _ _ _ Hb) as [Hm1 Hm2].
  destruct (closing_obs r vmID) as (Hc1 & Hc2 & _).
  rewrite !submitted_app, !listen_calls_app, Hp1, Hp2, Hm1, Hm2, Hc1, Hc2.
  cbn [app]. rewrite !app_nil_r.
  destruct o as [[uvm2 doc2]|e|].
  2,3: destruct Ho as [-> _]; cbn; split_and!; [lia|done|]; by intros ?? ?%elem_of_nil.
  unfold submit_spec in Ho.
  destruct (MergeJSON _ _) as [e|d].
  { destruct Ho as [-> _]. cbn. split_and!; [lia|done|]. by intros ?? ?%elem_of_nil. }
  destruct Ho as [[err|rid] Ho].
  - destruct Ho as (-> & e & ->). cbn. split_and!; [lia|done|].
    intros d' err' _. split_and!; [done|by exists e|].
    exists vmID. by rewrite !last_app.
  - destruct (ExternalGuestConnection opts || IsClone opts).
    + destruct Ho as (err & -> & _). cbn. split_and!; [lia|by eauto|].
      by intros d' err' [=]%list_elem_of_singleton.
    + destruct Ho as (-> & _). cbn. split_and!; [lia|done|].
      by intros d' err' [=]%list_elem_of_singleton.
Qed.

(** X10. For a request that carries an id, [CreateWCOW] validates before it
    touches anything.  If [verifyOptions] rejects the request, the run returns
    the rejection wrapped in [errBadUVMOpts] and its only call is the [Close]
    of the handle.  If the request is valid but the utility-VM folder cannot
    be located among the layer folders, the run returns that error prefixed
    with the failure to locate, and its only calls are the search and the
    [Close]: no folder or disk is looked at or created and nothing is
    submitted. *)
Theorem CreateWCOW_rejects_before_acquiring (h : Host) (opts : OptionsWCOW) (w : World) :
  ID opts <> "" ->
  (forall e, verifyOptions h opts = Some e ->
     run (CreateWCOW h opts) w
     = (Err (wrap (errBadUVMOpts h) e), [EvClose (ID opts)]))
  /\ (forall e, verifyOptions h opts = None ->
        LocateUVMFolder h w (LayerFolders opts) = inl e ->
        run (CreateWCOW h opts) w
        = (Err (wrap "failed to locate utility VM folder from layer folders" e),
           [EvLocateUVMFolder (LayerFolders opts); EvClose (ID opts)])).
Proof.
  intros Hid%String.eqb_neq. split.
  - intros e Hv.
    unfold run, CreateWCOW, CreateWCOW_body, defer_Close_on_error, check,
      mbind, M_bind, mret, M_ret, throw.
    rewrite Hid, Hv. cbn [fst snd log Close emit id]. by rewrite drop_app_length.
  - intros e Hv Hl.
    unfold run, CreateWCOW, CreateWCOW_body, defer_Close_on_error, check, try,
      LocateUVMFolder_, mbind, M_bind, mret, M_ret, throw.
    rewrite Hid, Hv, Hl. cbn [fst snd log Close emit id].
    by rewrite <- app_assoc, drop_app_length.
Qed.

(** *** The handle that is returned *)

Lemma prepareConfigDoc_handle h (uvm : UtilityVM) (opts : OptionsWCOW) (uf : string)
    (w : World) :
  wp (prepareConfigDoc h uvm opts uf) w (fun r _ w' =>
    fs w' = fs w
    /\ forall doc uvm', r = Ok (doc, uvm') ->
         exists n, uvm' = set_processorCount n uvm).
Proof.
  unfold prepareConfigDoc. apply wp_bind, wp_try, wp_hostProcessorInfo.
  destruct (hostProcessorInfo h w) as [err|pt]; [done|].
  apply wp_ret. split; [done|]. intros doc uvm' [= <- <-]. by eexists.
Qed.

Lemma attachScratch_handle h (uvm : UtilityVM) (doc : ComputeSystem)
    (uf sf : string) (w : World) :
  wp (attachScratch h uvm doc uf sf) w (fun r _ w' =>
    fs w ⊆ fs w' /\ fs w' ⊆ {[ filepath_Join h sf "sandbox.vhdx" ]} ∪ fs w
    /\ forall uvm2 doc2, r = Ok (uvm2, doc2) ->
         uvm2 = set_scsiLocations
                  (<[ (0%nat, 0%nat) :=
                        {| HostPath := filepath_Join h sf "sandbox.vhdx";
                           refCount := 1 |} ]> (scsiLocations uvm)) uvm).
Proof.
  unfold attachScratch. apply wp_bind.
  eapply wp_wand; [apply createSandboxVhdx_spec|].
  intros o evs w' [(_ & _ & -> & Hfs)|(_ & _ & [[-> Hfs]|(e & -> & Hfs)])].
  - apply wp_ret. rewrite Hfs. split_and!; [done|apply union_subseteq_r|].
    intros ?? [= <- _]. cbn. by rewrite !lookup_total_singleton.
  - apply wp_ret. rewrite Hfs. split_and!; [apply union_subseteq_r|done|].
    intros ?? [= <- _]. cbn. by rewrite !lookup_total_singleton.
  - rewrite Hfs. split_and!; [done|apply union_subseteq_r|done].
Qed.

Lemma replayTemplate_handle h (uvm : UtilityVM) (doc : ComputeSystem)
    (opts : OptionsWCOW) (sf : string) (w : World) :
  wp (replayTemplate h uvm doc opts sf) w (fun r _ _ =>
    forall uvm2 doc2, r = Ok (uvm2, doc2) ->
      isClone uvm2 = true
      /\ exists m, namespaces uvm2 = Some m
                   /\ m !! CLONING_DEFAULT_NETWORK_NAMESPACE_ID h = Some {| nics := ∅ |}).
Proof.
  unfold replayTemplate. destruct (TemplateConfig opts) as [tc|]; [|by apply wp_panic].
  apply wp_bind. eapply wp_wand; [apply cloneResources_spec|].
  intros o evs w' _. destruct o as [[uvm2 doc2]|e|]; [|done..].
  apply wp_ret. intros ?? [= <- _]. cbn. split; [done|].
  eexists. split; [done|]. apply lookup_insert_eq.
Qed.

Lemma submitDocument_handle h (opts : OptionsWCOW) (uvm : UtilityVM)
    (doc : ComputeSystem) (w : World) :
  wp (submitDocument h uvm doc opts) w (fun r _ w' =>
    fs w' = fs w
    /\ forall u, r = Ok u ->
         exists rid,
           u = if ExternalGuestConnection opts || IsClone opts
               then set_gcListener
                      (Some {| VMID := rid; ServiceID := WindowsGcsHvsockServiceID h |})
                      (set_runtimeID rid uvm)
               else set_runtimeID rid uvm).
Proof.
  unfold submitDocument.
  apply wp_bind, wp_try, wp_ret.
  destruct (MergeJSON _ _) as [err|d]; [done|].
  apply wp_bind, wp_try, wp_create.
  destruct (uvm_create h _ uvm d) as [err|rid]; [done|].
  destruct (ExternalGuestConnection opts || IsClone opts).
  - unfold startExternalGcsListener. apply wp_bind, wp_check, wp_ListenHvsock.
    cbn [runtimeID set_runtimeID].
    match goal with |- context [winio_ListenHvsock h ?w' ?a] =>
      destruct (winio_ListenHvsock h w' a) as [e|] end; [done|].
    apply wp_ret. split; [done|]. intros u [= <-]. by exists rid.
  - apply wp_ret. split; [done|]. intros u [= <-]. by exists rid.
Qed.

(** What the guarded part returns, when it returns a handle. *)
Lemma CreateWCOW_body_handle h (uvm0 : UtilityVM) (opts : OptionsWCOW) (w : World) :
  wp (CreateWCOW_body h uvm0 opts) w (fun r _ _ =>
    forall u, r = Ok u ->
      if IsClone opts then
        isClone u = true
        /\ exists m, namespaces u = Some m
                     /\ m !! CLONING_DEFAULT_NETWORK_NAMESPACE_ID h = Some {| nics := ∅ |}
      else
        exists n sf rid,
          last (LayerFolders opts) = Some sf
          /\ let built :=
               set_runtimeID rid
                 (set_scsiLocations
                    (<[ (0%nat, 0%nat) :=
                          {| HostPath := filepath_Join h sf "sandbox.vhdx";
                             refCount := 1 |} ]> (scsiLocations uvm0))
                    (set_processorCount n uvm0)) in
             u = if ExternalGuestConnection opts
                 then set_gcListener
                        (Some {| VMID := rid;
                                 ServiceID := WindowsGcsHvsockServiceID h |}) built
                 else built).
Proof.
  unfold CreateWCOW_body.
  apply wp_bind, wp_check, wp_ret.
  destruct (verifyOptions h opts) as [err|]; [done|].
  apply wp_bind, wp_try, wp_LocateUVMFolder.
  destruct (LocateUVMFolder h w (LayerFolders opts)) as [err|uf]; [done|].
  apply wp_bind. eapply wp_wand; [apply getScratchFolder_spec|].
  intros r1 evs1 w1 Hfolder.
  destruct r1 as [sf|e|]; [|done..].
  assert (last (LayerFolders opts) = Some sf) as Hlast.
  { destruct (last (LayerFolders opts)) as [sf'|]; [|by destruct Hfolder].
    by destruct Hfolder as [(_ & _ & [= ->] & _)|(_ & _ & [[[= ->] _]|(e & [=] & _)])]. }
  apply wp_bind, wp_rethrow. eapply wp_wand; [apply prepareConfigDoc_handle|].
  intros r2 evs2 w2 [_ Hprep]. destruct r2 as [[doc1 uvm1]|e|]; [|done..].
  destruct (Hprep _ _ eq_refl) as (n & ->).
  apply wp_bind. destruct (IsClone opts) eqn:Hclone; cbn [negb].
  - eapply wp_wand; [apply replayTemplate_handle|].
    intros r3 evs3 w3 Hreplay. destruct r3 as [[uvm2 doc2]|e|]; [|done..].
    destruct (Hreplay _ _ eq_refl) as (Hc & m & Hns & Hm).
    eapply wp_wand; [apply submitDocument_handle|].
    intros r4 evs4 w4 [_ Hsub] u ->. destruct (Hsub _ eq_refl) as (rid & ->).
    rewrite Hclone, orb_true_r. cbn. split; [done|]. by exists m.
  - eapply wp_wand; [apply attachScratch_handle|].
    intros r3 evs3 w3 (_ & _ & Hattach). destruct r3 as [[uvm2 doc2]|e|]; [|done..].
    rewrite (Hattach _ _ eq_refl).
    eapply wp_wand; [apply submitDocument_handle|].
    intros r4 evs4 w4 [_ Hsub] u ->. destruct (Hsub _ eq_refl) as (rid & ->).
    rewrite Hclone, orb_false_r. exists n, sf, rid. split; [done|]. done.
Qed.

(** X11. The handle that [CreateWCOW] returns for a request that is not a
    clone.  Its id is the request's id, or the generated one if the request
    had none; owner, backing and device backing are taken from the request;
    the operating system is windows and there is one SCSI controller; it is
    not marked as a clone and has no namespaces, shares or assigned devices.
    Its only SCSI mount is at controller 0, slot 0: sandbox.vhdx in the last
    layer folder, with a reference count of 1.  It holds a listener, on its
    own [runtimeID], exactly when the request asks for an external guest
    connection. *)
Theorem CreateWCOW_fresh_handle (h : Host) (opts : OptionsWCOW) (w : World)
    (u : UtilityVM) :
  IsClone opts = false ->
  fst (run (CreateWCOW h opts) w) = Ok u ->
  (if String.eqb (ID opts) "" then guid_NewV4 h w = inr (id u) else id u = ID opts)
  /\ owner u = Owner_ opts
  /\ operatingSystem u = "windows"
  /\ scsiControllerCount u = 1
  /\ physicallyBacked u = negb (AllowOvercommit_ opts)
  /\ devicesPhysicallyBacked u = FullyPhysicallyBacked opts
  /\ isClone u = false
  /\ namespaces u = None
  /\ vsmbDirShares u = ∅ /\ vsmbFileShares u = ∅ /\ vpciDevices u = ∅
  /\ (exists sf,
        last (LayerFolders opts) = Some sf
        /\ scsiLocations u
           = {[ (0%nat, 0%nat) := {| HostPath := filepath_Join h sf "sandbox.vhdx";
                                     refCount := 1 |} ]})
  /\ gcListener u
     = if ExternalGuestConnection opts
       then Some {| VMID := runtimeID u; ServiceID := WindowsGcsHvsockServiceID h |}
       else None.
Proof.
  intros Hclone. revert u.
  apply (wp_run (CreateWCOW h opts) w (fun r _ _ => forall u, r = Ok u -> _)).
  unfold CreateWCOW. apply wp_bind.
  destruct (String.eqb (ID opts) "") eqn:Hid.
  - apply wp_bind, wp_try, wp_NewV4. destruct (guid_NewV4 h w) as [err|g] eqn:Hg; [done|].
    apply wp_ret, wp_defer_Close.
    eapply wp_wand; [apply CreateWCOW_body_handle|].
    intros r evs w' Hbody. destruct r as [u|e|]; [|done..].
    specialize (Hbody u eq_refl). cbn [IsClone set_ID] in Hbody. rewrite Hclone in Hbody.
    destruct Hbody as (n & sf & rid & Hlast & Hu). intros ? [= <-].
    cbv zeta in Hu. cbn [ExternalGuestConnection set_ID Options_] in Hu. subst u.
    destruct (ExternalGuestConnection opts); cbn; rewrite insert_empty;
      split_and!; try done; by exists sf.
  - apply wp_ret, wp_defer_Close.
    eapply wp_wand; [apply CreateWCOW_body_handle|].
    intros r evs w' Hbody. destruct r as [u|e|]; [|done..].
    specialize (Hbody u eq_refl). rewrite Hclone in Hbody.
    destruct Hbody as (n & sf & rid & Hlast & Hu). intros ? [= <-]. cbv zeta in Hu. subst u.
    destruct (ExternalGuestConnection opts); cbn; rewrite insert_empty;
      split_and!; try done; by exists sf.
Qed.

(** X12. The handle that [CreateWCOW] returns for a clone is marked as a clone
    and has a namespace table that maps the default namespace for clones to a
    namespace without NICs, whatever the replayed resources did to the
    table. *)
Theorem CreateWCOW_clone_handle (h : Host) (opts : OptionsWCOW) (w : World)
    (u : UtilityVM) :
  IsClone opts = true ->
  fst (run (CreateWCOW h opts) w) = Ok u ->
  isClone u = true
  /\ exists m, namespaces u = Some m
               /\ m !! CLONING_DEFAULT_NETWORK_NAMESPACE_ID h = Some {| nics := ∅ |}.
Proof.
  intros Hclone. revert u.
  apply (wp_run (CreateWCOW h opts) w (fun r _ _ => forall u, r = Ok u -> _)).
  unfold CreateWCOW. apply wp_bind.
  destruct (String.eqb (ID opts) "").
  - apply wp_bind, wp_try, wp_NewV4. destruct (guid_NewV4 h w) as [err|g]; [done|].
    apply wp_ret, wp_defer_Close.
    eapply wp_wand; [apply CreateWCOW_body_handle|].
    intros r evs w' Hbody. destruct r as [u|e|]; [|done..].
    specialize (Hbody u eq_refl). cbn [IsClone set_ID] in Hbody. rewrite Hclone in Hbody.
    by intros ? [= <-].
  - apply wp_ret, wp_defer_Close.
    eapply wp_wand; [apply CreateWCOW_body_handle|].
    intros r evs w' Hbody. destruct r as [u|e|]; [|done..].
    specialize (Hbody u eq_refl). rewrite Hclone in Hbody.
    by intros ? [= <-].
Qed.

(** *** The replay loop *)


(** *** The file system *)


Lemma CreateWCOW_body_footprint h (uvm0 : UtilityVM) (opts : OptionsWCOW) (w : World) :
  IsClone opts = false ->
  wp (CreateWCOW_body h uvm0 opts) w (fun _ _ w' =>
    fs w ⊆ fs w'
    /\ match last (LayerFolders opts) with
       | Some sf =>
           let p := filepath_Join h sf "sandbox.vhdx" in
           (sf ∈ fs w -> fs w' ⊆ {[ p ]} ∪ fs w)
           /\ exists asked,
                fs asked = fs w
                /\ fs w' ⊆ {[ sf; p ]} ∪ os_MkdirAll_parents h asked sf ∪ fs w
       | None => fs w' = fs w
       end).
Proof.
  intros Hclone. unfold CreateWCOW_body.
  assert (forall w0 : World, fs w0 = fs w ->
            fs w ⊆ fs w0
            /\ match last (LayerFolders opts) with
               | Some sf =>
                   let p := filepath_Join h sf "sandbox.vhdx" in
                   (sf ∈ fs w -> fs w0 ⊆ {[ p ]} ∪ fs w)
                   /\ exists asked,
                        fs asked = fs w
                        /\ fs w0 ⊆ {[ sf; p ]} ∪ os_MkdirAll_parents h asked sf ∪ fs w
               | None => fs w0 = fs w
               end) as Hsame.
  { intros w0 Hw0. rewrite Hw0. split; [done|]. destruct (last _) as [sf|]; [|done].
    cbv zeta. split; [intros _; apply union_subseteq_r|].
    exists w. split; [done|apply union_subseteq_r]. }
  apply wp_bind, wp_check, wp_ret.
  destruct (verifyOptions h opts) as [err|]; [by apply Hsame|].
  apply wp_bind, wp_try, wp_LocateUVMFolder.
  destruct (LocateUVMFolder h w (LayerFolders opts)) as [err|uf]; [by apply Hsame|].
  clear Hsame. apply wp_bind.
  destruct (last (LayerFolders opts)) as [sf|] eqn:Hlast.
  2: { unfold getScratchFolder. rewrite Hlast. by apply wp_panic. }
  eapply wp_wand; [apply getScratchFolder_spec|].
  intros r1 evs1 w1 Hfolder. cbn [fs emit] in Hfolder. rewrite Hlast in Hfolder.
  cbv zeta in Hfolder |- *.
  set (p := filepath_Join h sf "sandbox.vhdx").
  set (asked := emit (EvStat sf) (emit (EvLocateUVMFolder (LayerFolders opts)) w)) in *.
  set (made := os_MkdirAll_parents h asked sf) in *.
  (* what [getScratchFolder] leaves *)
  assert (fs w ⊆ fs w1 /\ (sf ∈ fs w -> fs w1 = fs w)
          /\ fs w1 ⊆ {[ sf ]} ∪ made ∪ fs w) as (Hlo & Hfound & Hhi).
  { destruct Hfolder as [(_ & _ & _ & ->)|(Hno & _ & [(_ & _ & ->)|(e & _ & _ & ->)])].
    - split_and!; [done|done|apply union_subseteq_r].
    - split_and!; [apply union_subseteq_r', union_subseteq_r|done|].
      by rewrite (assoc_L (∪)).
    - split_and!; [apply union_subseteq_r|done|].
      rewrite <- (assoc_L (∪)). apply union_subseteq_r. }
  (* every later step adds at most sandbox.vhdx *)
  assert (forall s : gset string,
            fs w1 ⊆ s -> s ⊆ {[ p ]} ∪ fs w1 ->
            fs w ⊆ s
            /\ (sf ∈ fs w -> s ⊆ {[ p ]} ∪ fs w)
            /\ exists asked0 : World,
                 fs asked0 = fs w
                 /\ s ⊆ {[ sf; p ]} ∪ os_MkdirAll_parents h asked0 sf ∪ fs w) as Hstep.
  { intros s Hs1 Hs2. split_and!.
    - by etrans.
    - intros Hsf. rewrite <- (Hfound Hsf). done.
    - exists asked. split; [done|]. fold made.
      intros x [Hx|Hx]%Hs2%elem_of_union.
      + by apply elem_of_union_l, elem_of_union_l, elem_of_union_r.
      + apply Hhi in Hx. apply elem_of_union in Hx as [[Hx|Hx]%elem_of_union|Hx].
        * by apply elem_of_union_l, elem_of_union_l, elem_of_union_l.
        * by apply elem_of_union_l, elem_of_union_r.
        * by apply elem_of_union_r. }
  assert (fs w ⊆ fs w1
          /\ (sf ∈ fs w -> fs w1 ⊆ {[ p ]} ∪ fs w)
          /\ exists asked0 : World,
               fs asked0 = fs w
               /\ fs w1 ⊆ {[ sf; p ]} ∪ os_MkdirAll_parents h asked0 sf ∪ fs w) as Hhere
    by (apply Hstep; [done|apply union_subseteq_r]).
  destruct r1 as [sf'|e|]; [|done..].
  assert (sf' = sf) as ->
    by (by destruct Hfolder as [(_ & _ & [= ->] & _)
                               |(_ & _ & [([= ->] & _)|(e & [=] & _)])]).
  apply wp_bind, wp_rethrow. eapply wp_wand; [apply prepareConfigDoc_handle|].
  intros r2 evs2 w2 [Hfs2 _]. rewrite <- Hfs2 in Hstep, Hhere.
  destruct r2 as [[doc1 uvm1]|e|]; [|done..].
  apply wp_bind. rewrite Hclone. cbn [negb].
  eapply wp_wand; [apply attachScratch_handle|].
  intros r3 evs3 w3 (Hlo3 & Hhi3 & _). fold p in Hhi3.
  destruct r3 as [[uvm2 doc2]|e|]; [|by apply Hstep..].
  eapply wp_wand; [apply submitDocument_handle|].
  intros r4 evs4 w4 [-> _]. by apply Hstep.
Qed.

(** X14. What [CreateWCOW] does to the file system for a request that is not
    a clone, however the run ends.  No path is removed.  The only paths that
    can be new are the last layer folder, the parents that [os.MkdirAll] made
    for it, and sandbox.vhdx in it; when the last layer folder was there
    already, sandbox.vhdx is the only path that can be new.  With no layer
    folder the file system is as before. *)
Theorem CreateWCOW_fresh_footprint (h : Host) (opts : OptionsWCOW) (w : World) :
  IsClone opts = false ->
  let w' := snd (CreateWCOW h opts w) in
  fs w ⊆ fs w'
  /\ match last (LayerFolders opts) with
     | Some sf =>
         let p := filepath_Join h sf "sandbox.vhdx" in
         (sf ∈ fs w -> fs w' ⊆ {[ p ]} ∪ fs w)
         /\ exists asked,
              fs asked = fs w
              /\ fs w' ⊆ {[ sf; p ]} ∪ os_MkdirAll_parents h asked sf ∪ fs w
     | None => fs w' = fs w
     end.
Proof.
  intros Hclone. cbv zeta.
  apply (wp_run (CreateWCOW h opts) w (fun _ _ w' =>
    fs w ⊆ fs w'
    /\ match last (LayerFolders opts) with
       | Some sf =>
           (sf ∈ fs w -> fs w' ⊆ {[ filepath_Join h sf "sandbox.vhdx" ]} ∪ fs w)
           /\ exists asked,
                fs asked = fs w
                /\ fs w' ⊆ {[ sf; filepath_Join h sf "sandbox.vhdx" ]}
                            ∪ os_MkdirAll_parents h asked sf ∪ fs w
       | None => fs w' = fs w
       end)).
  unfold CreateWCOW. apply wp_bind.
  destruct (String.eqb (ID opts) "").
  - apply wp_bind, wp_try, wp_NewV4. destruct (guid_NewV4 h w) as [err|g].
    { cbn [fs emit]. split; [done|]. destruct (last _) as [sf|]; [|done].
      split; [intros _; apply union_subseteq_r|].
      exists w. split; [done|apply union_subseteq_r]. }
    apply wp_ret, wp_defer_Close.
    eapply wp_wand; [by apply CreateWCOW_body_footprint|].
    intros r evs w' H. by destruct r.
  - apply wp_ret, wp_defer_Close.
    eapply wp_wand; [by apply CreateWCOW_body_footprint|].
    intros r evs w' H. by destruct r.
Qed.

End MoreUvmFacts.

Section MoreUvmWitnesses.
Import Json Mergemaps hcsschema Uvm Examples MoreExamples.

Lemma CreateWCOW_handle_is_running_witness :
  fst (run (CreateWCOW host4 clone_opts) empty_world) = Ok clone_handle
  /\ listen_calls (snd (run (CreateWCOW host4 clone_opts) empty_world))
     = [ {| VMID := "runtime-id"; ServiceID := "gcs-service-id" |} ].
Proof.
  split; [reflexivity|].
  exact (proj1 (proj2 (CreateWCOW_handle_is_running host4 clone_opts empty_world
                         clone_handle eq_refl))).
Defined.

Lemma CreateWCOW_one_submission_witness :
  listen_calls (snd (run (CreateWCOW host4 clone_opts) empty_world)) <> []
  /\ exists d rid,
       submitted (snd (run (CreateWCOW host4 clone_opts) empty_world)) = [(d, inr rid)].
Proof.
  assert (listen_calls (snd (run (CreateWCOW host4 clone_opts) empty_world)) <> [])
    as Hlisten by (vm_compute; discriminate).
  split; [exact Hlisten|].
  exact (proj1 (proj2 (CreateWCOW_one_submission host4 clone_opts empty_world)) Hlisten).
Defined.

Lemma CreateWCOW_rejects_before_acquiring_witness :
  ID fresh_opts <> ""
  /\ run (CreateWCOW strict_host fresh_opts) empty_world
     = (Err "UVM options incorrect: at least 2 LayerFolders must be supplied",
        [EvClose "vm1"]).
Proof.
  assert (ID fresh_opts <> "") as Hid by (vm_compute; discriminate).
  split; [exact Hid|].
  exact (proj1 (CreateWCOW_rejects_before_acquiring strict_host fresh_opts empty_world
                  Hid) _ eq_refl).
Defined.

Lemma CreateWCOW_fresh_handle_witness :
  IsClone fresh_opts = false
  /\ fst (run (CreateWCOW host4 fresh_opts) empty_world) = Ok fresh_handle
  /\ id fresh_handle = "vm1"
  /\ isClone fresh_handle = false
  /\ gcListener fresh_handle = None.
Proof.
  split; [reflexivity|]. split; [reflexivity|].
  destruct (CreateWCOW_fresh_handle host4 fresh_opts empty_world fresh_handle
              eq_refl eq_refl)
    as (Hid & _ & _ & _ & _ & _ & Hclone & _ & _ & _ & _ & _ & Hlistener).
  split; [exact Hid|]. split; [exact Hclone|exact Hlistener].
Defined.

Lemma CreateWCOW_clone_handle_witness :
  IsClone clone_opts = true
  /\ fst (run (CreateWCOW host4 clone_opts) empty_world) = Ok clone_handle
  /\ isClone clone_handle = true.
Proof.
  split; [reflexivity|]. split; [reflexivity|].
  exact (proj1 (CreateWCOW_clone_handle host4 clone_opts empty_world clone_handle
                  eq_refl eq_refl)).
Defined.


Lemma CreateWCOW_fresh_footprint_witness :
  IsClone fresh_opts = false
  /\ "scratchDir" ∈ fs scratch_world
  /\ fs (snd (CreateWCOW host4 fresh_opts scratch_world))
     ⊆ {[ "scratchDir\sandbox.vhdx" ]} ∪ fs scratch_world.
Proof.
  assert ("scratchDir" ∈ fs scratch_world) as Hin by (vm_compute; reflexivity).
  split; [reflexivity|]. split; [exact Hin|].
  exact (proj1 (proj2 (CreateWCOW_fresh_footprint host4 fresh_opts scratch_world
                         eq_refl)) Hin).
Defined.

End MoreUvmWitnesses.

(** *** The two ways of provisioning, and a listener that fails *)

Section ProvisioningFacts.
Import Json Mergemaps hcsschema Uvm Examples.

Lemma clone_calls_scratch_app a b :
  clone_calls (a ++ b) = clone_calls a ++ clone_calls b
  /\ scratch_creations (a ++ b) = scratch_creations a ++ scratch_creations b.
Proof. split; apply omap_app. Qed.

Lemma post_obs (post : list event) :
  post = [] \/ (exists vmID, post = [EvClose vmID]) ->
  clone_calls post = [] /\ scratch_creations post = []
  /\ forall a err, EvListenHvsock a err ∉ post.
Proof.
  intros [->|[v ->]]; split_and!; try done.
  - intros a err H. by apply elem_of_nil in H.
  - intros a err H. by apply list_elem_of_singleton in H.
Qed.

Lemma no_listen_calls (evs : list event) (a : HvsockAddr) (err : option error) :
  listen_calls evs = [] -> EvListenHvsock a err ∉ evs.
Proof.
  intros Hnone Hin.
  assert (a ∈ listen_calls evs) as Ha
    by (unfold listen_calls; apply list_elem_of_omap; by exists (EvListenHvsock a err)).
  rewrite Hnone in Ha. by apply elem_of_nil in Ha.
Qed.

(** X15. The two ways of provisioning exclude each other.  A run of
    [CreateWCOW] for a clone never creates a scratch disk, and a run for a
    request that is not a clone never replays a resource, also when the
    request carries a template configuration. *)
Theorem CreateWCOW_provisions_one_way (h : Host) (opts : OptionsWCOW) (w : World) :
  let evs := snd (run (CreateWCOW h opts) w) in
  if IsClone opts then scratch_creations evs = [] else clone_calls evs = [].
Proof.
  cbv zeta. generalize (CreateWCOW_run h opts w).
  generalize (fst (run (CreateWCOW h opts) w)), (snd (run (CreateWCOW h opts) w)).
  intros r evs (pre & mid & fin & post & -> & Hpre & H).
  destruct (quiet_obs _ Hpre) as (_ & _ & Hp3 & Hp4 & _).
  rewrite !(proj1 (clone_calls_scratch_app _ _)), !(proj2 (clone_calls_scratch_app _ _)).
  rewrite Hp3, Hp4. cbn [app].
  destruct H as [(-> & -> & _ & Hpost)
                |(vmID & sf & uvm1 & doc1 & o & -> & _ & _ & _ & Hb & Ho)].
  { destruct (post_obs _ Hpost) as (-> & -> & _). by destruct (IsClone opts). }
  destruct (closing_obs r vmID) as (_ & _ & -> & ->). rewrite !app_nil_r.
  assert (clone_calls fin = [] /\ scratch_creations fin = []) as [-> ->].
  { destruct o as [[uvm2 doc2]|e|]; [|by destruct Ho as [-> _]..].
    by destruct (submit_spec_obs _ _ _ _ _ _ Ho) as (? & ? & _). }
  rewrite !app_nil_r. unfold branch_spec in Hb. destruct (IsClone opts).
  - destruct (TemplateConfig opts).
    + destruct Hb as (calls & -> & _). by destruct (clone_events_obs calls) as (_ & _ & _ & ? & _).
    + by destruct Hb as [-> _].
  - by destruct Hb as [? _].
Qed.

(** X16. When opening the listener fails, [CreateWCOW] returns the listener's
    error as it is, without a prefix.  By then the compute system exists: the
    run ends with the accepted submission, whose answer is the id on which the
    listener was requested, then the failed request for the listener, then the
    [Close] of the handle. *)
Theorem CreateWCOW_listener_failure (h : Host) (opts : OptionsWCOW) (w : World)
    (addr : HvsockAddr) (e : error) :
  EvListenHvsock addr (Some e) ∈ snd (run (CreateWCOW h opts) w) ->
  fst (run (CreateWCOW h opts) w) = Err e
  /\ ServiceID addr = WindowsGcsHvsockServiceID h
  /\ exists front d vmID,
       snd (run (CreateWCOW h opts) w)
       = front ++ [EvCreate d (inr (VMID addr)); EvListenHvsock addr (Some e);
                   EvClose vmID].
Proof.
  generalize (CreateWCOW_run h opts w).
  generalize (fst (run (CreateWCOW h opts) w)), (snd (run (CreateWCOW h opts) w)).
  intros r evs (pre & mid & fin & post & -> & Hpre & H) Hin.
  destruct (quiet_obs _ Hpre) as (_ & Hp2 & _).
  apply elem_of_app in Hin as [Hin|Hin]; [by apply no_listen_calls in Hin|].
  destruct H as [(-> & -> & _ & Hpost)
                |(vmID & sf & uvm1 & doc1 & o & -> & _ & _ & _ & Hb & Ho)].
  { destruct (post_obs _ Hpost) as (_ & _ & Hno). by apply Hno in Hin. }
  apply elem_of_app in Hin as [Hin|Hin].
  { exfalso. revert Hin. apply no_listen_calls.
    unfold branch_spec in Hb. destruct (IsClone opts).
    - destruct (TemplateConfig opts).
      + destruct Hb as (calls & -> & _). by destruct (clone_events_obs calls) as (_ & ? & _).
      + by destruct Hb as [-> _].
    - by destruct Hb as (_ & _ & ? & _). }
  apply elem_of_app in Hin as [Hin|Hin].
  2: { destruct r; cbn in Hin; try (by apply elem_of_nil in Hin).
       by apply list_elem_of_singleton in Hin. }
  destruct o as [[uvm2 doc2]|e'|];
    [|destruct Ho as [-> _]; by apply elem_of_nil in Hin..].
  unfold submit_spec in Ho. cbv zeta in Ho.
  destruct (MergeJSON _ _) as [e'|d].
  { destruct Ho as [-> _]. by apply elem_of_nil in Hin. }
  destruct Ho as [[err|rid] Ho].
  { destruct Ho as [-> _]. by apply list_elem_of_singleton in Hin. }
  destruct (ExternalGuestConnection opts || IsClone opts).
  2: { destruct Ho as [-> _]. by apply list_elem_of_singleton in Hin. }
  destruct Ho as (err & -> & ->).
  apply elem_of_cons in Hin as [[=]|Hin].
  apply list_elem_of_singleton in Hin. injection Hin as -> <-.
  split_and!; [done|done|].
  exists (pre ++ mid), d, vmID. cbn. by rewrite <- !app_assoc.
Qed.

End ProvisioningFacts.

Section ProvisioningWitnesses.
Import Json Mergemaps hcsschema Uvm Examples MoreExamples.

Lemma CreateWCOW_listener_failure_witness :
  fst (run (CreateWCOW deaf_host clone_opts) empty_world) = Err "access denied"
  /\ exists front d vmID,
       snd (run (CreateWCOW deaf_host clone_opts) empty_world)
       = front ++ [EvCreate d (inr "runtime-id");
                   EvListenHvsock {| VMID := "runtime-id"; ServiceID := "gcs-service-id" |}
                     (Some "access denied");
                   EvClose vmID].
Proof.
  assert (EvListenHvsock {| VMID := "runtime-id"; ServiceID := "gcs-service-id" |}
            (Some "access denied")
          ∈ snd (run (CreateWCOW deaf_host clone_opts) empty_world)) as Hin
    by (vm_compute; repeat constructor).
  destruct (CreateWCOW_listener_failure deaf_host clone_opts empty_world _ _ Hin)
    as (Hr & _ & Hevs).
  split; [exact Hr|exact Hevs].
Defined.

End ProvisioningWitnesses.
